(** * AI Browser tool handlers (sdk-mcp-server.ts)

    A shallow embedding of the tool handlers of the in-process MCP server:
    the helpers [withTimeout], [textResult], [imageResult] and
    [fillFormElement], and the handlers of the page, input, snapshot,
    network, console, emulation and performance tools, with the second
    definition of the emulation tool in tools/emulation.ts.

    The handlers talk to two collaborators, [browserContext] and
    [browserViewManager].  Their state is a record [World]; the operations
    that reach the browser are answered by an oracle stored in the world, so
    that every handler is an executable function of the world it starts in.
    Text is kept as UTF-8 and measured in UTF-16 code units, numbers are
    rationals, and what only the JavaScript engine decides (the digits of a
    number that is not a safe integer, the letter case of text that is not
    ASCII, the local time) is a parameter of the world. *)

From Stdlib Require Import ZArith QArith String Ascii List Bool Lia DecimalString.
From stdpp Require Import base gmap strings list.

Local Open Scope Z_scope.
Set Warnings "-register-all".

(** ** JavaScript strings and numbers *)

Module Js.

Definition nl : string := String "010"%char EmptyString.
Definition dquote : string := String "034"%char EmptyString.

(** [lines.join('\n')] *)
Definition join_lines (lines : list string) : string := String.concat nl lines.

(** A string is truthy when it is not empty. *)
Definition truthy (s : string) : bool := negb (String.eqb s "").

(** [s || d] on strings. *)
Definition or_else (s d : string) : string := if truthy s then s else d.

(** [s.includes(sub)] *)
Definition includes (s sub : string) : bool :=
  match String.index 0 sub s with Some _ => true | None => false end.

(** The decimal digits of an integer: how a template literal prints a
    safe integer, such as a count or a position in an array. *)
Definition showZ (z : Z) : string := NilZero.string_of_int (Z.to_int z).

(** A JavaScript number is modelled as a rational.  It is an integer when
    its reduced denominator is one. *)
Definition is_integer (q : Q) : bool := (Qden (Qred q) =? 1)%positive.

Definition Qltb (a b : Q) : bool := negb (Qle_bool b a).

(** A number is truthy when it is not zero. *)
Definition nonzero (q : Q) : bool := negb (Qeq_bool q 0).

(** [arr[i]] for a number [i]: an element for an integer index in range,
    [undefined] for anything else (a fraction is a property name the
    array does not have). *)
Definition index {A : Type} (arr : list A) (i : Q) : option A :=
  let r := Qred i in
  if is_integer i && (0 <=? Qnum r) then arr !! Z.to_nat (Qnum r) else None.

(** [arr.slice(start, end)] *)
Definition slice {A : Type} (arr : list A) (start stop : Z) : list A :=
  let len := Z.of_nat (length arr) in
  let k := if start <? 0 then Z.max (len + start) 0 else Z.min start len in
  let final := if stop <? 0 then Z.max (len + stop) 0 else Z.min stop len in
  take (Z.to_nat (Z.max (final - k) 0)) (drop (Z.to_nat k) arr).

(** *** Lengths and prefixes in UTF-16 code units

    A [string] holds text as its UTF-8 bytes.  JavaScript counts and cuts
    a string by UTF-16 code units: one for a character of the basic plane
    (one to three bytes), two for any other (four bytes). *)

(** A byte [10xxxxxx], which continues a character. *)
Definition is_continuation (c : ascii) : bool :=
  match c with
  | Ascii _ _ _ _ _ _ false true => true
  | _ => false
  end.

(** A byte [1111xxxx], which starts a character of four bytes. *)
Definition is_astral_lead (c : ascii) : bool :=
  match c with
  | Ascii _ _ _ _ true true true true => true
  | _ => false
  end.

(** The code units a byte stands for: those of the character it starts. *)
Definition units_of (c : ascii) : nat :=
  if is_continuation c then 0 else if is_astral_lead c then 2 else 1.

(** [s.length] *)
Fixpoint length (s : string) : nat :=
  match s with
  | EmptyString => 0
  | String c r => units_of c + length r
  end.

(** The first code unit of a character of four bytes, the high surrogate
    [110110wwwwyyyyyy], written as three bytes: [wwww] is the plane of the
    character less one, [yyyyyy] are the six bits below it. *)
Definition high_surrogate (lead : ascii) (rest : string) : string :=
  let b1 := match rest with String c _ => c | EmptyString => zero end in
  let b2 := match rest with String _ (String c _) => c | _ => zero end in
  match lead, b1, b2 with
  | Ascii l0 l1 l2 _ _ _ _ _, Ascii p0 p1 p2 p3 p4 p5 _ _, Ascii _ _ _ _ q4 q5 _ _ =>
      let plane :=
        ((if l2 then 16 else 0) + (if l1 then 8 else 0) + (if l0 then 4 else 0)
         + (if p5 then 2 else 0) + (if p4 then 1 else 0))%nat in
      let w := (plane - 1)%nat in
      String "237"
        (String (Ascii (Nat.testbit w 0) (Nat.testbit w 1) (Nat.testbit w 2)
                   (Nat.testbit w 3) false true false true)
           (String (Ascii q4 q5 p0 p1 p2 p3 false true) EmptyString))
  end.

(** [s.substring(0, n)]: the first [n] code units of [s].  When the cut
    falls inside a character of two code units, the first of them, a lone
    high surrogate, ends the result. *)
Fixpoint substring_to (n : nat) (s : string) : string :=
  match s with
  | EmptyString => EmptyString
  | String c r =>
      if is_continuation c then String c (substring_to n r)
      else
        match n with
        | O => EmptyString
        | S O => if is_astral_lead c then high_surrogate c r else String c (substring_to 0 r)
        | S (S m as n') =>
            if is_astral_lead c then String c (substring_to m r)
            else String c (substring_to n' r)
        end
  end.

(** [`${s.substring(0, n)}${s.length > n ? '...' : ''}`] *)
Definition clip (n : nat) (s : string) : string :=
  substring_to n s +:+ (if (n <? length s)%nat then "..." else "").

(** *** Letter case *)

(** A string of ASCII characters only. *)
Fixpoint is_ascii (s : string) : bool :=
  match s with
  | EmptyString => true
  | String (Ascii _ _ _ _ _ _ _ b7) r => negb b7 && is_ascii r
  end.

Definition upper_ascii (c : ascii) : ascii :=
  let n := nat_of_ascii c in
  if ((97 <=? n) && (n <=? 122))%nat then ascii_of_nat (n - 32) else c.

Definition lower_ascii (c : ascii) : ascii :=
  let n := nat_of_ascii c in
  if ((65 <=? n) && (n <=? 90))%nat then ascii_of_nat (n + 32) else c.

Fixpoint map_string (f : ascii -> ascii) (s : string) : string :=
  match s with
  | EmptyString => EmptyString
  | String c r => String (f c) (map_string f r)
  end.

(** [Number.MAX_SAFE_INTEGER], 2^53 - 1: up to it every integer is a
    number of its own and is printed with all its digits. *)
Definition MAX_SAFE_INTEGER : Z := 9007199254740991.

Definition is_safe_integer (q : Q) : bool :=
  is_integer q && (Z.abs (Qnum (Qred q)) <=? MAX_SAFE_INTEGER).

(** [`${i}`] for a number [i] at which an array has an element: an array
    index is an integer below 2^32, printed with all its digits. *)
Definition showIndex (i : Q) : string := showZ (Qnum (Qred i)).

End Js.

(** What the engine and the host's locale decide: the time of day, the
    digits of a number that is not a safe integer (a fraction, or an
    integer printed rounded or with an exponent), [toFixed], and the
    letter case of text that is not plain ASCII. *)
Record Host := {
  toLocaleTimeString : Z -> string;   (* new Date(ts).toLocaleTimeString() *)
  numberToString : Q -> string;       (* String(x) for a number that is not a safe integer *)
  toFixed : Q -> nat -> string;       (* x.toFixed(digits) *)
  unicodeToLowerCase : string -> string;
  unicodeToUpperCase : string -> string
}.

(** [`${x}`] for a number [x]. *)
Definition showNumber (h : Host) (q : Q) : string :=
  if Js.is_safe_integer q then Js.showZ (Qnum (Qred q)) else numberToString h q.

(** [s.toLowerCase()] and [s.toUpperCase()]: on ASCII text the letters A
    to Z and a to z are exchanged and nothing else changes; other text is
    mapped by the engine's Unicode tables. *)
Definition toLowerCase (h : Host) (s : string) : string :=
  if Js.is_ascii s then Js.map_string Js.lower_ascii s else unicodeToLowerCase h s.

Definition toUpperCase (h : Host) (s : string) : string :=
  if Js.is_ascii s then Js.map_string Js.upper_ascii s else unicodeToUpperCase h s.

(** A thrown value: an [Error] with its message; a value that is neither
    an [Error] nor [undefined] or [null], with the text that its [message]
    property gives in a template literal (['undefined'] for a value
    without the property, such as a string or a plain object); or
    [undefined] ([null] when the flag is set). *)
Inductive Thrown :=
| ErrorObject (message : string)
| NonError (message : string)
| Nullish (null : bool).

(** ** Tool results *)

Inductive ContentBlock :=
| TextBlock (text : string)
| ImageBlock (data mimeType : string).

(** [isError] is [true] when the property is present, [false] when absent. *)
Record ToolResult := { content : list ContentBlock; isError : bool }.

Definition textResult (text : string) (isError : bool) : ToolResult :=
  {| content := [TextBlock text]; isError := isError |}.

Definition imageResult (text data mimeType : string) : ToolResult :=
  {| content := [TextBlock text; ImageBlock data mimeType]; isError := false |}.

(** ** Data of the collaborators *)

Record ViewState := { view_id : string; view_title : string; view_url : string }.

Inductive ElementNode := mkElementNode {
  uid : string;
  role : string;
  name : string;
  backendNodeId : Z;
  children : option (list ElementNode)
}.

Record Dialog := { dialog_type : string; dialog_message : string; defaultValue : string }.

Record ConsoleMessageRecord := {
  msg_id : string;
  msg_type : string;
  msg_text : string;
  msg_timestamp : Z;
  msg_url : option string;
  msg_lineNumber : option Z
}.

Record NetworkRequestRecord := {
  req_id : string;
  req_url : string;
  req_method : string;
  req_resourceType : string;
  req_status : option Z;
  req_duration : option Q;      (* timing?.duration *)
  req_error : option string
}.

Record ScreenshotOptions := {
  so_format : string;
  so_quality : option Q;
  so_uid : option string;
  so_fullPage : bool
}.

Record Screenshot := { shot_data : string; shot_mimeType : string }.

Record TraceResult := { trace_duration : Z; trace_metrics : gmap string Q }.

Inductive Json :=
| JBool (b : bool)
| JNum (q : Q)
| JStr (s : string).

(** ** Operations of the collaborators

    One constructor per method the handlers call that changes something or
    reaches the browser; the index is the type of the value it gives back. *)
Inductive Call : Type -> Type :=
| setActiveViewId (viewId : string) : Call unit
| destroy (viewId : string) : Call unit
| clickElement (uid : string) (dblClick : bool) : Call unit
| hoverElement (uid : string) : Call unit
| selectOption (uid value : string) : Call unit
| fillElement (uid value : string) : Call unit
| setViewportSize (width height : Q) : Call unit
| handleDialog (accept : bool) (promptText : option string) : Call unit
| sendCDPCommand (method : string) (params : option (list (string * Json))) : Call unit
| captureScreenshot (options : ScreenshotOptions) : Call Screenshot
| startPerformanceTrace : Call unit
| stopPerformanceTrace : Call TraceResult
| navigate (viewId url : string) : Call unit
| waitForNavigation (timeoutMs : Z) : Call unit
| writeFileSync (path data : string) : Call unit.

Inductive Event : Type :=
| Invoked : forall T : Type, Call T -> Event.
Arguments Invoked {T} c.

(** How a promise ends: settled after some milliseconds, fulfilled or
    rejected, or never settled. *)
Inductive Reply (T : Type) :=
| Settles (delay : Z) (r : Thrown + T)
| NeverSettles.
Arguments Settles {T} delay r.
Arguments NeverSettles {T}.

Record World := {
  host : Host;
  views : list ViewState;                         (* browserViewManager *)
  activeViewId : option string;                   (* browserContext *)
  idToNode : gmap string ElementNode;             (* current snapshot *)
  pendingDialog : option Dialog;
  tracing : bool;
  pageUrl : string;
  consoleMessages : bool -> list ConsoleMessageRecord;
  networkRequests : bool -> list NetworkRequestRecord;
  browser : forall T, list Event -> Call T -> Reply T;
  log : list Event;                               (* operations invoked so far *)
  clock : Z                                       (* milliseconds elapsed *)
}.

Definition set_log (l : list Event) (w : World) : World :=
  {| host := host w; views := views w; activeViewId := activeViewId w;
     idToNode := idToNode w; pendingDialog := pendingDialog w;
     tracing := tracing w; pageUrl := pageUrl w;
     consoleMessages := consoleMessages w; networkRequests := networkRequests w;
     browser := browser w; log := l; clock := clock w |}.

Definition set_clock (t : Z) (w : World) : World :=
  {| host := host w; views := views w; activeViewId := activeViewId w;
     idToNode := idToNode w; pendingDialog := pendingDialog w;
     tracing := tracing w; pageUrl := pageUrl w;
     consoleMessages := consoleMessages w; networkRequests := networkRequests w;
     browser := browser w; log := log w; clock := t |}.

Definition set_views (vs : list ViewState) (w : World) : World :=
  {| host := host w; views := vs; activeViewId := activeViewId w;
     idToNode := idToNode w; pendingDialog := pendingDialog w;
     tracing := tracing w; pageUrl := pageUrl w;
     consoleMessages := consoleMessages w; networkRequests := networkRequests w;
     browser := browser w; log := log w; clock := clock w |}.

Definition set_active (a : option string) (w : World) : World :=
  {| host := host w; views := views w; activeViewId := a;
     idToNode := idToNode w; pendingDialog := pendingDialog w;
     tracing := tracing w; pageUrl := pageUrl w;
     consoleMessages := consoleMessages w; networkRequests := networkRequests w;
     browser := browser w; log := log w; clock := clock w |}.

Definition set_dialog (d : option Dialog) (w : World) : World :=
  {| host := host w; views := views w; activeViewId := activeViewId w;
     idToNode := idToNode w; pendingDialog := d;
     tracing := tracing w; pageUrl := pageUrl w;
     consoleMessages := consoleMessages w; networkRequests := networkRequests w;
     browser := browser w; log := log w; clock := clock w |}.

Definition set_tracing (b : bool) (w : World) : World :=
  {| host := host w; views := views w; activeViewId := activeViewId w;
     idToNode := idToNode w; pendingDialog := pendingDialog w;
     tracing := b; pageUrl := pageUrl w;
     consoleMessages := consoleMessages w; networkRequests := networkRequests w;
     browser := browser w; log := log w; clock := clock w |}.

Definition record_call {T} (c : Call T) (w : World) : World :=
  set_log (log w ++ [Invoked c]) w.

Definition tick (ms : Z) (w : World) : World :=
  set_clock (clock w + Z.max 0 ms) w.

(** ** Asynchronous computations

    An [async] function run to its end from a world: it returns, it throws
    (its promise is rejected), or its promise never settles. *)
Inductive Outcome (A : Type) :=
| Returns (a : A) (w : World)
| Raises (e : Thrown) (w : World)
| Hangs (w : World).
Arguments Returns {A} a w.
Arguments Raises {A} e w.
Arguments Hangs {A} w.

Definition Async (A : Type) : Type := World -> Outcome A.

#[global] Instance async_ret : MRet Async := fun A a w => Returns a w.

#[global] Instance async_bind : MBind Async := fun A B k m w =>
  match m w with
  | Returns a w' => k a w'
  | Raises e w' => Raises e w'
  | Hangs w' => Hangs w'
  end.

Definition throw {A} (e : Thrown) : Async A := fun w => Raises e w.

(** [try { m } catch (e) { h e }] *)
Definition try_catch {A} (m : Async A) (h : Thrown -> Async A) : Async A := fun w =>
  match m w with
  | Raises e w' => h e w'
  | o => o
  end.

(** [(error as Error).message]: the message of the value caught; reading
    a property of [undefined] or [null] throws a TypeError. *)
Definition message_of (error : Thrown) : Async string :=
  match error with
  | ErrorObject message => mret message
  | NonError message => mret message
  | Nullish null =>
      throw (ErrorObject
               ("Cannot read properties of " +:+ (if null then "null" else "undefined")
                +:+ " (reading 'message')"))
  end.

(** [await new Promise(resolve => setTimeout(resolve, ms))] *)
Definition sleep (ms : Z) : Async unit := fun w => Returns tt (tick ms w).

(** *** The collaborators' own rules *)

Definition is_live (viewId : string) (w : World) : bool :=
  existsb (fun v => String.eqb (view_id v) viewId) (views w).

Definition sole_view (viewId : string) (w : World) : bool :=
  match views w with
  | [v] => String.eqb (view_id v) viewId
  | _ => false
  end.

(** Modelled from the spec: the bodies of [browserContext] (context.ts) and
    [browserViewManager] (browser-view.service.ts) are missing.  By the
    spec, [setActiveViewId] fails NotFound for an id that is not a live
    view; [destroy] fails InvalidOperation on the only remaining view and
    otherwise removes the view; starting a trace while Recording fails
    AlreadyTracing; stopping while Idle is a no-op result; [handleDialog]
    fails NoDialog when none is pending.  [Some] is an outcome these rules
    fix; [None] leaves the outcome to the browser. *)
Definition settled_by_rule {T} (c : Call T) (w : World) : option (Thrown + T) :=
  match c in Call T return option (Thrown + T) with
  | setActiveViewId viewId =>
      Some (if is_live viewId w then inr tt else inl (ErrorObject "NotFound"))
  | destroy viewId =>
      Some (if sole_view viewId w then inl (ErrorObject "InvalidOperation") else inr tt)
  | startPerformanceTrace =>
      if tracing w then Some (inl (ErrorObject "AlreadyTracing")) else None
  | stopPerformanceTrace =>
      if tracing w then None
      else Some (inr {| trace_duration := 0; trace_metrics := ∅ |})
  | handleDialog _ _ =>
      match pendingDialog w with
      | None => Some (inl (ErrorObject "NoDialog"))
      | Some _ => None
      end
  | _ => None
  end.

(** Modelled from the spec: what a fulfilled operation changes in the
    collaborators' state (the active pointer, the set of views, the trace
    session, the pending dialog). *)
Definition effect {T} (c : Call T) (w : World) : World :=
  match c with
  | setActiveViewId viewId => set_active (Some viewId) w
  | destroy viewId =>
      set_views (List.filter (fun v => negb (String.eqb (view_id v) viewId)) (views w)) w
  | startPerformanceTrace => set_tracing true w
  | stopPerformanceTrace => set_tracing false w
  | handleDialog _ _ => set_dialog None w
  | _ => w
  end.

(** Calling an operation and waiting for it: the call is logged, then it
    ends as the collaborators' rules or the browser decide. *)
Definition invoke {T} (c : Call T) : Async T := fun w =>
  let w1 := record_call c w in
  match settled_by_rule c w with
  | Some (inl e) => Raises e w1
  | Some (inr v) => Returns v (effect c w1)
  | None =>
      match browser w T (log w) c with
      | Settles d (inl e) => Raises e (tick d w1)
      | Settles d (inr v) => Returns v (effect c (tick d w1))
      | NeverSettles => Hangs w1
      end
  end.

(** *** Getters of the collaborators *)

Definition getAllStates (w : World) : list ViewState := views w.

(** [getActiveViewId()] as a condition: a non-empty id. *)
Definition hasActiveView (w : World) : bool :=
  match activeViewId w with
  | Some v => Js.truthy v
  | None => false
  end.

Definition getElementByUid (w : World) (u : string) : option ElementNode :=
  idToNode w !! u.

Definition isPerformanceTracing (w : World) : bool := tracing w.

Definition getPendingDialog (w : World) : option Dialog := pendingDialog w.

(** Reading the world inside a computation. *)
Definition ask : Async World := fun w => Returns w w.

(** ** Constants and helpers of the server *)

Definition TOOL_TIMEOUT : Z := 60000.
Definition NAV_TIMEOUT : Z := 30000.

Definition timeout_error (label : string) (ms : Z) : Thrown :=
  ErrorObject (label +:+ " timed out after " +:+ Js.showZ ms +:+ "ms").

(** [withTimeout(promise, ms, label)]: the promise races a timer of [ms]
    milliseconds.  The promise wins when it settles before the timer
    fires.  The timer does not cancel the operation: what the operation
    did stays in the world, and the caller goes on from the deadline. *)
Definition withTimeout {A} (promise : Async A) (ms : Z) (label : string) : Async A :=
  fun w =>
    let deadline := clock w + ms in
    match promise w with
    | Returns a w' =>
        if clock w' <? deadline then Returns a w'
        else Raises (timeout_error label ms) (set_clock deadline w')
    | Raises e w' =>
        if clock w' <? deadline then Raises e w'
        else Raises (timeout_error label ms) (set_clock deadline w')
    | Hangs w' => Raises (timeout_error label ms) (set_clock deadline w')
    end.

(** [e instanceof Error] *)
Definition instanceof_Error (e : Thrown) : bool :=
  match e with
  | ErrorObject _ => true
  | _ => false
  end.

(** Reading a property of a value that may be [undefined]: a TypeError
    when it is. *)
Definition read_property {A} (o : option A) (prop : string) : Async A :=
  match o with
  | Some a => mret a
  | None =>
      throw (ErrorObject
               ("Cannot read properties of undefined (reading '" +:+ prop +:+ "')"))
  end.

(** [fillFormElement(uid, value)].  [selected] is [true] when the function
    has returned from inside the [try] block. *)
Definition fillFormElement (u value : string) : Async unit :=
  w ← ask;
  let element := getElementByUid w u in
  match element with
  | Some el =>
      if String.eqb (role el) "combobox" then
        let hasOptions :=
          match children el with
          | Some cs => existsb (fun child => String.eqb (role child) "option") cs
          | None => false
          end in
        selected ←
          (if hasOptions then
             try_catch (invoke (selectOption u value);; mret true)
               (fun e =>
                  if negb (instanceof_Error e) then throw e
                  else
                    message ← message_of e;
                    if negb (Js.includes message "Could not find option") then throw e
                    else mret false)
           else mret false);
        if (selected : bool) then mret tt
        else invoke (fillElement u value)
      else invoke (fillElement u value)
  | None => invoke (fillElement u value)
  end.

(** ** Navigation tools *)

Definition page_line (index : nat) (state : ViewState) : string :=
  "[" +:+ Js.showZ (Z.of_nat index) +:+ "] "
  +:+ Js.or_else (view_title state) "Untitled" +:+ " - "
  +:+ Js.or_else (view_url state) "about:blank".

Definition browser_list_pages : Async ToolResult :=
  w ← ask;
  let states := getAllStates w in
  if (length states =? 0)%nat then
    mret (textResult "No browser pages are currently open." false)
  else
    let lines := "Open browser pages:" :: imap page_line states in
    mret (textResult (Js.join_lines lines) false).

Record SelectPageArgs := { sp_pageIdx : Q; sp_bringToFront : option bool }.

(** [args.pageIdx < 0 || args.pageIdx >= states.length] *)
Definition index_out_of_range (pageIdx : Q) (states : list ViewState) : bool :=
  Js.Qltb pageIdx 0 || Qle_bool (inject_Z (Z.of_nat (length states))) pageIdx.

Definition browser_select_page (args : SelectPageArgs) : Async ToolResult :=
  w ← ask;
  let states := getAllStates w in
  if index_out_of_range (sp_pageIdx args) states then
    mret (textResult
            ("Invalid page index: " +:+ showNumber (host w) (sp_pageIdx args)
             +:+ ". Valid range: 0-" +:+ Js.showZ (Z.of_nat (length states) - 1))
            true)
  else
    state ← read_property (Js.index states (sp_pageIdx args)) "id";
    invoke (setActiveViewId (view_id state));;
    mret (textResult
            ("Selected page [" +:+ Js.showIndex (sp_pageIdx args) +:+ "]: "
             +:+ Js.or_else (view_title state) "Untitled" +:+ " - " +:+ view_url state)
            false).

Record ClosePageArgs := { cp_pageIdx : Q }.

Definition browser_close_page (args : ClosePageArgs) : Async ToolResult :=
  w ← ask;
  let states := getAllStates w in
  if index_out_of_range (cp_pageIdx args) states then
    mret (textResult
            ("Invalid page index: " +:+ showNumber (host w) (cp_pageIdx args)) true)
  else if (length states =? 1)%nat then
    mret (textResult "The last open page cannot be closed." true)
  else
    state ← read_property (Js.index states (cp_pageIdx args)) "id";
    invoke (destroy (view_id state));;
    mret (textResult
            ("Closed page [" +:+ Js.showIndex (cp_pageIdx args) +:+ "]: "
             +:+ Js.or_else (view_title state) "Untitled")
            false).

Record ResizeArgs := { width : Q; height : Q }.

Definition browser_resize (args : ResizeArgs) : Async ToolResult :=
  w ← ask;
  if negb (hasActiveView w) then
    mret (textResult "No active browser page." true)
  else
    try_catch
      (invoke (setViewportSize (width args) (height args));;
       mret (textResult
               ("Viewport resized to: " +:+ showNumber (host w) (width args)
                +:+ "x" +:+ showNumber (host w) (height args))
               false))
      (fun error =>
         message ← message_of error;
         mret (textResult ("Resize failed: " +:+ message) true)).

Record HandleDialogArgs := { action : string; promptText : option string }.

Definition browser_handle_dialog (args : HandleDialogArgs) : Async ToolResult :=
  w ← ask;
  match getPendingDialog w with
  | None => mret (textResult "No open dialog found" true)
  | Some _ =>
      try_catch
        (invoke (handleDialog (String.eqb (action args) "accept") (promptText args));;
         mret (textResult
                 ("Successfully "
                  +:+ (if String.eqb (action args) "accept" then "accepted" else "dismissed")
                  +:+ " the dialog")
                 false))
        (fun error =>
           message ← message_of error;
           mret (textResult ("Failed to handle dialog: " +:+ message) true))
  end.

(** ** Input tools *)

Record ClickArgs := { click_uid : string; dblClick : option bool }.

(** [b || false] on an optional boolean *)
Definition or_false (b : option bool) : bool := default false b.

Definition browser_click (args : ClickArgs) : Async ToolResult :=
  w ← ask;
  if negb (hasActiveView w) then
    mret (textResult "No active browser page. Use browser_new_page first." true)
  else
    try_catch
      (withTimeout
         (invoke (clickElement (click_uid args) (or_false (dblClick args))))
         TOOL_TIMEOUT "browser_click";;
       mret (textResult
               (if or_false (dblClick args)
                then "Successfully double clicked on the element"
                else "Successfully clicked on the element")
               false))
      (fun error =>
         message ← message_of error;
         mret (textResult
                 ("Failed to click element " +:+ click_uid args +:+ ": "
                  +:+ message)
                 true)).

Record HoverArgs := { hover_uid : string }.

Definition browser_hover (args : HoverArgs) : Async ToolResult :=
  w ← ask;
  if negb (hasActiveView w) then
    mret (textResult "No active browser page." true)
  else
    try_catch
      (withTimeout (invoke (hoverElement (hover_uid args))) TOOL_TIMEOUT "browser_hover";;
       mret (textResult "Successfully hovered over the element" false))
      (fun error =>
         message ← message_of error;
         mret (textResult
                 ("Failed to hover element " +:+ hover_uid args +:+ ": "
                  +:+ message)
                 true)).

Record FillArgs := { fill_uid : string; fill_value : string }.

Definition browser_fill (args : FillArgs) : Async ToolResult :=
  w ← ask;
  if negb (hasActiveView w) then
    mret (textResult "No active browser page." true)
  else
    try_catch
      (withTimeout (fillFormElement (fill_uid args) (fill_value args))
         TOOL_TIMEOUT "browser_fill";;
       mret (textResult "Successfully filled out the element" false))
      (fun error =>
         message ← message_of error;
         mret (textResult
                 ("Failed to fill element " +:+ fill_uid args +:+ ": "
                  +:+ message)
                 true)).

Record FillFormArgs := { elements : list FillArgs }.

(** The [for ... of] loop of [browser_fill_form]: every element is tried
    under its own timeout and a failure is pushed onto [errors]. *)
Fixpoint fill_each (elems : list FillArgs) (errors : list string) : Async (list string) :=
  match elems with
  | [] => mret errors
  | elem :: rest =>
      errors' ←
        try_catch
          (withTimeout (fillFormElement (fill_uid elem) (fill_value elem))
             TOOL_TIMEOUT "browser_fill_form";;
           mret errors)
          (fun error =>
             message ← message_of error;
             mret (errors ++ [fill_uid elem +:+ ": " +:+ message]));
      fill_each rest errors'
  end.

Definition browser_fill_form (args : FillFormArgs) : Async ToolResult :=
  w ← ask;
  if negb (hasActiveView w) then
    mret (textResult "No active browser page." true)
  else
    errors ← fill_each (elements args) [];
    if (0 <? length errors)%nat then
      mret (textResult
              ("Partially filled out the form." +:+ Js.nl +:+ Js.nl +:+ "Errors:"
               +:+ Js.nl +:+ Js.join_lines errors)
              (length errors =? length (elements args))%nat)
    else
      mret (textResult "Successfully filled out the form" false).

(** ** Snapshot tools *)

Record ScreenshotArgs := {
  ss_format : option string;
  ss_quality : option Q;
  ss_uid : option string;
  ss_fullPage : option bool;
  ss_filePath : option string
}.

(** An optional string as a condition: present and not empty. *)
Definition given (s : option string) : bool :=
  match s with
  | Some v => Js.truthy v
  | None => false
  end.

Definition screenshot_message (args : ScreenshotArgs) : string :=
  if given (ss_uid args) then
    "Took a screenshot of node with uid " +:+ Js.dquote
    +:+ default "" (ss_uid args) +:+ Js.dquote +:+ "."
  else if or_false (ss_fullPage args) then
    "Took a screenshot of the full current page."
  else
    "Took a screenshot of the current page's viewport.".

Definition screenshot_options (args : ScreenshotArgs) : ScreenshotOptions :=
  let format := if given (ss_format args) then default "" (ss_format args) else "png" in
  {| so_format := format;
     so_quality := if String.eqb format "png" then None else ss_quality args;
     so_uid := ss_uid args;
     so_fullPage := or_false (ss_fullPage args) |}.

(** The file written by [writeFileSync] is logged with the base64 text
    whose decoding is its content. *)
Definition browser_screenshot (args : ScreenshotArgs) : Async ToolResult :=
  w ← ask;
  if negb (hasActiveView w) then
    mret (textResult "No active browser page." true)
  else if given (ss_uid args) && or_false (ss_fullPage args) then
    mret (textResult
            ("Providing both " +:+ Js.dquote +:+ "uid" +:+ Js.dquote +:+ " and "
             +:+ Js.dquote +:+ "fullPage" +:+ Js.dquote +:+ " is not allowed.")
            true)
  else
    try_catch
      (result ← withTimeout (invoke (captureScreenshot (screenshot_options args)))
                  TOOL_TIMEOUT "browser_screenshot";
       let message := screenshot_message args in
       if given (ss_filePath args) then
         invoke (writeFileSync (default "" (ss_filePath args)) (shot_data result));;
         mret (textResult
                 (message +:+ Js.nl +:+ "Saved screenshot to "
                  +:+ default "" (ss_filePath args) +:+ ".")
                 false)
       else
         mret (imageResult message (shot_data result) (shot_mimeType result)))
      (fun error =>
         message ← message_of error;
         mret (textResult ("Failed to take screenshot: " +:+ message) true)).

(** ** Network and console tools *)

(** The pagination block, written out in both list handlers: with a
    [pageSize], the records from [pageIdx * pageSize] up to
    [min(startIdx + pageSize, total)]; without one, all of them. *)
Definition page_of {A} (pageSize : option Z) (pageIdx : Z) (records : list A) : list A :=
  match pageSize with
  | Some size =>
      let startIdx := pageIdx * size in
      let endIdx := Z.min (startIdx + size) (Z.of_nat (length records)) in
      Js.slice records startIdx endIdx
  | None => records
  end.

(** The first line of a listing. *)
Definition page_header (what : string) (pageSize : option Z) (pageIdx total : Z) : string :=
  match pageSize with
  | Some size =>
      let startIdx := pageIdx * size in
      let endIdx := Z.min (startIdx + size) total in
      what +:+ " (" +:+ Js.showZ (startIdx + 1) +:+ "-" +:+ Js.showZ endIdx
      +:+ " of " +:+ Js.showZ total +:+ "):"
  | None => what +:+ " (" +:+ Js.showZ total +:+ " total):"
  end.

(** The closing hint, pushed when records remain after the page. *)
Definition page_hint (what : string) (pageSize : option Z) (pageIdx : Z)
    (shown total : nat) : list string :=
  match pageSize with
  | Some size =>
      if pageIdx * size + Z.of_nat shown <? Z.of_nat total
      then ["Use pageIdx=" +:+ Js.showZ (pageIdx + 1) +:+ " to see more " +:+ what +:+ "."]
      else []
  | None => []
  end.

Record NetworkRequestsArgs := {
  nr_pageSize : option Z;
  nr_pageIdx : option Z;
  nr_resourceTypes : option (list string);
  nr_includePreservedRequests : option bool
}.

Definition filter_requests (h : Host) (resourceTypes : option (list string))
    (requests : list NetworkRequestRecord) : list NetworkRequestRecord :=
  match resourceTypes with
  | Some ts =>
      if (0 <? length ts)%nat then
        let types : gset string := list_to_set (toLowerCase h <$> ts) in
        List.filter
          (fun r => bool_decide (toLowerCase h (req_resourceType r) ∈ types)) requests
      else requests
  | None => requests
  end.

Definition request_lines (h : Host) (req : NetworkRequestRecord) : list string :=
  let status :=
    match req_status req with
    | Some st => if st =? 0 then "pending" else showNumber h (inject_Z st)
    | None => "pending"
    end in
  let duration :=
    match req_duration req with
    | Some d => if Js.nonzero d then showNumber h d +:+ "ms" else "-"
    | None => "-"
    end in
  ["[reqid=" +:+ req_id req +:+ "] " +:+ req_method req +:+ " " +:+ status
   +:+ " " +:+ req_resourceType req;
   "    URL: " +:+ Js.clip 100 (req_url req);
   "    Duration: " +:+ duration]
  ++ (if given (req_error req) then ["    Error: " +:+ default "" (req_error req)] else [])
  ++ [""].

Definition network_lines (h : Host) (args : NetworkRequestsArgs)
    (requests : list NetworkRequestRecord) : list string :=
  let total := length requests in
  let pageIdx := default 0 (nr_pageIdx args) in
  let pageRequests := page_of (nr_pageSize args) pageIdx requests in
  [page_header "Network Requests" (nr_pageSize args) pageIdx (Z.of_nat total); ""]
  ++ concat (request_lines h <$> pageRequests)
  ++ page_hint "requests" (nr_pageSize args) pageIdx (length pageRequests) total.

Definition browser_network_requests (args : NetworkRequestsArgs) : Async ToolResult :=
  w ← ask;
  try_catch
    (let requests :=
       filter_requests (host w) (nr_resourceTypes args)
         (networkRequests w (or_false (nr_includePreservedRequests args))) in
     let pageRequests :=
       page_of (nr_pageSize args) (default 0 (nr_pageIdx args)) requests in
     if (length pageRequests =? 0)%nat then
       mret (textResult "No network requests captured." false)
     else
       mret (textResult (Js.join_lines (network_lines (host w) args requests)) false))
    (fun error =>
       message ← message_of error;
       mret (textResult ("Failed to get network requests: " +:+ message) true)).

Record ConsoleArgs := {
  co_pageSize : option Z;
  co_pageIdx : option Z;
  co_types : option (list string);
  co_includePreservedMessages : option bool
}.

Definition filter_messages (types : option (list string))
    (messages : list ConsoleMessageRecord) : list ConsoleMessageRecord :=
  match types with
  | Some ts =>
      if (0 <? length ts)%nat then
        let typeSet : gset string := list_to_set ts in
        List.filter (fun m => bool_decide (msg_type m ∈ typeSet)) messages
      else messages
  | None => messages
  end.

Definition message_lines (h : Host) (msg : ConsoleMessageRecord) : list string :=
  let time := toLocaleTimeString h (msg_timestamp msg) in
  ["[msgid=" +:+ msg_id msg +:+ "] " +:+ toUpperCase h (msg_type msg)
   +:+ " (" +:+ time +:+ ")";
   "    " +:+ Js.clip 200 (msg_text msg)]
  ++ (if given (msg_url msg) then
        ["    at " +:+ default "" (msg_url msg)
         +:+ match msg_lineNumber msg with
             | Some n => ":" +:+ showNumber h (inject_Z n)
             | None => ""
             end]
      else [])
  ++ [""].

Definition console_lines (h : Host) (args : ConsoleArgs)
    (messages : list ConsoleMessageRecord) : list string :=
  let total := length messages in
  let pageIdx := default 0 (co_pageIdx args) in
  let pageMessages := page_of (co_pageSize args) pageIdx messages in
  [page_header "Console Messages" (co_pageSize args) pageIdx (Z.of_nat total); ""]
  ++ concat (message_lines h <$> pageMessages)
  ++ page_hint "messages" (co_pageSize args) pageIdx (length pageMessages) total.

Definition browser_console (args : ConsoleArgs) : Async ToolResult :=
  w ← ask;
  try_catch
    (let messages :=
       filter_messages (co_types args)
         (consoleMessages w (or_false (co_includePreservedMessages args))) in
     let pageMessages :=
       page_of (co_pageSize args) (default 0 (co_pageIdx args)) messages in
     if (length pageMessages =? 0)%nat then
       mret (textResult "No console messages captured." false)
     else
       mret (textResult (Js.join_lines (console_lines (host w) args messages)) false))
    (fun error =>
       message ← message_of error;
       mret (textResult ("Failed to get console messages: " +:+ message) true)).

(** ** Emulation tool *)

Record NetworkCondition := { download : Q; upload : Q; latency : Q }.

(** The table of named conditions, with the arithmetic of the source
    carried out on rationals. *)
Definition NETWORK_CONDITIONS : gmap string NetworkCondition :=
  list_to_map
    [("Slow 3G", {| download := 500 * 1024 / 8; upload := 500 * 1024 / 8; latency := 400 |});
     ("Fast 3G", {| download := 1.6 * 1024 * 1024 / 8; upload := 750 * 1024 / 8; latency := 150 |});
     ("Regular 4G", {| download := 4 * 1024 * 1024 / 8; upload := 3 * 1024 * 1024 / 8; latency := 20 |});
     ("DSL", {| download := 2 * 1024 * 1024 / 8; upload := 1 * 1024 * 1024 / 8; latency := 5 |});
     ("WiFi", {| download := 30 * 1024 * 1024 / 8; upload := 15 * 1024 * 1024 / 8; latency := 2 |})]%Q.

Record Geolocation := { latitude : Q; longitude : Q }.

(** [geolocation]: [None] is omitted, [Some None] is [null]. *)
Record EmulateArgs := {
  networkConditions : option string;
  cpuThrottlingRate : option Q;
  geolocation : option (option Geolocation)
}.

Definition emulateNetworkConditions (offline : bool) (lat down up : Q) : Call unit :=
  sendCDPCommand "Network.emulateNetworkConditions"
    (Some [("offline", JBool offline); ("latency", JNum lat);
           ("downloadThroughput", JNum down); ("uploadThroughput", JNum up)]).

Definition emulate_network (conditions : option string) (results : list string)
    : Async (list string) :=
  match conditions with
  | Some nc =>
      if String.eqb nc "No emulation" then
        invoke (emulateNetworkConditions false 0 (-1) (-1));;
        mret (results ++ ["Network: No emulation"])
      else if String.eqb nc "Offline" then
        invoke (emulateNetworkConditions true 0 0 0);;
        mret (results ++ ["Network: Offline"])
      else
        match NETWORK_CONDITIONS !! nc with
        | Some cond =>
            invoke (emulateNetworkConditions false (latency cond) (download cond) (upload cond));;
            mret (results ++ ["Network: " +:+ nc])
        | None => mret results
        end
  | None => mret results
  end.

Definition emulate_cpu (h : Host) (rate : option Q) (results : list string)
    : Async (list string) :=
  match rate with
  | Some r =>
      invoke (sendCDPCommand "Emulation.setCPUThrottlingRate" (Some [("rate", JNum r)]));;
      mret (results ++ ["CPU throttling: " +:+ showNumber h r +:+ "x"])
  | None => mret results
  end.

Definition emulate_geolocation (h : Host) (geo : option (option Geolocation))
    (results : list string) : Async (list string) :=
  match geo with
  | Some None =>
      invoke (sendCDPCommand "Emulation.clearGeolocationOverride" None);;
      mret (results ++ ["Geolocation: cleared"])
  | Some (Some g) =>
      invoke (sendCDPCommand "Emulation.setGeolocationOverride"
                (Some [("latitude", JNum (latitude g)); ("longitude", JNum (longitude g));
                       ("accuracy", JNum 100)]));;
      mret (results ++ ["Geolocation: " +:+ showNumber h (latitude g) +:+ ", "
                        +:+ showNumber h (longitude g)])
  | None => mret results
  end.

Definition browser_emulate (args : EmulateArgs) : Async ToolResult :=
  w ← ask;
  if negb (hasActiveView w) then
    mret (textResult "No active browser page." true)
  else
    try_catch
      (results ← emulate_network (networkConditions args) [];
       results ← emulate_cpu (host w) (cpuThrottlingRate args) results;
       results ← emulate_geolocation (host w) (geolocation args) results;
       if (length results =? 0)%nat then
         mret (textResult "No emulation settings changed." false)
       else
         mret (textResult (Js.join_lines results) false))
      (fun error =>
         message ← message_of error;
         mret (textResult ("Emulation failed: " +:+ message) true)).

(** ** Performance tools *)

Definition formatBytes (h : Host) (bytes : Q) : string :=
  if Js.Qltb bytes 1024 then showNumber h bytes +:+ " B"
  else if Js.Qltb bytes (1024 * 1024) then toFixed h (bytes / 1024) 1 +:+ " KB"
  else if Js.Qltb bytes (1024 * 1024 * 1024)
       then toFixed h (bytes / (1024 * 1024)) 1 +:+ " MB"
  else toFixed h (bytes / (1024 * 1024 * 1024)) 1 +:+ " GB".

(** [if (metrics.key) lines.push(...)]: the line of a metric that is present
    and not zero. *)
Definition metric_line (metrics : gmap string Q) (key : string)
    (line : Q -> string) : list string :=
  match metrics !! key with
  | Some v => if Js.nonzero v then [line v] else []
  | None => []
  end.

Definition formatTraceResults (h : Host) (duration : Z) (metrics : gmap string Q) : string :=
  Js.join_lines
    (["The performance trace has been stopped.";
      "";
      "## Trace Summary";
      "Duration: " +:+ showNumber h (inject_Z duration) +:+ "ms";
      "";
      "## Core Metrics"]
     ++ metric_line metrics "JSHeapUsedSize" (fun v => "JS Heap Used: " +:+ formatBytes h v)
     ++ metric_line metrics "JSHeapTotalSize" (fun v => "JS Heap Total: " +:+ formatBytes h v)
     ++ metric_line metrics "Nodes" (fun v => "DOM Nodes: " +:+ showNumber h v)
     ++ metric_line metrics "Documents" (fun v => "Documents: " +:+ showNumber h v)
     ++ metric_line metrics "LayoutCount" (fun v => "Layout Count: " +:+ showNumber h v)
     ++ metric_line metrics "LayoutDuration"
          (fun v => "Layout Duration: " +:+ toFixed h (v * 1000) 2 +:+ "ms")
     ++ metric_line metrics "RecalcStyleCount"
          (fun v => "Recalc Style Count: " +:+ showNumber h v)
     ++ metric_line metrics "ScriptDuration"
          (fun v => "Script Duration: " +:+ toFixed h (v * 1000) 2 +:+ "ms")
     ++ metric_line metrics "TaskDuration"
          (fun v => "Task Duration: " +:+ toFixed h (v * 1000) 2 +:+ "ms")
     ++ ["";
         "## Available Insight Sets";
         "Use browser_perf_insight with these insight sets:";
         "- insightSetId: " +:+ Js.dquote +:+ "main" +:+ Js.dquote
         +:+ ", available insights: DocumentLatency, LCPBreakdown, RenderBlocking"])%Q.

Record PerfStartArgs := { reload : bool; autoStop : bool }.

Definition already_tracing_text : string :=
  "Error: a performance trace is already running. Use browser_perf_stop to stop it. Only one trace can be running at any given time.".

Definition browser_perf_start (args : PerfStartArgs) : Async ToolResult :=
  w ← ask;
  if negb (hasActiveView w) then
    mret (textResult "No active browser page." true)
  else if isPerformanceTracing w then
    mret (textResult already_tracing_text true)
  else
    let viewId := default "" (activeViewId w) in
    try_catch
      ((if reload args then
          let currentUrl := pageUrl w in
          invoke (navigate viewId "about:blank");;
          sleep 500;;
          invoke startPerformanceTrace;;
          invoke (navigate viewId currentUrl);;
          invoke (waitForNavigation NAV_TIMEOUT)
        else
          invoke startPerformanceTrace);;
       if autoStop args then
         sleep 5000;;
         r ← invoke stopPerformanceTrace;
         mret (textResult
                 (formatTraceResults (host w) (trace_duration r) (trace_metrics r)) false)
       else
         mret (textResult
                 "The performance trace is being recorded. Use browser_perf_stop to stop it."
                 false))
      (fun error =>
         message ← message_of error;
         mret (textResult ("Failed to start trace: " +:+ message) true)).

Definition browser_perf_stop : Async ToolResult :=
  w ← ask;
  if negb (hasActiveView w) then
    mret (textResult "No active browser page." true)
  else if negb (isPerformanceTracing w) then
    mret (textResult "No performance trace is running." false)
  else
    try_catch
      (r ← invoke stopPerformanceTrace;
       mret (textResult
               (formatTraceResults (host w) (trace_duration r) (trace_metrics r)) false))
      (fun error =>
         message ← message_of error;
         mret (textResult ("Failed to stop trace: " +:+ message) true)).

(** ** Reading outcomes *)

Definition final_world {A} (o : Outcome A) : World :=
  match o with
  | Returns _ w => w
  | Raises _ w => w
  | Hangs w => w
  end.

Definition returned {A} (o : Outcome A) : option A :=
  match o with
  | Returns a _ => Some a
  | _ => None
  end.

Definition raised {A} (o : Outcome A) : option Thrown :=
  match o with
  | Raises e _ => Some e
  | _ => None
  end.

(** ** Sample worlds *)

(** A host for the examples: a fixed time of day, a number that is not a
    safe integer shown as numerator over denominator, [toFixed] cut to the
    integer part, and text that is not ASCII left in the case it has. *)
Definition sample_host : Host :=
  {| toLocaleTimeString := fun _ => "10:15:00";
     numberToString := fun q =>
       Js.showZ (Qnum (Qred q)) +:+ "/" +:+ Js.showZ (Zpos (Qden (Qred q)));
     toFixed := fun q _ => Js.showZ (Qnum (Qred q) / Zpos (Qden (Qred q)));
     unicodeToLowerCase := fun s => s;
     unicodeToUpperCase := fun s => s |}.

(** A browser that never answers. *)
Definition unresponsive : forall T, list Event -> Call T -> Reply T :=
  fun _ _ _ => NeverSettles.

(** A browser that rejects everything after [d] milliseconds. *)
Definition rejecting (d : Z) (message : string) : forall T, list Event -> Call T -> Reply T :=
  fun _ _ _ => Settles d (inl (ErrorObject message)).

Definition sample_shot : Screenshot :=
  {| shot_data := "iVBORw0KGgo="; shot_mimeType := "image/png" |}.

(** A browser that fulfils everything after [d] milliseconds. *)
Definition responsive (d : Z) : forall T, list Event -> Call T -> Reply T :=
  fun T _ c =>
    match c in Call T return Reply T with
    | setActiveViewId _ => Settles d (inr tt)
    | destroy _ => Settles d (inr tt)
    | clickElement _ _ => Settles d (inr tt)
    | hoverElement _ => Settles d (inr tt)
    | selectOption _ _ => Settles d (inr tt)
    | fillElement _ _ => Settles d (inr tt)
    | setViewportSize _ _ => Settles d (inr tt)
    | handleDialog _ _ => Settles d (inr tt)
    | sendCDPCommand _ _ => Settles d (inr tt)
    | captureScreenshot _ => Settles d (inr sample_shot)
    | startPerformanceTrace => Settles d (inr tt)
    | stopPerformanceTrace =>
        Settles d (inr {| trace_duration := 5000; trace_metrics := ∅ |})
    | navigate _ _ => Settles d (inr tt)
    | waitForNavigation _ => Settles d (inr tt)
    | writeFileSync _ _ => Settles d (inr tt)
    end.

Definition sample_world (vs : list ViewState) (active : option string)
    (b : forall T, list Event -> Call T -> Reply T) : World :=
  {| host := sample_host; views := vs; activeViewId := active; idToNode := ∅;
     pendingDialog := None; tracing := false; pageUrl := "https://example.com/";
     consoleMessages := fun _ => []; networkRequests := fun _ => [];
     browser := b; log := []; clock := 0 |}.

Definition home : ViewState :=
  {| view_id := "ai-browser-1"; view_title := "Home"; view_url := "https://example.com/" |}.
Definition docs : ViewState :=
  {| view_id := "ai-browser-2"; view_title := ""; view_url := "https://example.com/docs" |}.

Definition one_page : World := sample_world [home] (Some "ai-browser-1") (responsive 10).
Definition two_pages : World := sample_world [home; docs] (Some "ai-browser-1") (responsive 10).

(** ** The listing as the specification words it *)

(** [page] holds exactly the records at the positions from [lo] up to, not
    including, [hi]. *)
Definition slice_of {A} (records : list A) (lo hi : Z) (page : list A) : Prop :=
  forall i : nat,
    page !! i =
    if decide (lo + Z.of_nat i < hi) then records !! Z.to_nat (lo + Z.of_nat i) else None.

(** A header that states the returned range (first and last position,
    counted from one) and the total, the lines of the page, then the hint
    exactly when records remain after the page. *)
Definition listing_text (title what : string) (size idx n : Z) (body : list string) : string :=
  let lo := idx * size in
  let hi := Z.min (lo + size) n in
  Js.join_lines
    ([title +:+ " (" +:+ Js.showZ (lo + 1) +:+ "-" +:+ Js.showZ hi +:+ " of "
      +:+ Js.showZ n +:+ "):"; ""]
     ++ body
     ++ (if decide (hi < n)
         then ["Use pageIdx=" +:+ Js.showZ (idx + 1) +:+ " to see more " +:+ what +:+ "."]
         else [])).

Definition console_listing_as_specified (w : World) (args : ConsoleArgs) (size idx : Z) : Prop :=
  let messages :=
    filter_messages (co_types args)
      (consoleMessages w (or_false (co_includePreservedMessages args))) in
  let n := Z.of_nat (length messages) in
  exists page,
    slice_of messages (idx * size) (Z.min (idx * size + size) n) page /\
    browser_console args w =
    Returns (textResult
               (listing_text "Console Messages" "messages" size idx n
                  (concat (message_lines (host w) <$> page)))
               false) w.

Definition network_listing_as_specified (w : World) (args : NetworkRequestsArgs)
    (size idx : Z) : Prop :=
  let requests :=
    filter_requests (host w) (nr_resourceTypes args)
      (networkRequests w (or_false (nr_includePreservedRequests args))) in
  let n := Z.of_nat (length requests) in
  exists page,
    slice_of requests (idx * size) (Z.min (idx * size + size) n) page /\
    browser_network_requests args w =
    Returns (textResult
               (listing_text "Network Requests" "requests" size idx n
                  (concat (request_lines (host w) <$> page)))
               false) w.

(** Twenty-five buffered console messages, numbered from 1. *)
Definition sample_message (i : Z) : ConsoleMessageRecord :=
  {| msg_id := Js.showZ i; msg_type := "log"; msg_text := "message " +:+ Js.showZ i;
     msg_timestamp := 0; msg_url := None; msg_lineNumber := None |}.

Definition twenty_five_messages : World :=
  {| host := sample_host; views := [home]; activeViewId := Some "ai-browser-1";
     idToNode := ∅; pendingDialog := None; tracing := false;
     pageUrl := "https://example.com/";
     consoleMessages := fun _ => sample_message <$> seqZ 1 25;
     networkRequests := fun _ => [];
     browser := responsive 10; log := []; clock := 0 |}.

Definition console_page (size idx : Z) : ConsoleArgs :=
  {| co_pageSize := Some size; co_pageIdx := Some idx; co_types := None;
     co_includePreservedMessages := None |}.

(** ** Filling, as the specification words it *)

(** The uid resolves to a combobox with at least one option child. *)
Definition select_like (w : World) (u : string) : bool :=
  match getElementByUid w u with
  | Some el =>
      String.eqb (role el) "combobox"
      && match children el with
         | Some cs => existsb (fun child => String.eqb (role child) "option") cs
         | None => false
         end
  | None => false
  end.

(** The failure that says no matching option exists. *)
Definition no_matching_option (e : Thrown) : bool :=
  match e with
  | ErrorObject m => Js.includes m "Could not find option"
  | _ => false
  end.

Definition leaf (u r n : string) : ElementNode :=
  {| uid := u; role := r; name := n; backendNodeId := 0; children := None |}.

(** A page with a colour [<select>] and a search box. *)
Definition form_nodes : gmap string ElementNode :=
  {[ "1_3" := {| uid := "1_3"; role := "combobox"; name := "Colour"; backendNodeId := 7;
                 children := Some [leaf "1_4" "option" "Red"; leaf "1_5" "option" "Green"] |};
     "1_6" := {| uid := "1_6"; role := "combobox"; name := "Search"; backendNodeId := 9;
                 children := Some [] |};
     "1_7" := leaf "1_7" "textbox" "Name" ]}.

(** A browser whose [<select>] has no option of the asked value and whose
    other operations succeed. *)
Definition without_option : forall T, list Event -> Call T -> Reply T :=
  fun T h c =>
    match c in Call T return Reply T with
    | selectOption _ v =>
        Settles 20 (inl (ErrorObject ("Could not find option with text " +:+ v)))
    | c' => responsive 10 _ h c'
    end.

(** A browser whose protocol session is gone. *)
Definition detached : forall T, list Event -> Call T -> Reply T :=
  rejecting 3 "Protocol error (DOM.resolveNode): Target closed".

Definition form_world (b : forall T, list Event -> Call T -> Reply T) : World :=
  {| host := sample_host; views := [home]; activeViewId := Some "ai-browser-1";
     idToNode := form_nodes; pendingDialog := None; tracing := false;
     pageUrl := "https://example.com/";
     consoleMessages := fun _ => []; networkRequests := fun _ => [];
     browser := b; log := []; clock := 0 |}.

(** One page whose browser has stopped answering. *)
Definition frozen_page : World := sample_world [home] (Some "ai-browser-1") unresponsive.

(** The same with a dialog open. *)
Definition frozen_dialog : World :=
  set_dialog (Some {| dialog_type := "confirm"; dialog_message := "Leave?"; defaultValue := "" |})
    frozen_page.

Definition both_text : string :=
  "Providing both " +:+ Js.dquote +:+ "uid" +:+ Js.dquote +:+ " and "
  +:+ Js.dquote +:+ "fullPage" +:+ Js.dquote +:+ " is not allowed.".

(** A page on which a trace is being recorded. *)
Definition recording_page : World := set_tracing true one_page.

Definition perf (r a : bool) : PerfStartArgs := {| reload := r; autoStop := a |}.

(** ** The network presets as the specification lists them

    Name, offline flag, latency, download and upload throughput. *)
Definition specified_presets : list (string * (bool * Q * Q * Q)) :=
  [("No emulation", (false, 0, -1, -1));
   ("Offline", (true, 0, 0, 0));
   ("Slow 3G", (false, 400, 500 * 1024 / 8, 500 * 1024 / 8));
   ("Fast 3G", (false, 150, 1.6 * 1024 * 1024 / 8, 750 * 1024 / 8));
   ("Regular 4G", (false, 20, 4 * 1024 * 1024 / 8, 3 * 1024 * 1024 / 8));
   ("DSL", (false, 5, 2 * 1024 * 1024 / 8, 1 * 1024 * 1024 / 8));
   ("WiFi", (false, 2, 30 * 1024 * 1024 / 8, 15 * 1024 * 1024 / 8))]%Q.

Definition throttle (nc : string) : EmulateArgs :=
  {| networkConditions := Some nc; cpuThrottlingRate := None; geolocation := None |}.

(** ** A form fill as the attempts it is made of *)

(** One element's attempt: its fill under the tool timeout. *)
Definition attempt (elem : FillArgs) : Async unit :=
  withTimeout (fillFormElement (fill_uid elem) (fill_value elem))
    TOOL_TIMEOUT "browser_fill_form".





Definition partial_text (errors : list string) : string :=
  "Partially filled out the form." +:+ Js.nl +:+ Js.nl +:+ "Errors:" +:+ Js.nl
  +:+ Js.join_lines errors.

(** A browser that fills text boxes but rejects whatever is asked of the
    element [1_6]. *)
Definition search_box_broken : forall T, list Event -> Call T -> Reply T :=
  fun T h c =>
    match c in Call T return Reply T with
    | fillElement "1_6" _ => Settles 5 (inl (ErrorObject "Element is not focusable"))
    | c' => responsive 10 _ h c'
    end.

Definition three_fields : FillFormArgs :=
  {| elements := [ {| fill_uid := "1_6"; fill_value := "rocq" |};
                   {| fill_uid := "1_7"; fill_value := "Ada" |};
                   {| fill_uid := "1_3"; fill_value := "Red" |} ] |}.


(** ** The dispatcher *)

(** The text of a failure: its message, or the name of the value when it
    has none. *)
Definition failure_text (failure : Thrown) : string :=
  match failure with
  | ErrorObject message => message
  | NonError message => message
  | Nullish null => if null then "null" else "undefined"
  end.

(** Modelled from the spec: the functions [tool] and [createSdkMcpServer]
    that call the handlers belong to the agent SDK and are missing.  By the
    spec (4.4 and 7) the dispatcher is the boundary that converts any
    failure into a normalized result [{isError: true, content: text}] and
    lets no exception through to the caller: a handler that returns a
    result has it passed on, a handler whose promise is rejected is
    answered with an error result carrying a text. *)
Definition dispatch (handler : Async ToolResult) : Async ToolResult :=
  try_catch handler (fun failure => mret (textResult (failure_text failure) true)).

(** ** Predicates on computations *)

(** No world makes the computation throw. *)
Definition never_raises {A} (m : Async A) : Prop :=
  forall w e w', m w <> Raises e w'.

(** A thrown value that has a [message] property to read: any value but
    [undefined] and [null]. *)
Definition has_message (e : Thrown) : bool :=
  match e with
  | Nullish _ => false
  | _ => true
  end.

(** From the world [w] the computation does not throw. *)
Definition does_not_raise {A} (m : Async A) (w : World) : Prop :=
  forall e w', m w <> Raises e w'.

(** No operation of the browser is rejected with [undefined] or [null]. *)
Definition rejects_with_values (w : World) : Prop :=
  forall T evs (c : Call T) d e,
    browser w T evs c = Settles d (inl e) -> has_message e = true.

(** The computation only appends to the log of invoked operations. *)
Definition extends_log {A} (m : Async A) : Prop :=
  forall w, exists evs, log (final_world (m w)) = log w ++ evs.

(** ** The remaining tools

    The tools below call operations of the collaborators that the
    handlers above do not use.  Their answers come from a second oracle,
    passed to each handler; these operations are not logged. *)

(** What [createSnapshot] gives back: the formatter of the tree in its two
    forms, and the page's title, url and number of nodes. *)
Record SnapshotResult := {
  snap_format : bool -> string;
  snap_title : string;
  snap_url : string;
  snap_size : nat
}.

(** The value a script returns, with the two renderings the handler
    chooses between: [JSON.stringify(result, null, 2)] for a value whose
    [typeof] is ['object'], [String(result)] for any other. *)
Inductive ScriptValue :=
| ObjectValue (json : string)
| OtherValue (shown : string).

(** A request as [getNetworkRequest] returns it: the listed fields and
    the ones only the detail view prints. *)
Record NetworkRequestDetail := {
  listed : NetworkRequestRecord;
  statusText : option string;
  mimeType : option string;
  requestHeaders : option (list (string * string));
  responseHeaders : option (list (string * string));
  requestBody : option string
}.

(** A console message as [getConsoleMessage] returns it; [msg_args] is the
    text [JSON.stringify(message.args, null, 2)] and the number of
    arguments. *)
Record ConsoleMessageDetail := {
  shown_message : ConsoleMessageRecord;
  localeString : string;                  (* new Date(timestamp).toLocaleString() *)
  stackTrace : option string;
  msg_args : option (nat * string)
}.

Inductive Operation : Type -> Type :=
| dateNow : Operation Z
| create (viewId url : string) : Operation unit
| getState (viewId : string) : Operation (option ViewState)
| goBack (viewId : string) : Operation unit
| goForward (viewId : string) : Operation unit
| reloadView (viewId : string) : Operation unit
| waitForText (text : string) (timeoutMs : Z) : Operation unit
| dragElement (from_uid to_uid : string) : Operation unit
| pressKey (key : string) : Operation unit
| createSnapshot (verbose : bool) : Operation SnapshotResult
| evaluateScript (fn : string) (elementArgs : list ElementNode) : Operation ScriptValue
| getNetworkRequest (reqid : string) : Operation (option NetworkRequestDetail)
| getSelectedNetworkRequest : Operation (option NetworkRequestDetail)
| getConsoleMessage (msgid : string) : Operation (option ConsoleMessageDetail).

Definition Backend : Type := forall T, World -> Operation T -> Reply T.

(** Modelled from the spec: [browserViewManager.create] registers the new
    view (its body is missing); no other operation of this group changes
    the state kept in the world. *)
Definition registers {T} (op : Operation T) (w : World) : World :=
  match op with
  | create viewId url =>
      set_views (views w ++ [{| view_id := viewId; view_title := ""; view_url := url |}]) w
  | _ => w
  end.

(** Calling one of these operations and waiting for it. *)
Definition perform (B : Backend) {T} (op : Operation T) : Async T := fun w =>
  match B T w op with
  | Settles d (inl e) => Raises e (tick d w)
  | Settles d (inr v) => Returns v (registers op (tick d w))
  | NeverSettles => Hangs w
  end.

(** [(args.timeout && args.timeout > 0) ? args.timeout : NAV_TIMEOUT] *)
Definition effective_timeout (timeout : option Z) : Z :=
  match timeout with
  | Some t => if negb (t =? 0) && (0 <? t) then t else NAV_TIMEOUT
  | None => NAV_TIMEOUT
  end.

Record NewPageArgs := { np_url : string; np_timeout : option Z }.

Definition browser_new_page (B : Backend) (args : NewPageArgs) : Async ToolResult :=
  let timeout := effective_timeout (np_timeout args) in
  w ← ask;
  try_catch
    (now ← perform B dateNow;
     let viewId := "ai-browser-" +:+ showNumber (host w) (inject_Z now) in
     perform B (create viewId (np_url args));;
     invoke (setActiveViewId viewId);;
     invoke (waitForNavigation timeout);;
     finalState ← perform B (getState viewId);
     mret (textResult
             ("Created new page: "
              +:+ Js.or_else (from_option view_title "" finalState) "Untitled" +:+ " - "
              +:+ Js.or_else (from_option view_url "" finalState) (np_url args))
             false))
    (fun error =>
       message ← message_of error;
       mret (textResult ("Failed to create new page: " +:+ message) true)).

Record NavigateArgs := {
  nav_type : option string;
  nav_url : option string;
  ignoreCache : option bool;
  nav_timeout : option Z
}.

(** [args.type || (args.url ? 'url' : undefined)] *)
Definition navType (args : NavigateArgs) : option string :=
  if given (nav_type args) then nav_type args
  else if given (nav_url args) then Some "url" else None.

Definition browser_navigate (B : Backend) (args : NavigateArgs) : Async ToolResult :=
  let timeout := effective_timeout (nav_timeout args) in
  w ← ask;
  if negb (given (navType args)) && negb (given (nav_url args)) then
    mret (textResult "Either URL or a type is required." true)
  else if negb (hasActiveView w) then
    mret (textResult "No active browser page. Use browser_new_page first." true)
  else
    let viewId := default "" (activeViewId w) in
    try_catch
      (let kind := default "" (navType args) in
       if String.eqb kind "back" then
         perform B (goBack viewId);;
         invoke (waitForNavigation timeout);;
         mret (textResult "Successfully navigated back." false)
       else if String.eqb kind "forward" then
         perform B (goForward viewId);;
         invoke (waitForNavigation timeout);;
         mret (textResult "Successfully navigated forward." false)
       else if String.eqb kind "reload" then
         perform B (reloadView viewId);;
         invoke (waitForNavigation timeout);;
         mret (textResult "Successfully reloaded the page." false)
       else if negb (given (nav_url args)) then
         mret (textResult "A URL is required for navigation of type=url." true)
       else
         invoke (navigate viewId (default "" (nav_url args)));;
         invoke (waitForNavigation timeout);;
         finalState ← perform B (getState viewId);
         mret (textResult
                 ("Successfully navigated to "
                  +:+ Js.or_else (from_option view_url "" finalState)
                        (default "" (nav_url args))
                  +:+ ".")
                 false))
      (fun error =>
         message ← message_of error;
         mret (textResult
                 ("Unable to navigate in the selected page: " +:+ message +:+ ".")
                 true)).

Record WaitForArgs := { wf_text : string; wf_timeout : option Z }.

Definition browser_wait_for (B : Backend) (args : WaitForArgs) : Async ToolResult :=
  let timeout := effective_timeout (wf_timeout args) in
  try_catch
    (perform B (waitForText (wf_text args) timeout);;
     mret (textResult
             ("Element with text " +:+ Js.dquote +:+ wf_text args +:+ Js.dquote +:+ " found.")
             false))
    (fun _ =>
       mret (textResult
               ("Timeout waiting for text: " +:+ Js.dquote +:+ wf_text args +:+ Js.dquote)
               true)).

Record DragArgs := { from_uid : string; to_uid : string }.

Definition browser_drag (B : Backend) (args : DragArgs) : Async ToolResult :=
  w ← ask;
  if negb (hasActiveView w) then
    mret (textResult "No active browser page." true)
  else
    try_catch
      (withTimeout (perform B (dragElement (from_uid args) (to_uid args)))
         TOOL_TIMEOUT "browser_drag";;
       mret (textResult "Successfully dragged an element" false))
      (fun error =>
         message ← message_of error;
         mret (textResult ("Failed to drag: " +:+ message) true)).

Record PressKeyArgs := { key : string }.

Definition browser_press_key (B : Backend) (args : PressKeyArgs) : Async ToolResult :=
  w ← ask;
  if negb (hasActiveView w) then
    mret (textResult "No active browser page." true)
  else
    try_catch
      (withTimeout (perform B (pressKey (key args))) TOOL_TIMEOUT "browser_press_key";;
       mret (textResult ("Successfully pressed key: " +:+ key args) false))
      (fun error =>
         message ← message_of error;
         mret (textResult ("Failed to press key: " +:+ message) true)).

Record SnapshotArgs := { verbose : option bool; snap_filePath : option string }.

Definition browser_snapshot (B : Backend) (args : SnapshotArgs) : Async ToolResult :=
  w ← ask;
  if negb (hasActiveView w) then
    mret (textResult "No active browser page. Use browser_new_page first." true)
  else
    try_catch
      (snapshot ← withTimeout (perform B (createSnapshot (or_false (verbose args))))
                    TOOL_TIMEOUT "browser_snapshot";
       let formatted := snap_format snapshot (or_false (verbose args)) in
       if given (snap_filePath args) then
         invoke (writeFileSync (default "" (snap_filePath args)) formatted);;
         mret (textResult
                 ("Snapshot saved to: " +:+ default "" (snap_filePath args)
                  +:+ Js.nl +:+ Js.nl +:+ "Page: " +:+ snap_title snapshot
                  +:+ Js.nl +:+ "URL: " +:+ snap_url snapshot
                  +:+ Js.nl +:+ "Elements: " +:+ Js.showZ (Z.of_nat (snap_size snapshot)))
                 false)
       else
         mret (textResult formatted false))
      (fun error =>
         message ← message_of error;
         mret (textResult ("Failed to take snapshot: " +:+ message) true)).

Record EvaluateArgs := { function : string; eval_args : option (list string) }.

(** The loop over [args.args]: every uid is resolved in the current
    snapshot, the first one that is not throws. *)
Fixpoint resolve_elements (w : World) (uids : list string) (elementArgs : list ElementNode)
    : Thrown + list ElementNode :=
  match uids with
  | [] => inr elementArgs
  | u :: rest =>
      match getElementByUid w u with
      | Some element => resolve_elements w rest (elementArgs ++ [element])
      | None => inl (ErrorObject ("Element not found: " +:+ u))
      end
  end.

Definition fence : string := "```".

Definition browser_evaluate (B : Backend) (args : EvaluateArgs) : Async ToolResult :=
  w ← ask;
  if negb (hasActiveView w) then
    mret (textResult "No active browser page." true)
  else
    try_catch
      (elementArgs ←
         match resolve_elements w (default [] (eval_args args)) [] with
         | inr els => mret els
         | inl e => throw e
         end;
       result ← withTimeout (perform B (evaluateScript (function args) elementArgs))
                  TOOL_TIMEOUT "browser_evaluate";
       let resultStr :=
         match result with
         | ObjectValue json => json
         | OtherValue shown => shown
         end in
       mret (textResult
               ("Script ran on page and returned:" +:+ Js.nl +:+ fence +:+ "json" +:+ Js.nl
                +:+ resultStr +:+ Js.nl +:+ fence)
               false))
      (fun error =>
         message ← message_of error;
         mret (textResult ("Script error: " +:+ message) true)).

Record NetworkRequestArgs := { reqid : option Q }.

Definition header_lines (title : string) (headers : option (list (string * string)))
    : list string :=
  match headers with
  | Some hs =>
      if (0 <? length hs)%nat
      then [title] ++ ((fun kv => fst kv +:+ ": " +:+ snd kv) <$> hs) ++ [""]
      else []
  | None => []
  end.

Definition body_lines (body : option string) : list string :=
  if given body then
    ["## Request Body"; fence; Js.substring_to 2000 (default "" body)]
    ++ (if (2000 <? Js.length (default "" body))%nat then ["... (truncated)"] else [])
    ++ [fence; ""]
  else [].

Definition request_detail_lines (h : Host) (request : NetworkRequestDetail) : list string :=
  let req := listed request in
  ["# Network Request: reqid=" +:+ req_id req;
   "";
   "## Basic Info";
   "URL: " +:+ req_url req;
   "Method: " +:+ req_method req;
   "Resource Type: " +:+ req_resourceType req;
   "Status: "
   +:+ match req_status req with
       | Some st => if st =? 0 then "pending" else showNumber h (inject_Z st)
       | None => "pending"
       end
   +:+ " " +:+ (if given (statusText request) then default "" (statusText request) else "");
   "MIME Type: "
   +:+ (if given (mimeType request) then default "" (mimeType request) else "unknown");
   ""]
  ++ match req_duration req with
     | Some d => ["## Timing"; "Duration: " +:+ showNumber h d +:+ "ms"; ""]
     | None => []
     end
  ++ header_lines "## Request Headers" (requestHeaders request)
  ++ header_lines "## Response Headers" (responseHeaders request)
  ++ body_lines (requestBody request)
  ++ (if given (req_error req) then ["## Error"; default "" (req_error req)] else []).

Definition browser_network_request (B : Backend) (args : NetworkRequestArgs)
    : Async ToolResult :=
  w ← ask;
  try_catch
    (match reqid args with
     | Some id =>
         request ← perform B (getNetworkRequest (showNumber (host w) id));
         match request with
         | Some r => mret (textResult (Js.join_lines (request_detail_lines (host w) r)) false)
         | None =>
             mret (textResult ("Request not found: " +:+ showNumber (host w) id) true)
         end
     | None =>
         selectedReq ← perform B getSelectedNetworkRequest;
         match selectedReq with
         | Some r => mret (textResult (Js.join_lines (request_detail_lines (host w) r)) false)
         | None =>
             mret (textResult
                     "Nothing is currently selected in the DevTools Network panel." false)
         end
     end)
    (fun error =>
       message ← message_of error;
       mret (textResult ("Failed to get request details: " +:+ message) true)).

Record ConsoleMessageArgs := { msgid : Q }.

Definition message_detail_lines (h : Host) (message : ConsoleMessageDetail) : list string :=
  let msg := shown_message message in
  ["# Console Message: msgid=" +:+ msg_id msg;
   "";
   "## Type: " +:+ toUpperCase h (msg_type msg);
   "Timestamp: " +:+ localeString message;
   ""]
  ++ (if given (msg_url msg) then
        ["## Source"; "File: " +:+ default "" (msg_url msg)]
        ++ match msg_lineNumber msg with
           | Some n => ["Line: " +:+ showNumber h (inject_Z n)]
           | None => []
           end
        ++ [""]
      else [])
  ++ ["## Message"; fence; msg_text msg; fence]
  ++ (if given (stackTrace message) then
        [""; "## Stack Trace"; fence; default "" (stackTrace message); fence]
      else [])
  ++ match msg_args message with
     | Some (n, json) =>
         if (0 <? n)%nat then [""; "## Arguments"; fence +:+ "json"; json; fence] else []
     | None => []
     end.

Definition browser_console_message (B : Backend) (args : ConsoleMessageArgs)
    : Async ToolResult :=
  w ← ask;
  try_catch
    (message ← perform B (getConsoleMessage (showNumber (host w) (msgid args)));
     match message with
     | Some m => mret (textResult (Js.join_lines (message_detail_lines (host w) m)) false)
     | None =>
         mret (textResult ("Message not found: " +:+ showNumber (host w) (msgid args)) true)
     end)
    (fun error =>
       message ← message_of error;
       mret (textResult ("Failed to get message details: " +:+ message) true)).

(** ** tools/emulation.ts

    The second definition of the emulation tool, with its own table and
    a result whose content is a plain string. *)
Module EmulationTs.

Record ToolResult := { content : string; isError : bool }.

Definition NETWORK_CONDITIONS : gmap string NetworkCondition :=
  list_to_map
    [("Slow 3G", {| download := 500 * 1024 / 8; upload := 500 * 1024 / 8; latency := 400 |});
     ("Fast 3G", {| download := 1.6 * 1024 * 1024 / 8; upload := 750 * 1024 / 8;
                    latency := 150 |});
     ("Regular 4G", {| download := 4 * 1024 * 1024 / 8; upload := 3 * 1024 * 1024 / 8;
                       latency := 20 |});
     ("DSL", {| download := 2 * 1024 * 1024 / 8; upload := 1 * 1024 * 1024 / 8;
                latency := 5 |});
     ("WiFi", {| download := 30 * 1024 * 1024 / 8; upload := 15 * 1024 * 1024 / 8;
                 latency := 2 |})]%Q.

Definition command (method : string) (params : list (string * Json)) : Async unit :=
  invoke (sendCDPCommand method (Some params)).

(** [emulateTool.handler(params, context)] *)
Definition handler (params : EmulateArgs) : Async ToolResult :=
  w ← ask;
  if negb (hasActiveView w) then
    mret {| content := "No active browser page."; isError := true |}
  else
    try_catch
      (results ←
         match networkConditions params with
         | Some nc =>
             if String.eqb nc "No emulation" then
               command "Network.emulateNetworkConditions"
                 [("offline", JBool false); ("latency", JNum 0);
                  ("downloadThroughput", JNum (-1)); ("uploadThroughput", JNum (-1))];;
               mret ["Network: No emulation"]
             else if String.eqb nc "Offline" then
               command "Network.emulateNetworkConditions"
                 [("offline", JBool true); ("latency", JNum 0);
                  ("downloadThroughput", JNum 0); ("uploadThroughput", JNum 0)];;
               mret ["Network: Offline"]
             else
               match NETWORK_CONDITIONS !! nc with
               | Some condition =>
                   command "Network.emulateNetworkConditions"
                     [("offline", JBool false); ("latency", JNum (latency condition));
                      ("downloadThroughput", JNum (download condition));
                      ("uploadThroughput", JNum (upload condition))];;
                   mret ["Network: " +:+ nc]
               | None => mret []
               end
         | None => mret []
         end;
       results ←
         match cpuThrottlingRate params with
         | Some rate =>
             command "Emulation.setCPUThrottlingRate" [("rate", JNum rate)];;
             mret (results ++ ["CPU throttling: " +:+ showNumber (host w) rate +:+ "x"])
         | None => mret results
         end;
       results ←
         match geolocation params with
         | Some None =>
             invoke (sendCDPCommand "Emulation.clearGeolocationOverride" None);;
             mret (results ++ ["Geolocation: cleared"])
         | Some (Some geo) =>
             command "Emulation.setGeolocationOverride"
               [("latitude", JNum (latitude geo)); ("longitude", JNum (longitude geo));
                ("accuracy", JNum 100)];;
             mret (results ++ ["Geolocation: " +:+ showNumber (host w) (latitude geo)
                               +:+ ", " +:+ showNumber (host w) (longitude geo)])
         | None => mret results
         end;
       if (length results =? 0)%nat then
         mret {| content := "No emulation settings changed."; isError := false |}
       else
         mret {| content := Js.join_lines results; isError := false |})
      (fun error =>
         message ← message_of error;
         mret {| content := "Emulation failed: " +:+ message; isError := true |}).

End EmulationTs.

(** The envelope of the server around a plain result. *)
Definition envelope (r : EmulationTs.ToolResult) : ToolResult :=
  textResult (EmulationTs.content r) (EmulationTs.isError r).

Definition map_outcome {A B} (f : A -> B) (o : Outcome A) : Outcome B :=
  match o with
  | Returns a w => Returns (f a) w
  | Raises e w => Raises e w
  | Hangs w => Hangs w
  end.

(** ** Shapes of results *)

(** The refusal every page-bound tool starts with: an error result whose
    text begins with the same sentence, and a world left as it was. *)
Definition refused (o : Outcome ToolResult) (w : World) : Prop :=
  exists t, o = Returns (textResult t true) w
            /\ String.prefix "No active browser page." t = true.

(** From the world [w] the computation returns a result after at most
    [ms] milliseconds. *)
Definition returns_within {A} (ms : Z) (m : Async A) (w : World) : Prop :=
  exists a w', m w = Returns a w' /\ clock w' <= clock w + ms.

(** The same for the second group of operations. *)
Definition answers_with_values (B : Backend) : Prop :=
  forall T w (op : Operation T) d e,
    B T w op = Settles d (inl e) -> has_message e = true.


(** The text around what a script returned. *)
Definition script_result (value : ScriptValue) : string :=
  "Script ran on page and returned:" +:+ Js.nl +:+ fence +:+ "json" +:+ Js.nl
  +:+ match value with
      | ObjectValue json => json
      | OtherValue shown => shown
      end
  +:+ Js.nl +:+ fence.

(** A computation that keeps the browser it was given and, as long as the
    browser rejects only with values that have a message, throws only
    such values. *)
Definition polite {A} (m : Async A) : Prop :=
  forall w,
    browser (final_world (m w)) = browser w /\
    (rejects_with_values w -> forall e w', m w = Raises e w' -> has_message e = true).

(** A [catch] block that keeps the browser and, given a value with a
    message, throws only such values. *)
Definition polite_handler {A} (h : Thrown -> Async A) : Prop :=
  forall e w,
    browser (final_world (h e w)) = browser w /\
    (has_message e = true -> rejects_with_values w ->
     forall e' w', h e w = Raises e' w' -> has_message e' = true).

(** No page is selected. *)
Definition no_page : World := sample_world [home] None (responsive 10).

(** A backend that never answers, one that rejects everything, and one
    that fulfils everything: the page's state is the one the view manager
    holds, a snapshot has two nodes, a script returns 42. *)
Definition silent : Backend := fun _ _ _ => NeverSettles.

Definition failing (message : string) : Backend :=
  fun _ _ _ => Settles 3 (inl (ErrorObject message)).

Definition sample_snapshot : SnapshotResult :=
  {| snap_format := fun v => if v then "uid=1_0 RootWebArea focusable" else "uid=1_0 RootWebArea";
     snap_title := "Home"; snap_url := "https://example.com/"; snap_size := 2 |}.

Definition answering : Backend :=
  fun T w op =>
    match op in Operation T return Reply T with
    | dateNow => Settles 0 (inr 1700000000000)
    | create _ _ => Settles 15 (inr tt)
    | getState viewId =>
        Settles 0 (inr (List.find (fun v => String.eqb (view_id v) viewId) (views w)))
    | goBack _ => Settles 0 (inr tt)
    | goForward _ => Settles 0 (inr tt)
    | reloadView _ => Settles 0 (inr tt)
    | waitForText _ _ => Settles 120 (inr tt)
    | dragElement _ _ => Settles 40 (inr tt)
    | pressKey _ => Settles 8 (inr tt)
    | createSnapshot _ => Settles 90 (inr sample_snapshot)
    | evaluateScript _ _ => Settles 25 (inr (OtherValue "42"))
    | getNetworkRequest _ => Settles 0 (inr None)
    | getSelectedNetworkRequest => Settles 0 (inr None)
    | getConsoleMessage _ => Settles 0 (inr None)
    end.

(** A backend whose scripts return the uids of the elements they are
    given, in the order they come in. *)
Definition echoing : Backend :=
  fun T w op =>
    match op in Operation T return Reply T with
    | evaluateScript _ elementArgs =>
        Settles 25 (inr (OtherValue (String.concat "," (uid <$> elementArgs))))
    | op' => answering _ w op'
    end.

(** ** The commands an emulation asks for *)

(** The network command of a condition: one for the two sentinels and for
    a name of the table, none for any other name. *)
Definition network_command (nc : string) : list Event :=
  if String.eqb nc "No emulation" then [Invoked (emulateNetworkConditions false 0 (-1) (-1))]
  else if String.eqb nc "Offline" then [Invoked (emulateNetworkConditions true 0 0 0)]
  else match NETWORK_CONDITIONS !! nc with
       | Some c =>
           [Invoked (emulateNetworkConditions false (latency c) (download c) (upload c))]
       | None => []
       end.

Definition cpu_command (rate : Q) : list Event :=
  [Invoked (sendCDPCommand "Emulation.setCPUThrottlingRate" (Some [("rate", JNum rate)]))].

Definition geolocation_command (geo : option Geolocation) : list Event :=
  match geo with
  | None => [Invoked (sendCDPCommand "Emulation.clearGeolocationOverride" None)]
  | Some g =>
      [Invoked (sendCDPCommand "Emulation.setGeolocationOverride"
                  (Some [("latitude", JNum (latitude g)); ("longitude", JNum (longitude g));
                         ("accuracy", JNum 100)]))]
  end.

(** All the commands of a call, in the order network, CPU, geolocation. *)
Definition emulate_commands (args : EmulateArgs) : list Event :=
  from_option network_command [] (networkConditions args)
  ++ from_option cpu_command [] (cpuThrottlingRate args)
  ++ from_option geolocation_command [] (geolocation args).

(** The computation invokes the operations [cmds] in order and stops at
    the first that does not succeed: its log grows by a prefix of [cmds],
    by all of them when it returns. *)
Definition sends {A} (cmds : list Event) (m : Async A) : Prop :=
  forall w, exists evs,
    log (final_world (m w)) = log w ++ evs /\
    evs `prefix_of` cmds /\
    (forall a w', m w = Returns a w' -> evs = cmds).

Definition everything : EmulateArgs :=
  {| networkConditions := Some "Fast 3G"; cpuThrottlingRate := Some 4%Q;
     geolocation := Some (Some {| latitude := 48.85; longitude := 2.35 |}) |}.

(** ** What a trace start asks for *)

(** The operations of [browser_perf_start] in order: with [reload] the
    page is blanked, the trace started, the page's url loaded again and
    its load awaited; [autoStop] adds the stop. *)
Definition perf_commands (viewId url : string) (args : PerfStartArgs) : list Event :=
  (if reload args
   then [Invoked (navigate viewId "about:blank"); Invoked startPerformanceTrace;
         Invoked (navigate viewId url); Invoked (waitForNavigation NAV_TIMEOUT)]
   else [Invoked startPerformanceTrace])
  ++ (if autoStop args then [Invoked stopPerformanceTrace] else []).

(** The pauses of [browser_perf_start]: half a second before the trace
    when reloading, five seconds before an automatic stop. *)
Definition perf_pauses (args : PerfStartArgs) : Z :=
  (if reload args then 500 else 0) + (if autoStop args then 5000 else 0).

(** A computation that returns has taken at least [ms] milliseconds. *)
Definition takes_at_least {A} (ms : Z) (m : Async A) : Prop :=
  forall w a w', m w = Returns a w' -> clock w + ms <= clock w'.

(** The nine metrics the trace summary prints. *)
Definition summary_metrics : list string :=
  ["JSHeapUsedSize"; "JSHeapTotalSize"; "Nodes"; "Documents"; "LayoutCount";
   "LayoutDuration"; "RecalcStyleCount"; "ScriptDuration"; "TaskDuration"].

(** A metric as the summary tests it: [None] when absent or zero. *)
Definition metric_shown (metrics : gmap string Q) (key : string) : option Q :=
  match metrics !! key with
  | Some v => if Js.nonzero v then Some v else None
  | None => None
  end.

(** ** Sample texts *)


(** The grinning face, U+1F600: four bytes, the two code units D83D DE00. *)
Definition grinning_face : string :=
  String "240" (String "159" (String "152" (String "128" EmptyString))).


(** ** Sample calls of the remaining tools *)

Definition go (kind : string) : NavigateArgs :=
  {| nav_type := Some kind; nav_url := None; ignoreCache := None; nav_timeout := None |}.

Definition is_history (kind : string) : bool :=
  String.eqb kind "back" || String.eqb kind "forward" || String.eqb kind "reload".
(** * Properties *)

(** ** Running computations *)

Ltac run :=
  cbv [mbind async_bind mret async_ret ask throw try_catch read_property sleep] in *.

Lemma mret_never_raises {A} (a : A) : never_raises (mret a : Async A).
Proof. intros w e w'. run. discriminate. Qed.

Lemma try_catch_never_raises {A} (m : Async A) (h : Thrown -> Async A) :
  (forall e, never_raises (h e)) -> never_raises (try_catch m h).
Proof.
  intros Hh w e w'. unfold try_catch.
  destruct (m w) as [a w1|e1 w1|w1]; try discriminate.
  apply Hh.
Qed.

Lemma bind_never_raises {A B} (m : Async A) (k : A -> Async B) :
  never_raises m -> (forall a, never_raises (k a)) -> never_raises (m ≫= k).
Proof.
  intros Hm Hk w e w'. run.
  destruct (m w) as [a w1|e1 w1|w1] eqn:E; try discriminate.
  - apply Hk.
  - exfalso. exact (Hm _ _ _ E).
Qed.

(** ** Page indices *)

Lemma index_integer_in_range {A} (states : list A) (q : Q) :
  Js.is_integer q = true ->
  Js.Qltb q 0 = false ->
  Qle_bool (inject_Z (Z.of_nat (length states))) q = false ->
  exists x, Js.index states q = Some x /\ x ∈ states.
Proof.
  unfold Js.index, Js.Qltb. intros Hint Hlo Hhi. rewrite Hint.
  apply negb_false_iff, Qle_bool_iff in Hlo.
  assert (Hlt : ~ (inject_Z (Z.of_nat (length states)) <= q)%Q).
  { intros H. apply Qle_bool_iff in H. congruence. }
  unfold Js.is_integer in Hint. apply Pos.eqb_eq in Hint.
  rewrite <- (Qred_correct q) in Hlo, Hlt.
  destruct (Qred q) as [n d]. simpl in *. subst d.
  unfold Qle in *. simpl in *.
  assert (0 <= n) by lia.
  replace (0 <=? n) with true by (symmetry; apply Z.leb_le; lia).
  simpl.
  destruct (states !! Z.to_nat n) as [x|] eqn:E.
  - exists x. split; [reflexivity|]. eapply list_elem_of_lookup_2; eauto.
  - apply lookup_ge_None in E. lia.
Qed.

Lemma is_live_elem (state : ViewState) (w : World) :
  state ∈ views w -> is_live (view_id state) w = true.
Proof.
  intros H. unfold is_live. apply existsb_exists. exists state. split.
  - apply list_elem_of_In. exact H.
  - apply String.eqb_refl.
Qed.

(** With an integer index [browser_select_page] returns a result. *)
Lemma browser_select_page_integer_returns (args : SelectPageArgs) (w : World) :
  Js.is_integer (sp_pageIdx args) = true ->
  exists r w', browser_select_page args w = Returns r w'.
Proof.
  intros Hint. unfold browser_select_page, getAllStates. run.
  unfold index_out_of_range.
  destruct (Js.Qltb (sp_pageIdx args) 0) eqn:Hlo; simpl; [eauto|].
  destruct (Qle_bool _ (sp_pageIdx args)) eqn:Hhi; simpl; [eauto|].
  destruct (index_integer_in_range (views w) _ Hint Hlo Hhi) as (state & -> & Hin).
  unfold invoke. simpl. rewrite (is_live_elem state w Hin). eauto.
Qed.

(** With an integer index [browser_close_page] returns a result. *)
Lemma browser_close_page_integer_returns (args : ClosePageArgs) (w : World) :
  Js.is_integer (cp_pageIdx args) = true ->
  exists r w', browser_close_page args w = Returns r w'.
Proof.
  intros Hint. unfold browser_close_page, getAllStates. run.
  unfold index_out_of_range.
  destruct (Js.Qltb (cp_pageIdx args) 0) eqn:Hlo; simpl; [eauto|].
  destruct (Qle_bool _ (cp_pageIdx args)) eqn:Hhi; simpl; [eauto|].
  destruct (length (views w) =? 1)%nat eqn:Hone; [eauto|].
  destruct (index_integer_in_range (views w) _ Hint Hlo Hhi) as (state & -> & Hin).
  unfold invoke. simpl.
  assert (Hs : sole_view (view_id state) w = false).
  { unfold sole_view. destruct (views w) as [|v [|v' vs]]; try reflexivity.
    simpl in Hone. discriminate. }
  rewrite Hs. eauto.
Qed.

(** The handler [browser_select_page] itself lets an exception out.  With
    one page open and [pageIdx = 0.5] the index passes the range check,
    [states[0.5]] is [undefined], and reading [state.id] throws outside
    any [try] block: the handler's promise is rejected. *)
Lemma browser_select_page_fraction_escapes :
  browser_select_page {| sp_pageIdx := 1 # 2; sp_bringToFront := None |} one_page
  = Raises (ErrorObject "Cannot read properties of undefined (reading 'id')") one_page.
Proof. vm_compute. reflexivity. Qed.

(** The same in [browser_close_page], with two pages open. *)
Lemma browser_close_page_fraction_escapes :
  browser_close_page {| cp_pageIdx := 1 # 2 |} two_pages
  = Raises (ErrorObject "Cannot read properties of undefined (reading 'id')") two_pages.
Proof. vm_compute. reflexivity. Qed.

(** Any index that passes the range check without being an integer makes
    [browser_select_page] throw. *)
Lemma browser_select_page_fraction_raises (args : SelectPageArgs) (w : World) :
  Js.is_integer (sp_pageIdx args) = false ->
  index_out_of_range (sp_pageIdx args) (views w) = false ->
  browser_select_page args w
  = Raises (ErrorObject "Cannot read properties of undefined (reading 'id')") w.
Proof.
  intros Hint Hrange. unfold browser_select_page, getAllStates. run.
  rewrite Hrange. unfold Js.index. rewrite Hint. reflexivity.
Qed.

(** *** Through the dispatcher *)





(** The call that makes the handler throw, seen by the caller. *)
Example select_page_fraction_dispatched :
  dispatch (browser_select_page {| sp_pageIdx := 1 # 2; sp_bringToFront := None |}) one_page
  = Returns (textResult "Cannot read properties of undefined (reading 'id')" true) one_page.
Proof. vm_compute. reflexivity. Qed.

(** *** Handlers whose body sits in a [try] block *)

Lemma browser_effect {T} (c : Call T) (w : World) : browser (effect c w) = browser w.
Proof. destruct c; reflexivity. Qed.

Lemma browser_registers {T} (op : Operation T) (w : World) :
  browser (registers op w) = browser w.
Proof. destruct op; reflexivity. Qed.

Lemma rejects_with_values_same (w w' : World) :
  browser w' = browser w -> rejects_with_values w -> rejects_with_values w'.
Proof. unfold rejects_with_values. intros -> H. exact H. Qed.

Lemma polite_mret {A} (a : A) : polite (mret a : Async A).
Proof. intros w. split; [reflexivity|]. intros _ e w'. run. discriminate. Qed.

Lemma polite_ask : polite ask.
Proof. intros w. split; [reflexivity|]. intros _ e w'. run. discriminate. Qed.

Lemma polite_sleep (ms : Z) : polite (sleep ms).
Proof. intros w. split; [reflexivity|]. intros _ e w'. run. discriminate. Qed.

Lemma polite_throw {A} (e : Thrown) : has_message e = true -> polite (throw e : Async A).
Proof.
  intros He w. split; [reflexivity|]. intros _ e' w'. run.
  intros H. inversion H; subst. exact He.
Qed.

Lemma polite_read_property {A} (o : option A) (prop : string) :
  polite (read_property o prop).
Proof. destruct o; [apply polite_mret|apply polite_throw; reflexivity]. Qed.

Lemma polite_invoke {T} (c : Call T) : polite (invoke c).
Proof.
  intros w. unfold invoke. split.
  - destruct (settled_by_rule c w) as [[e|v]|]; simpl; rewrite ?browser_effect;
      try reflexivity.
    destruct (browser w T (log w) c) as [d [e|v]|]; simpl; rewrite ?browser_effect;
      reflexivity.
  - intros Hw e w'.
    destruct (settled_by_rule c w) as [[e1|v]|] eqn:Hrule.
    + intros H. inversion H; subst.
      destruct c; simpl in Hrule; try discriminate;
        repeat match type of Hrule with
               | context [if ?b then _ else _] => destruct b
               | context [match ?o with Some _ => _ | None => _ end] => destruct o
               end;
        inversion Hrule; reflexivity.
    + discriminate.
    + destruct (browser w T (log w) c) as [d [e1|v]|] eqn:Hb; try discriminate.
      intros H. inversion H; subst. exact (Hw _ _ _ _ _ Hb).
Qed.

Lemma polite_perform (B : Backend) {T} (op : Operation T) :
  answers_with_values B -> polite (perform B op).
Proof.
  intros HB w. unfold perform. split.
  - destruct (B T w op) as [d [e|v]|]; simpl; rewrite ?browser_registers; reflexivity.
  - intros _ e w'. destruct (B T w op) as [d [e1|v]|] eqn:Hb; try discriminate.
    intros H. inversion H; subst. exact (HB _ _ _ _ _ Hb).
Qed.

Lemma polite_bind {A B} (m : Async A) (k : A -> Async B) :
  polite m -> (forall a, polite (k a)) -> polite (m ≫= k).
Proof.
  intros Hm Hk w. cbv [mbind async_bind].
  destruct (Hm w) as [Hb Hr].
  destruct (m w) as [a w1|e1 w1|w1] eqn:E; simpl in Hb.
  - destruct (Hk a w1) as [Hb' Hr']. split; [congruence|].
    intros Hw. apply Hr'. exact (rejects_with_values_same _ _ Hb Hw).
  - split; [exact Hb|]. intros Hw e w' H. inversion H; subst. exact (Hr Hw _ _ eq_refl).
  - split; [exact Hb|]. intros; discriminate.
Qed.

Lemma polite_withTimeout {A} (m : Async A) (ms : Z) (label : string) :
  polite m -> polite (withTimeout m ms label).
Proof.
  intros Hm w. unfold withTimeout. destruct (Hm w) as [Hb Hr].
  destruct (m w) as [a w1|e1 w1|w1] eqn:E; simpl in Hb.
  - destruct (clock w1 <? clock w + ms); simpl; (split; [exact Hb|]);
      intros Hw e w' H; inversion H; reflexivity.
  - destruct (clock w1 <? clock w + ms); simpl; (split; [exact Hb|]);
      intros Hw e w' H; inversion H; subst; [exact (Hr Hw _ _ eq_refl)|reflexivity].
  - simpl. split; [exact Hb|]. intros Hw e w' H. inversion H. reflexivity.
Qed.

Lemma polite_try_catch {A} (m : Async A) (h : Thrown -> Async A) :
  polite m -> polite_handler h -> polite (try_catch m h).
Proof.
  intros Hm Hh w. unfold try_catch. destruct (Hm w) as [Hb Hr].
  destruct (m w) as [a w1|e1 w1|w1] eqn:E; simpl in Hb.
  - split; [exact Hb|]. intros; discriminate.
  - destruct (Hh e1 w1) as [Hb' Hr']. split; [congruence|].
    intros Hw. apply Hr'; [exact (Hr Hw _ _ eq_refl)|].
    exact (rejects_with_values_same _ _ Hb Hw).
  - split; [exact Hb|]. intros; discriminate.
Qed.

(** The [catch] block of the handlers: it reads the message of what it
    caught and returns. *)
Lemma report_is_polite {A} (k : string -> A) :
  polite_handler (fun error => message ← message_of error; mret (k message)).
Proof.
  intros e w. destruct e; run; simpl; split; try reflexivity; intros; discriminate.
Qed.

(** A [try] block around a polite body, with that [catch] block, does not
    throw when the browser rejects only with values. *)
Lemma guarded_does_not_raise {A} (body : Async A) (k : string -> A) (w : World) :
  polite body -> rejects_with_values w ->
  does_not_raise (try_catch body (fun error => message ← message_of error; mret (k message))) w.
Proof.
  intros Hbody Hw e w'. unfold try_catch.
  destruct (Hbody w) as [_ Hr].
  destruct (body w) as [a w1|e1 w1|w1] eqn:E; try discriminate.
  specialize (Hr Hw _ _ eq_refl). destruct e1; try discriminate; run; discriminate.
Qed.

Lemma polite_fillFormElement (u value : string) : polite (fillFormElement u value).
Proof.
  unfold fillFormElement. apply polite_bind; [apply polite_ask|]. intros w0.
  destruct (getElementByUid w0 u) as [el|]; [|apply polite_invoke].
  destruct (String.eqb (role el) "combobox"); [|apply polite_invoke].
  apply polite_bind.
  - destruct (match children el with Some cs => _ | None => false end);
      [|apply polite_mret].
    apply polite_try_catch.
    + apply polite_bind; [apply polite_invoke|intros; apply polite_mret].
    + intros e w. destruct e as [m|m|n]; cbn [instanceof_Error negb message_of].
      * run. destruct (negb (Js.includes m "Could not find option")); simpl;
          (split; [reflexivity|]); intros _ _ e' w' H; inversion H; reflexivity.
      * run. simpl. split; [reflexivity|]. intros _ _ e' w' H. inversion H. reflexivity.
      * run. simpl. split; [reflexivity|]. intros H. discriminate.
  - intros [|]; [apply polite_mret|apply polite_invoke].
Qed.

Ltac polite :=
  repeat first
    [ apply polite_mret | apply polite_ask | apply polite_sleep | apply polite_invoke
    | apply polite_fillFormElement | apply polite_read_property
    | apply polite_perform; assumption
    | apply polite_withTimeout
    | apply polite_bind; [|intros ?]
    | match goal with
      | |- polite (if ?b then _ else _) => destruct b
      | |- polite (match ?o with Some _ => _ | None => _ end) => destruct o
      end ].

Ltac guarded :=
  intros w e w'; cbv [mbind async_bind ask];
  repeat match goal with
         | |- (if ?b then _ else _) _ <> _ => destruct b
         | |- (if ?b then _ else _) <> _ => destruct b
         | |- (match ?o with Some _ => _ | None => _ end) _ <> _ => destruct o
         | |- mret _ _ <> _ => discriminate
         | |- try_catch _ _ _ <> _ =>
             apply try_catch_never_raises; intros; apply mret_never_raises
         end.

Lemma browser_list_pages_never_raises : never_raises browser_list_pages.
Proof. unfold browser_list_pages. guarded. Qed.

Lemma browser_network_requests_never_raises args :
  never_raises (browser_network_requests args).
Proof.
  unfold browser_network_requests. intros w e w'. cbv [mbind async_bind ask try_catch].
  destruct (length _ =? 0)%nat; discriminate.
Qed.

Lemma browser_console_never_raises args : never_raises (browser_console args).
Proof.
  unfold browser_console. intros w e w'. cbv [mbind async_bind ask try_catch].
  destruct (length _ =? 0)%nat; discriminate.
Qed.

Lemma ask_bind {A} (k : World -> Async A) (w : World) : (ask ≫= k) w = k w w.
Proof. reflexivity. Qed.

(** The frame of a handler: the world is read, the page checks return
    early, and the rest is a [try] block with the reporting [catch]. *)
Ltac framed :=
  intros; unfold does_not_raise; intros ? ?; rewrite ask_bind;
  repeat match goal with
         | |- (if ?b then _ else _) _ <> _ => destruct b
         | |- (match ?o with Some _ => _ | None => _ end) _ <> _ => destruct o
         | |- mret _ _ <> _ => apply mret_never_raises
         end;
  try (apply guarded_does_not_raise; [polite|assumption]).

Lemma browser_resize_does_not_raise args w :
  rejects_with_values w -> does_not_raise (browser_resize args) w.
Proof. unfold browser_resize. framed. Qed.

Lemma browser_handle_dialog_does_not_raise args w :
  rejects_with_values w -> does_not_raise (browser_handle_dialog args) w.
Proof. unfold browser_handle_dialog. framed. Qed.

Lemma browser_click_does_not_raise args w :
  rejects_with_values w -> does_not_raise (browser_click args) w.
Proof. unfold browser_click. framed. Qed.

Lemma browser_hover_does_not_raise args w :
  rejects_with_values w -> does_not_raise (browser_hover args) w.
Proof. unfold browser_hover. framed. Qed.

Lemma browser_fill_does_not_raise args w :
  rejects_with_values w -> does_not_raise (browser_fill args) w.
Proof. unfold browser_fill. framed. Qed.

Lemma polite_fill_each elems : forall errors, polite (fill_each elems errors).
Proof.
  induction elems as [|elem rest IH]; intros errors; cbn [fill_each].
  - apply polite_mret.
  - apply polite_bind; [|intros; apply IH].
    apply polite_try_catch; [polite|apply report_is_polite].
Qed.

(** The loop of [browser_fill_form] throws only out of a [catch] block,
    and only when the value caught has no message. *)
Lemma fill_each_does_not_raise elems : forall errors w,
  rejects_with_values w -> does_not_raise (fill_each elems errors) w.
Proof.
  induction elems as [|elem rest IH]; intros errors w Hw e w'; cbn [fill_each].
  - apply mret_never_raises.
  - cbv [mbind async_bind].
    set (attempt_ := try_catch _ _).
    assert (Hpol : polite attempt_).
    { apply polite_try_catch; [polite|apply report_is_polite]. }
    assert (Hno : does_not_raise attempt_ w).
    { apply guarded_does_not_raise; [polite|exact Hw]. }
    destruct (Hpol w) as [Hb _].
    destruct (attempt_ w) as [errs w1|e1 w1|w1] eqn:E; simpl in Hb.
    + apply IH. exact (rejects_with_values_same _ _ Hb Hw).
    + exfalso. exact (Hno _ _ E).
    + discriminate.
Qed.

Lemma browser_fill_form_does_not_raise args w :
  rejects_with_values w -> does_not_raise (browser_fill_form args) w.
Proof.
  intros Hw e w'. unfold browser_fill_form. rewrite ask_bind.
  destruct (negb (hasActiveView w)); [apply mret_never_raises|].
  cbv [mbind async_bind].
  destruct (fill_each (elements args) [] w) as [errs w1|e1 w1|w1] eqn:E.
  - destruct (0 <? length errs)%nat; apply mret_never_raises.
  - exfalso. exact (fill_each_does_not_raise _ _ _ Hw _ _ E).
  - discriminate.
Qed.

Lemma browser_screenshot_does_not_raise args w :
  rejects_with_values w -> does_not_raise (browser_screenshot args) w.
Proof. unfold browser_screenshot. framed. Qed.

Lemma polite_emulate_network nc results : polite (emulate_network nc results).
Proof. unfold emulate_network. polite. Qed.

Lemma polite_emulate_cpu h rate results : polite (emulate_cpu h rate results).
Proof. unfold emulate_cpu. polite. Qed.

Lemma polite_emulate_geolocation h geo results :
  polite (emulate_geolocation h geo results).
Proof. unfold emulate_geolocation. destruct geo as [[g|]|]; polite. Qed.

Lemma browser_emulate_does_not_raise args w :
  rejects_with_values w -> does_not_raise (browser_emulate args) w.
Proof.
  unfold browser_emulate. intros Hw e w'. rewrite ask_bind.
  destruct (negb (hasActiveView w)); [apply mret_never_raises|].
  apply guarded_does_not_raise; [|exact Hw].
  apply polite_bind; [apply polite_emulate_network|intros r1].
  apply polite_bind; [apply polite_emulate_cpu|intros r2].
  apply polite_bind; [apply polite_emulate_geolocation|intros r3].
  polite.
Qed.

Lemma browser_perf_start_does_not_raise args w :
  rejects_with_values w -> does_not_raise (browser_perf_start args) w.
Proof. unfold browser_perf_start. framed. Qed.

Lemma browser_perf_stop_does_not_raise w :
  rejects_with_values w -> does_not_raise browser_perf_stop w.
Proof. unfold browser_perf_stop. framed. Qed.

(** ** Pagination *)

Lemma page_of_lookup {A} (records : list A) (size idx : Z) :
  0 < size -> 0 <= idx ->
  slice_of records (idx * size)
    (Z.min (idx * size + size) (Z.of_nat (length records)))
    (page_of (Some size) idx records).
Proof.
  intros Hsize Hidx i. unfold page_of, Js.slice.
  set (n := Z.of_nat (length records)).
  set (s := idx * size).
  assert (Hs : 0 <= s) by (subst s; nia).
  assert (Hn : 0 <= n) by (subst n; lia).
  replace (s <? 0) with false by (symmetry; apply Z.ltb_ge; lia).
  replace (Z.min (s + size) n <? 0) with false by (symmetry; apply Z.ltb_ge; lia).
  destruct (decide (s + Z.of_nat i < Z.min (s + size) n)) as [Hlt|Hge].
  - rewrite lookup_take_lt by lia.
    rewrite lookup_drop. f_equal. lia.
  - destruct (decide (s <= n)).
    + apply lookup_take_ge. lia.
    + apply lookup_take_ge. lia.
Qed.

Lemma page_of_length {A} (records : list A) (size idx : Z) :
  0 < size -> 0 <= idx ->
  Z.of_nat (length (page_of (Some size) idx records)) =
  Z.max 0 (Z.min (idx * size + size) (Z.of_nat (length records)) - idx * size).
Proof.
  intros Hsize Hidx. unfold page_of, Js.slice.
  set (n := Z.of_nat (length records)).
  set (s := idx * size).
  assert (Hs : 0 <= s) by (subst s; nia).
  assert (Hn : 0 <= n) by (subst n; lia).
  replace (s <? 0) with false by (symmetry; apply Z.ltb_ge; lia).
  replace (Z.min (s + size) n <? 0) with false by (symmetry; apply Z.ltb_ge; lia).
  rewrite length_take, length_drop. subst n. lia.
Qed.

Lemma page_hint_remaining {A} (what : string) (records : list A) (size idx : Z) :
  0 < size -> 0 <= idx -> idx * size < Z.of_nat (length records) ->
  page_hint what (Some size) idx (length (page_of (Some size) idx records)) (length records)
  = if decide (Z.min (idx * size + size) (Z.of_nat (length records)) < Z.of_nat (length records))
    then ["Use pageIdx=" +:+ Js.showZ (idx + 1) +:+ " to see more " +:+ what +:+ "."]
    else [].
Proof.
  intros Hsize Hidx Hlt. unfold page_hint.
  rewrite (page_of_length records size idx Hsize Hidx).
  destruct (decide _) as [H|H].
  - replace (_ <? _) with true; [reflexivity|]. symmetry. apply Z.ltb_lt. lia.
  - replace (_ <? _) with false; [reflexivity|]. symmetry. apply Z.ltb_ge. lia.
Qed.

(** The console listing: a page that is not empty is listed as the
    specification describes. *)
Lemma browser_console_listing (w : World) (args : ConsoleArgs) (size idx : Z) :
  co_pageSize args = Some size -> default 0 (co_pageIdx args) = idx ->
  0 < size -> 0 <= idx ->
  let n := Z.of_nat (length (filter_messages (co_types args)
             (consoleMessages w (or_false (co_includePreservedMessages args))))) in
  (idx * size < n -> console_listing_as_specified w args size idx) /\
  (n <= idx * size ->
   browser_console args w = Returns (textResult "No console messages captured." false) w).
Proof.
  intros Hsz Hix Hsize Hidx n.
  unfold console_listing_as_specified, browser_console. run.
  rewrite Hsz, Hix.
  set (messages := filter_messages _ _) in *.
  pose proof (page_of_length messages size idx Hsize Hidx) as Hlen.
  fold n in Hlen.
  split.
  - intros Hlt. exists (page_of (Some size) idx messages). split.
    + apply page_of_lookup; assumption.
    + replace (length (page_of (Some size) idx messages) =? 0)%nat with false
        by (symmetry; apply Nat.eqb_neq; lia).
      unfold console_lines, listing_text. rewrite Hsz, Hix.
      rewrite (page_hint_remaining "messages" messages size idx Hsize Hidx Hlt).
      reflexivity.
  - intros Hge.
    replace (length (page_of (Some size) idx messages) =? 0)%nat with true
      by (symmetry; apply Nat.eqb_eq; lia).
    reflexivity.
Qed.

Lemma browser_network_requests_listing (w : World) (args : NetworkRequestsArgs)
    (size idx : Z) :
  nr_pageSize args = Some size -> default 0 (nr_pageIdx args) = idx ->
  0 < size -> 0 <= idx ->
  let n := Z.of_nat (length (filter_requests (host w) (nr_resourceTypes args)
             (networkRequests w (or_false (nr_includePreservedRequests args))))) in
  (idx * size < n -> network_listing_as_specified w args size idx) /\
  (n <= idx * size ->
   browser_network_requests args w
   = Returns (textResult "No network requests captured." false) w).
Proof.
  intros Hsz Hix Hsize Hidx n.
  unfold network_listing_as_specified, browser_network_requests. run.
  rewrite Hsz, Hix.
  set (requests := filter_requests _ _ _) in *.
  pose proof (page_of_length requests size idx Hsize Hidx) as Hlen.
  fold n in Hlen.
  split.
  - intros Hlt. exists (page_of (Some size) idx requests). split.
    + apply page_of_lookup; assumption.
    + replace (length (page_of (Some size) idx requests) =? 0)%nat with false
        by (symmetry; apply Nat.eqb_neq; lia).
      unfold network_lines, listing_text. rewrite Hsz, Hix.
      rewrite (page_hint_remaining "requests" requests size idx Hsize Hidx Hlt).
      reflexivity.
  - intros Hge.
    replace (length (page_of (Some size) idx requests) =? 0)%nat with true
      by (symmetry; apply Nat.eqb_eq; lia).
    reflexivity.
Qed.

(** C2, as amended: with a positive [pageSize] and a [pageIdx] that is not
    negative, when the page starts inside the (filtered) list, the handler
    returns exactly the records from [pageIdx * pageSize] up to
    [min(pageIdx * pageSize + pageSize, n)], under a header stating that
    range and the total, and with the next-page hint exactly when records
    remain after the page; when the page starts at or after the end of the
    list the response is the single line saying that nothing was captured,
    with no header and no hint.  This holds for console messages and for
    network requests. *)
Theorem list_handlers_paginate (w : World) (size idx : Z) :
  0 < size -> 0 <= idx ->
  (forall args : ConsoleArgs,
      co_pageSize args = Some size -> default 0 (co_pageIdx args) = idx ->
      let n := Z.of_nat (length (filter_messages (co_types args)
                 (consoleMessages w (or_false (co_includePreservedMessages args))))) in
      (idx * size < n -> console_listing_as_specified w args size idx) /\
      (n <= idx * size ->
       browser_console args w
       = Returns (textResult "No console messages captured." false) w)) /\
  (forall args : NetworkRequestsArgs,
      nr_pageSize args = Some size -> default 0 (nr_pageIdx args) = idx ->
      let n := Z.of_nat (length (filter_requests (host w) (nr_resourceTypes args)
                 (networkRequests w (or_false (nr_includePreservedRequests args))))) in
      (idx * size < n -> network_listing_as_specified w args size idx) /\
      (n <= idx * size ->
       browser_network_requests args w
       = Returns (textResult "No network requests captured." false) w)).
Proof.
  intros Hsize Hidx. split; intros args Hsz Hix.
  - apply browser_console_listing; assumption.
  - apply browser_network_requests_listing; assumption.
Qed.

(** The third page of twenty-five messages, ten to a page: items 21 to 25
    and no hint. *)
Lemma list_handlers_paginate_witness :
  0 < 10 /\ 0 <= 2 /\
  console_listing_as_specified twenty_five_messages (console_page 10 2) 10 2.
Proof.
  split; [lia|]. split; [lia|].
  refine (proj1 (proj1 (list_handlers_paginate twenty_five_messages 10 2 _ _)
                   (console_page 10 2) eq_refl eq_refl) _).
  - lia.
  - lia.
  - vm_compute. reflexivity.
Defined.

Example third_page_of_twenty_five :
  returned (browser_console (console_page 10 2) twenty_five_messages)
  = Some (textResult
            (Js.join_lines
               ["Console Messages (21-25 of 25):"; "";
                "[msgid=21] LOG (10:15:00)"; "    message 21"; "";
                "[msgid=22] LOG (10:15:00)"; "    message 22"; "";
                "[msgid=23] LOG (10:15:00)"; "    message 23"; "";
                "[msgid=24] LOG (10:15:00)"; "    message 24"; "";
                "[msgid=25] LOG (10:15:00)"; "    message 25"; ""])
            false).
Proof. vm_compute. reflexivity. Qed.

(** C2 as stated fails one page further: the fourth page of the same
    twenty-five messages is empty, and the response carries neither the
    header nor the total. *)
Lemma empty_page_has_no_header :
  ~ console_listing_as_specified twenty_five_messages (console_page 10 3) 10 3.
Proof.
  intros (page & Hslice & Hres).
  assert (Hpage : page = []).
  { destruct page as [|m page']; [reflexivity|].
    specialize (Hslice 0%nat). vm_compute in Hslice. discriminate. }
  subst page. vm_compute in Hres. discriminate.
Qed.

(** ** Filling a form element *)

(** C3: [fillFormElement] on a combobox with an option child tries
    [selectOption] first; a failure saying that no matching option exists
    is followed by [fillElement]; any other failure is rethrown as it is;
    every other element is filled directly with [fillElement]. *)
Theorem fillFormElement_paths (u value : string) (w : World) :
  fillFormElement u value w =
  if select_like w u then
    let w1 := record_call (selectOption u value) w in
    match browser w unit (log w) (selectOption u value) with
    | Settles d (inr _) => Returns tt (tick d w1)
    | Settles d (inl e) =>
        if no_matching_option e
        then invoke (fillElement u value) (tick d w1)
        else Raises e (tick d w1)
    | NeverSettles => Hangs w1
    end
  else invoke (fillElement u value) w.
Proof.
  unfold fillFormElement, select_like. run.
  destruct (getElementByUid w u) as [el|]; [|reflexivity].
  destruct (String.eqb (role el) "combobox"); [|reflexivity]. simpl.
  destruct (children el) as [cs|]; [|reflexivity].
  destruct (existsb _ cs); [|reflexivity].
  unfold invoke at 1. simpl.
  destruct (browser w unit (log w) (selectOption u value)) as [d [e|[]]|];
    try reflexivity.
  destruct e as [m|m|n]; simpl; try reflexivity.
  destruct (Js.includes m "Could not find option"); reflexivity.
Qed.

Example fill_select_with_matching_option :
  log (final_world (fillFormElement "1_3" "Red" (form_world (responsive 10))))
  = [Invoked (selectOption "1_3" "Red")]
  /\ returned (fillFormElement "1_3" "Red" (form_world (responsive 10))) = Some tt.
Proof. vm_compute. split; reflexivity. Qed.

Example fill_select_without_matching_option :
  log (final_world (fillFormElement "1_3" "Blue" (form_world without_option)))
  = [Invoked (selectOption "1_3" "Blue"); Invoked (fillElement "1_3" "Blue")]
  /\ returned (fillFormElement "1_3" "Blue" (form_world without_option)) = Some tt.
Proof. vm_compute. split; reflexivity. Qed.

Example fill_select_on_detached_target :
  log (final_world (fillFormElement "1_3" "Red" (form_world detached)))
  = [Invoked (selectOption "1_3" "Red")]
  /\ raised (fillFormElement "1_3" "Red" (form_world detached))
     = Some (ErrorObject "Protocol error (DOM.resolveNode): Target closed").
Proof. vm_compute. split; reflexivity. Qed.

Example fill_combobox_without_options :
  log (final_world (fillFormElement "1_6" "rocq" (form_world (responsive 10))))
  = [Invoked (fillElement "1_6" "rocq")].
Proof. vm_compute. reflexivity. Qed.

Example fill_textbox :
  log (final_world (fillFormElement "1_7" "Ada" (form_world (responsive 10))))
  = [Invoked (fillElement "1_7" "Ada")].
Proof. vm_compute. reflexivity. Qed.

(** C10: when the uid resolves to no element, [fillFormElement] raises
    nothing of its own: it is the direct [fillElement] call, and it fails
    only with the failure of that call. *)
Theorem fillFormElement_unresolved_uid (u value : string) (w : World) :
  getElementByUid w u = None ->
  fillFormElement u value w = invoke (fillElement u value) w /\
  (forall e w',
      fillFormElement u value w = Raises e w' ->
      exists d, browser w unit (log w) (fillElement u value) = Settles d (inl e)).
Proof.
  intros Hnone.
  assert (Heq : fillFormElement u value w = invoke (fillElement u value) w).
  { unfold fillFormElement. run. rewrite Hnone. reflexivity. }
  split; [exact Heq|].
  intros e w'. rewrite Heq. unfold invoke. simpl.
  destruct (browser w unit (log w) (fillElement u value)) as [d [e1|v]|];
    intros H; inversion H; subst. eauto.
Qed.

Lemma fillFormElement_unresolved_uid_witness :
  getElementByUid (form_world (responsive 10)) "9_9" = None /\
  fillFormElement "9_9" "Ada" (form_world (responsive 10))
  = invoke (fillElement "9_9" "Ada") (form_world (responsive 10)).
Proof.
  split; [reflexivity|].
  exact (proj1 (fillFormElement_unresolved_uid "9_9" "Ada" (form_world (responsive 10))
                  eq_refl)).
Defined.

(** ** Timeouts *)

Lemma withTimeout_pending {A} (m : Async A) (ms : Z) (label : string) (w w' : World) :
  m w = Hangs w' ->
  withTimeout m ms label w
  = Raises (timeout_error label ms) (set_clock (clock w + ms) w').
Proof. intros H. unfold withTimeout. rewrite H. reflexivity. Qed.

Lemma withTimeout_never_hangs {A} (m : Async A) (ms : Z) (label : string) (w w' : World) :
  withTimeout m ms label w <> Hangs w'.
Proof.
  unfold withTimeout.
  destruct (m w) as [a w1|e w1|w1]; try discriminate;
    destruct (clock w1 <? clock w + ms); discriminate.
Qed.

(** A click whose operation never completes: an error result after 60 s. *)
Lemma browser_click_times_out (args : ClickArgs) (w : World) :
  hasActiveView w = true ->
  browser w unit (log w) (clickElement (click_uid args) (or_false (dblClick args)))
  = NeverSettles ->
  browser_click args w
  = Returns (textResult
               ("Failed to click element " +:+ click_uid args
                +:+ ": browser_click timed out after 60000ms") true)
      (set_clock (clock w + 60000)
         (record_call (clickElement (click_uid args) (or_false (dblClick args))) w)).
Proof.
  intros Hact Hnever. unfold browser_click. run. rewrite Hact. simpl.
  erewrite withTimeout_pending; [reflexivity|].
  unfold invoke. simpl. rewrite Hnever. reflexivity.
Qed.

Lemma browser_hover_times_out (args : HoverArgs) (w : World) :
  hasActiveView w = true ->
  browser w unit (log w) (hoverElement (hover_uid args)) = NeverSettles ->
  browser_hover args w
  = Returns (textResult
               ("Failed to hover element " +:+ hover_uid args
                +:+ ": browser_hover timed out after 60000ms") true)
      (set_clock (clock w + 60000) (record_call (hoverElement (hover_uid args)) w)).
Proof.
  intros Hact Hnever. unfold browser_hover. run. rewrite Hact. simpl.
  erewrite withTimeout_pending; [reflexivity|].
  unfold invoke. simpl. rewrite Hnever. reflexivity.
Qed.

Lemma browser_fill_times_out (args : FillArgs) (w w' : World) :
  hasActiveView w = true ->
  fillFormElement (fill_uid args) (fill_value args) w = Hangs w' ->
  browser_fill args w
  = Returns (textResult
               ("Failed to fill element " +:+ fill_uid args
                +:+ ": browser_fill timed out after 60000ms") true)
      (set_clock (clock w + 60000) w').
Proof.
  intros Hact Hnever. unfold browser_fill. run. rewrite Hact. simpl.
  erewrite withTimeout_pending; [reflexivity|exact Hnever].
Qed.

(** Without the race a pending operation leaves the handler pending. *)
Lemma browser_resize_pending (args : ResizeArgs) (w : World) :
  hasActiveView w = true ->
  browser w unit (log w) (setViewportSize (width args) (height args)) = NeverSettles ->
  browser_resize args w
  = Hangs (record_call (setViewportSize (width args) (height args)) w).
Proof.
  intros Hact Hnever. unfold browser_resize. run. rewrite Hact. simpl.
  unfold invoke. simpl. rewrite Hnever. reflexivity.
Qed.

(** C4: [browser_resize] is not raced against a timer.  With a page
    selected and a browser that never answers [setViewportSize], the
    handler's promise never settles: no Timeout result is produced. *)
Theorem browser_resize_hangs :
  browser_resize {| width := 800; height := 600 |} frozen_page
  = Hangs (record_call (setViewportSize 800 600) frozen_page).
Proof. vm_compute. reflexivity. Qed.

(** The same for [browser_emulate] and [browser_handle_dialog]. *)
Lemma browser_emulate_hangs :
  browser_emulate {| networkConditions := Some "Slow 3G"; cpuThrottlingRate := None;
                     geolocation := None |} frozen_page
  = Hangs (record_call (emulateNetworkConditions false 400 (500 * 1024 / 8) (500 * 1024 / 8))
             frozen_page).
Proof. vm_compute. reflexivity. Qed.

Lemma browser_handle_dialog_hangs :
  browser_handle_dialog {| action := "accept"; promptText := None |} frozen_dialog
  = Hangs (record_call (handleDialog true None) frozen_dialog).
Proof. vm_compute. reflexivity. Qed.

(** On the same frozen page a click does end, after 60 s, with an error
    result. *)
Example browser_click_on_frozen_page :
  returned (browser_click {| click_uid := "1_5"; dblClick := None |} frozen_page)
  = Some (textResult
            "Failed to click element 1_5: browser_click timed out after 60000ms" true)
  /\ clock (final_world (browser_click {| click_uid := "1_5"; dblClick := None |} frozen_page))
     = 60000.
Proof. vm_compute. split; reflexivity. Qed.

(** ** Screenshots *)

(** The handler's test [args.uid && args.fullPage] in terms of the
    arguments: a uid that is present and not empty, and [fullPage] true. *)
Lemma both_given (args : ScreenshotArgs) :
  given (ss_uid args) && or_false (ss_fullPage args) = true
  <-> exists u, ss_uid args = Some u /\ u <> "" /\ ss_fullPage args = Some true.
Proof.
  unfold given, or_false, Js.truthy.
  destruct (ss_uid args) as [u|]; destruct (ss_fullPage args) as [[|]|]; simpl;
    rewrite ?andb_true_r, ?andb_false_r; split;
    try (intros H; discriminate H);
    try (intros (u' & H & _); discriminate H);
    try (intros (u' & _ & _ & H); discriminate H).
  - intros H. exists u. apply negb_true_iff, String.eqb_neq in H. auto.
  - intros (u' & Hu & Hne & _). inversion Hu; subst.
    apply negb_true_iff, String.eqb_neq. exact Hne.
Qed.

Lemma screenshot_first_call (args : ScreenshotArgs) (w : World) :
  hasActiveView w = true ->
  given (ss_uid args) && or_false (ss_fullPage args) = false ->
  exists rest,
    log (final_world (browser_screenshot args w))
    = log w ++ Invoked (captureScreenshot (screenshot_options args)) :: rest.
Proof.
  intros Hact Hone. unfold browser_screenshot. run. rewrite Hact, Hone. simpl.
  unfold withTimeout, invoke. simpl.
  destruct (browser w Screenshot (log w) (captureScreenshot (screenshot_options args)))
    as [d [e|shot]|]; simpl.
  - destruct (_ <? _); simpl; [destruct e|]; simpl; exists []; reflexivity.
  - destruct (_ <? _); simpl.
    + destruct (given (ss_filePath args)); simpl.
      * destruct (browser w unit _ (writeFileSync _ _)) as [d' [e'|[]]|]; simpl;
          [destruct e'| |]; simpl; eexists; rewrite <- app_assoc; reflexivity.
      * exists []. reflexivity.
    + exists []. reflexivity.
  - exists []. reflexivity.
Qed.

(** C5, as amended: a screenshot call with a [uid] that is not empty and
    [fullPage] true is answered with an error result and leaves the world
    as it was: nothing is invoked, neither [captureScreenshot] nor any
    other operation; with a page selected the error is the one about the
    two arguments.  In every other call with a page selected, also one
    with an empty [uid] and [fullPage] true, [captureScreenshot] is the
    first operation invoked, with the [uid] as given and [fullPage] false
    when it is not given. *)
Theorem browser_screenshot_uid_fullPage (args : ScreenshotArgs) (w : World) :
  (forall u,
      ss_uid args = Some u -> u <> "" -> ss_fullPage args = Some true ->
      exists r, browser_screenshot args w = Returns r w /\ isError r = true /\
                (hasActiveView w = true -> r = textResult both_text true)) /\
  (hasActiveView w = true ->
   ss_uid args = None \/ ss_uid args = Some "" \/
   ss_fullPage args = None \/ ss_fullPage args = Some false ->
   exists fmt quality rest,
     log (final_world (browser_screenshot args w))
     = log w ++ Invoked (captureScreenshot
                           {| so_format := fmt; so_quality := quality;
                              so_uid := ss_uid args;
                              so_fullPage := default false (ss_fullPage args) |}) :: rest).
Proof.
  split.
  - intros u Hu Hne Hfull.
    assert (Hboth : given (ss_uid args) && or_false (ss_fullPage args) = true).
    { apply both_given. exists u. auto. }
    unfold browser_screenshot. run.
    destruct (hasActiveView w); simpl.
    + rewrite Hboth. eexists. split; [reflexivity|]. split; [reflexivity|]. reflexivity.
    + eexists. split; [reflexivity|]. split; [reflexivity|]. discriminate.
  - intros Hact Hone.
    assert (Hnot : given (ss_uid args) && or_false (ss_fullPage args) = false).
    { destruct (given (ss_uid args) && or_false (ss_fullPage args)) eqn:E; [|reflexivity].
      apply both_given in E. destruct E as (u & Hu & Hne & Hfull).
      destruct Hone as [H|[H|[H|H]]]; congruence. }
    destruct (screenshot_first_call args w Hact Hnot) as [rest Hlog].
    exists (so_format (screenshot_options args)), (so_quality (screenshot_options args)), rest.
    exact Hlog.
Qed.

Lemma browser_screenshot_uid_fullPage_witness :
  exists r,
    browser_screenshot {| ss_format := None; ss_quality := None; ss_uid := Some "1_2";
                          ss_fullPage := Some true; ss_filePath := None |} one_page
    = Returns r one_page /\ isError r = true.
Proof.
  destruct (proj1 (browser_screenshot_uid_fullPage
                     {| ss_format := None; ss_quality := None; ss_uid := Some "1_2";
                        ss_fullPage := Some true; ss_filePath := None |} one_page)
              "1_2" eq_refl ltac:(discriminate) eq_refl) as (r & Hr & He & _).
  exists r. split; assumption.
Defined.

(** C5 as stated fails for an empty [uid]: with [uid] set to the empty
    string and [fullPage] true the call is not rejected; the capture is
    asked for with both, and the image is returned. *)
Lemma empty_uid_with_fullPage_is_captured :
  browser_screenshot {| ss_format := None; ss_quality := None; ss_uid := Some "";
                        ss_fullPage := Some true; ss_filePath := None |} one_page
  = Returns (imageResult "Took a screenshot of the full current page."
               "iVBORw0KGgo=" "image/png")
      (tick 10 (record_call
                  (captureScreenshot {| so_format := "png"; so_quality := None;
                                        so_uid := Some ""; so_fullPage := true |})
                  one_page)).
Proof. vm_compute. reflexivity. Qed.

Example screenshot_of_element :
  log (final_world
         (browser_screenshot {| ss_format := Some "jpeg"; ss_quality := Some 80%Q;
                                ss_uid := Some "1_2"; ss_fullPage := None;
                                ss_filePath := None |} one_page))
  = [Invoked (captureScreenshot {| so_format := "jpeg"; so_quality := Some 80%Q;
                                   so_uid := Some "1_2"; so_fullPage := false |})].
Proof. vm_compute. reflexivity. Qed.

(** ** Closing pages *)

Lemma Qred_inject_Z (z : Z) : Qred (inject_Z z) = inject_Z z.
Proof.
  unfold Qred, inject_Z.
  pose proof (Z.ggcd_gcd z 1) as Hg.
  pose proof (Z.ggcd_correct_divisors z 1) as Hd.
  destruct (Z.ggcd z 1) as [g [a b]]. simpl in *.
  rewrite Z.gcd_1_r in Hg. subst g. destruct Hd as [Ha Hb].
  replace a with z by lia. replace b with 1 by lia. reflexivity.
Qed.

Lemma is_integer_inject_Z (z : Z) : Js.is_integer (inject_Z z) = true.
Proof. unfold Js.is_integer. rewrite Qred_inject_Z. reflexivity. Qed.

(** A safe integer is printed with all its digits. *)
Lemma showNumber_inject_Z (h : Host) (z : Z) :
  Z.abs z <= Js.MAX_SAFE_INTEGER -> showNumber h (inject_Z z) = Js.showZ z.
Proof.
  intros Hz. unfold showNumber, Js.is_safe_integer.
  rewrite is_integer_inject_Z, Qred_inject_Z. cbn [Qnum inject_Z andb].
  replace (Z.abs z <=? Js.MAX_SAFE_INTEGER) with true
    by (symmetry; apply Z.leb_le; exact Hz).
  reflexivity.
Qed.

Lemma showIndex_inject_Z (z : Z) : Js.showIndex (inject_Z z) = Js.showZ z.
Proof. unfold Js.showIndex. rewrite Qred_inject_Z. reflexivity. Qed.

Lemma index_inject_Z {A} (arr : list A) (i : nat) :
  Js.index arr (inject_Z (Z.of_nat i)) = arr !! i.
Proof.
  unfold Js.index. rewrite is_integer_inject_Z, Qred_inject_Z. simpl.
  replace (0 <=? Z.of_nat i) with true by (symmetry; apply Z.leb_le; lia).
  rewrite Nat2Z.id. reflexivity.
Qed.

Lemma index_in_range (states : list ViewState) (i : nat) :
  (i < length states)%nat ->
  index_out_of_range (inject_Z (Z.of_nat i)) states = false.
Proof.
  intros Hi. unfold index_out_of_range, Js.Qltb.
  apply orb_false_iff. split.
  - apply negb_false_iff. apply Qle_bool_iff. unfold Qle. simpl. lia.
  - destruct (Qle_bool _ _) eqn:E; [|reflexivity].
    apply Qle_bool_iff in E. unfold Qle in E. simpl in E. lia.
Qed.

Lemma not_elem_of_filter_id (state : ViewState) (vs : list ViewState) :
  state ∉ List.filter (fun v => negb (String.eqb (view_id v) (view_id state))) vs.
Proof.
  intros Hin. apply list_elem_of_In, filter_In in Hin. destruct Hin as [_ H].
  rewrite String.eqb_refl in H. discriminate.
Qed.

(** C6: with exactly one view open [browser_close_page] answers with an
    error result and changes nothing (the error about the last page for
    an index that passes the range check), so that [browser_list_pages]
    run after it still lists that one view; with more than one view and a
    valid index the handler calls [destroy] on the indexed view, after
    which the views are the others, and reports the page closed. *)
Theorem browser_close_page_keeps_last_page (w : World) :
  (forall v args,
      views w = [v] ->
      (exists r, browser_close_page args w = Returns r w /\ isError r = true /\
                 (index_out_of_range (cp_pageIdx args) [v] = false ->
                  r = textResult "The last open page cannot be closed." true)) /\
      (browser_close_page args ;; browser_list_pages) w
      = Returns (textResult (Js.join_lines ["Open browser pages:"; page_line 0 v]) false) w) /\
  (forall (i : nat) state,
      (1 < length (views w))%nat -> views w !! i = Some state ->
      exists w',
        browser_close_page {| cp_pageIdx := inject_Z (Z.of_nat i) |} w
        = Returns (textResult
                     ("Closed page [" +:+ Js.showZ (Z.of_nat i) +:+ "]: "
                      +:+ Js.or_else (view_title state) "Untitled") false) w' /\
        log w' = log w ++ [Invoked (destroy (view_id state))] /\
        views w'
        = List.filter (fun v => negb (String.eqb (view_id v) (view_id state))) (views w) /\
        state ∉ views w').
Proof.
  split.
  - intros v args Hv.
    assert (Hclose : exists r, browser_close_page args w = Returns r w /\ isError r = true /\
                 (index_out_of_range (cp_pageIdx args) [v] = false ->
                  r = textResult "The last open page cannot be closed." true)).
    { unfold browser_close_page, getAllStates. run. rewrite Hv.
      destruct (index_out_of_range (cp_pageIdx args) [v]); simpl.
      - eexists. split; [reflexivity|]. split; [reflexivity|]. discriminate.
      - eexists. split; [reflexivity|]. split; reflexivity. }
    split; [exact Hclose|].
    destruct Hclose as (r & Hr & _).
    cbv [mbind async_bind]. rewrite Hr.
    unfold browser_list_pages, getAllStates. run. rewrite Hv. reflexivity.
  - intros i state Hmany Hi.
    pose proof (lookup_lt_Some _ _ _ Hi) as Hlt.
    unfold browser_close_page, getAllStates. run. cbn [cp_pageIdx].
    rewrite (index_in_range _ _ Hlt).
    replace (length (views w) =? 1)%nat with false by (symmetry; apply Nat.eqb_neq; lia).
    rewrite index_inject_Z, Hi, showIndex_inject_Z.
    unfold invoke. simpl.
    assert (Hs : sole_view (view_id state) w = false).
    { unfold sole_view. destruct (views w) as [|v [|v' vs]]; try reflexivity.
      simpl in Hmany. lia. }
    rewrite Hs. eexists. split; [reflexivity|]. simpl.
    split; [reflexivity|]. split; [reflexivity|].
    apply not_elem_of_filter_id.
Qed.

Lemma browser_close_page_keeps_last_page_witness :
  (browser_close_page {| cp_pageIdx := 0 |} ;; browser_list_pages) one_page
  = Returns (textResult (Js.join_lines ["Open browser pages:"; page_line 0 home]) false)
      one_page.
Proof.
  exact (proj2 (proj1 (browser_close_page_keeps_last_page one_page)
                  home {| cp_pageIdx := 0 |} eq_refl)).
Defined.

Example close_second_of_two_pages :
  returned (browser_close_page {| cp_pageIdx := 1 |} two_pages)
  = Some (textResult "Closed page [1]: Untitled" false)
  /\ views (final_world (browser_close_page {| cp_pageIdx := 1 |} two_pages)) = [home].
Proof. vm_compute. split; reflexivity. Qed.

(** ** The performance trace *)

(** C7: with a page selected, [browser_perf_start] while a trace is being
    recorded answers with the error that a trace is already running and
    starts nothing; [browser_perf_stop] while none is recorded answers with
    a result that is not an error and stops nothing; and after a start
    that succeeded and did not stop the trace itself, a second start is
    answered with that error. *)
Theorem performance_trace_single_flight (w : World) :
  hasActiveView w = true ->
  (tracing w = true ->
   forall args, browser_perf_start args w = Returns (textResult already_tracing_text true) w) /\
  (tracing w = false ->
   browser_perf_stop w = Returns (textResult "No performance trace is running." false) w) /\
  (forall first second r w',
      autoStop first = false ->
      browser_perf_start first w = Returns r w' -> isError r = false ->
      browser_perf_start second w' = Returns (textResult already_tracing_text true) w').
Proof.
  intros Hact. split; [|split].
  - intros Htr args. unfold browser_perf_start, isPerformanceTracing. run.
    rewrite Hact, Htr. reflexivity.
  - intros Htr. unfold browser_perf_stop, isPerformanceTracing. run.
    rewrite Hact, Htr. reflexivity.
  - intros first second r w' Hauto Hfirst Hok.
    assert (Hw' : hasActiveView w' = true /\ tracing w' = true).
    { revert Hfirst. unfold browser_perf_start, isPerformanceTracing. run.
      rewrite Hact, Hauto. simpl.
      destruct (tracing w) eqn:Htr.
      { intros H. inversion H; subst. discriminate. }
      destruct (reload first); unfold invoke, sleep; simpl; rewrite ?Htr; simpl.
      - destruct (browser w unit (log w) (navigate _ _)) as [d1 [[m|m|n]|[]]|]; simpl;
          try (intros H; inversion H; subst; discriminate).
        rewrite Htr.
        destruct (browser w unit _ startPerformanceTrace) as [d2 [[m|m|n]|[]]|]; simpl;
          try (intros H; inversion H; subst; discriminate).
        destruct (browser w unit _ (navigate _ _)) as [d3 [[m|m|n]|[]]|]; simpl;
          try (intros H; inversion H; subst; discriminate).
        destruct (browser w unit _ (waitForNavigation _)) as [d4 [[m|m|n]|[]]|]; simpl;
          try (intros H; inversion H; subst; discriminate).
        intros H. inversion H; subst. split; [exact Hact|reflexivity].
      - destruct (browser w unit (log w) startPerformanceTrace) as [d2 [[m|m|n]|[]]|]; simpl;
          try (intros H; inversion H; subst; discriminate).
        intros H. inversion H; subst. split; [exact Hact|reflexivity]. }
    destruct Hw' as [Hact' Htr'].
    unfold browser_perf_start, isPerformanceTracing. run.
    rewrite Hact', Htr'. reflexivity.
Qed.

Lemma performance_trace_single_flight_witness :
  hasActiveView recording_page = true /\ tracing recording_page = true /\
  browser_perf_start (perf false false) recording_page
  = Returns (textResult already_tracing_text true) recording_page.
Proof.
  split; [reflexivity|]. split; [reflexivity|].
  exact (proj1 (performance_trace_single_flight recording_page eq_refl) eq_refl
           (perf false false)).
Defined.

Example second_start_fails :
  returned ((browser_perf_start (perf false false) ;; browser_perf_start (perf false false))
              one_page)
  = Some (textResult already_tracing_text true).
Proof. vm_compute. reflexivity. Qed.

Example stop_between_two_starts :
  returned ((browser_perf_start (perf false false) ;; browser_perf_stop ;;
             browser_perf_start (perf false false)) one_page)
  = Some (textResult
            "The performance trace is being recorded. Use browser_perf_stop to stop it."
            false).
Proof. vm_compute. reflexivity. Qed.

Example stop_while_idle :
  browser_perf_stop one_page
  = Returns (textResult "No performance trace is running." false) one_page.
Proof. vm_compute. reflexivity. Qed.

(** ** What a computation adds to the log *)

Lemma log_effect {T} (c : Call T) (w : World) : log (effect c w) = log w.
Proof. destruct c; reflexivity. Qed.

Lemma invoke_log {T} (c : Call T) (w : World) :
  log (final_world (invoke c w)) = log w ++ [Invoked c].
Proof.
  unfold invoke.
  destruct (settled_by_rule c w) as [[e|v]|]; simpl; rewrite ?log_effect; try reflexivity.
  destruct (browser w T (log w) c) as [d [e|v]|]; simpl; rewrite ?log_effect; reflexivity.
Qed.

Lemma invoke_extends {T} (c : Call T) : extends_log (invoke c).
Proof. intros w. exists [Invoked c]. apply invoke_log. Qed.

Lemma mret_extends {A} (a : A) : extends_log (mret a : Async A).
Proof. intros w. exists []. run. simpl. rewrite app_nil_r. reflexivity. Qed.

Lemma bind_extends {A B} (m : Async A) (k : A -> Async B) :
  extends_log m -> (forall a, extends_log (k a)) -> extends_log (m ≫= k).
Proof.
  intros Hm Hk w. run. destruct (Hm w) as [evs Hevs].
  destruct (m w) as [a w1|e w1|w1]; simpl in *; eauto.
  destruct (Hk a w1) as [evs' Hevs']. exists (evs ++ evs').
  rewrite Hevs', Hevs, app_assoc. reflexivity.
Qed.

Lemma emulate_cpu_extends h rate results : extends_log (emulate_cpu h rate results).
Proof.
  unfold emulate_cpu. destruct rate; [|apply mret_extends].
  apply bind_extends; [apply invoke_extends|intros; apply mret_extends].
Qed.

Lemma emulate_geolocation_extends h geo results :
  extends_log (emulate_geolocation h geo results).
Proof.
  unfold emulate_geolocation. destruct geo as [[g|]|]; [| |apply mret_extends];
    (apply bind_extends; [apply invoke_extends|intros; apply mret_extends]).
Qed.

(** ** Emulation presets *)

Lemma emulate_network_first_call (nc : string) (offline : bool) (lat down up : Q) :
  (nc, (offline, lat, down, up)) ∈ specified_presets ->
  forall results,
    emulate_network (Some nc) results
    = (invoke (emulateNetworkConditions offline lat down up);;
       mret (results ++ ["Network: " +:+ nc])).
Proof.
  intros Hin results. unfold specified_presets in Hin.
  repeat (apply elem_of_cons in Hin as [Hin|Hin]; [inversion Hin; subst; reflexivity|]).
  apply elem_of_nil in Hin. contradiction.
Qed.

Lemma bind_assoc {A B C} (m : Async A) (f : A -> Async B) (g : B -> Async C) (w : World) :
  ((m ≫= f) ≫= g) w = (m ≫= (fun a => f a ≫= g)) w.
Proof. cbv [mbind async_bind]. destruct (m w); reflexivity. Qed.

(** The [catch] block of the handlers changes nothing in the world. *)
Lemma final_world_guarded {A} (body : Async A) (k : string -> A) (w : World) :
  final_world
    (try_catch body (fun error => message ← message_of error; mret (k message)) w)
  = final_world (body w).
Proof.
  unfold try_catch. destruct (body w) as [a w1|e w1|w1]; try reflexivity.
  destruct e; reflexivity.
Qed.

(** A computation that starts with an operation has it first in what it
    adds to the log. *)
Lemma invoked_first {T B} (c : Call T) (k : T -> Async B) (w : World) :
  (forall a, extends_log (k a)) ->
  exists rest, log (final_world ((invoke c ≫= k) w)) = log w ++ Invoked c :: rest.
Proof.
  intros Hk. cbv [mbind async_bind].
  pose proof (invoke_log c w) as Hlog.
  destruct (invoke c w) as [a w1|e w1|w1]; simpl in Hlog.
  - destruct (Hk a w1) as [evs Hevs]. exists evs.
    rewrite Hevs, Hlog, <- app_assoc. reflexivity.
  - exists []. exact Hlog.
  - exists []. exact Hlog.
Qed.

(** C8: the first operation [browser_emulate] invokes for a named
    network condition is the command Network.emulateNetworkConditions
    with the four parameters offline, latency, downloadThroughput and
    uploadThroughput carrying that preset's fixed values: for 'Slow 3G'
    500*1024/8 down and up with 400 ms latency, for 'WiFi' 30*1024*1024/8
    down, 15*1024*1024/8 up and 2 ms; 'No emulation' sends offline false,
    throughput -1 and latency 0; 'Offline' sends offline true, throughput
    0 and latency 0.  (Without a selected page the handler invokes
    nothing at all.) *)
Theorem browser_emulate_sends_preset (w : World) (nc : string) (offline : bool)
    (lat down up : Q) (cpu : option Q) (geo : option (option Geolocation)) :
  (nc, (offline, lat, down, up)) ∈ specified_presets ->
  exists evs,
    log (final_world
           (browser_emulate {| networkConditions := Some nc; cpuThrottlingRate := cpu;
                               geolocation := geo |} w))
    = log w ++ evs /\
    if hasActiveView w
    then exists rest,
        evs = Invoked (sendCDPCommand "Network.emulateNetworkConditions"
                         (Some [("offline", JBool offline); ("latency", JNum lat);
                                ("downloadThroughput", JNum down);
                                ("uploadThroughput", JNum up)])) :: rest
    else evs = [].
Proof.
  intros Hin. unfold browser_emulate. rewrite ask_bind.
  destruct (hasActiveView w); cbn [negb networkConditions cpuThrottlingRate geolocation].
  2: { exists []. simpl. rewrite app_nil_r. split; reflexivity. }
  rewrite final_world_guarded.
  rewrite (emulate_network_first_call _ _ _ _ _ Hin), bind_assoc.
  destruct (invoked_first (emulateNetworkConditions offline lat down up)
              (fun _ =>
                 mret ([] ++ ["Network: " +:+ nc]) ≫= (fun results =>
                 emulate_cpu (host w) cpu results ≫= (fun results =>
                 emulate_geolocation (host w) geo results ≫= (fun results =>
                 if (length results =? 0)%nat
                 then mret (textResult "No emulation settings changed." false)
                 else mret (textResult (Js.join_lines results) false))))) w)
    as [rest Hrest].
  { intros _. apply bind_extends; [apply mret_extends|intros r1].
    apply bind_extends; [apply emulate_cpu_extends|intros r2].
    apply bind_extends; [apply emulate_geolocation_extends|intros r3].
    destruct (length r3 =? 0)%nat; apply mret_extends. }
  exists (Invoked (emulateNetworkConditions offline lat down up) :: rest).
  split; [exact Hrest|]. exists rest. reflexivity.
Qed.

Lemma browser_emulate_sends_preset_witness :
  exists evs,
    log (final_world (browser_emulate (throttle "Slow 3G") one_page))
    = log one_page ++ evs /\
    exists rest,
      evs = Invoked (sendCDPCommand "Network.emulateNetworkConditions"
                       (Some [("offline", JBool false); ("latency", JNum 400);
                              ("downloadThroughput", JNum (500 * 1024 / 8));
                              ("uploadThroughput", JNum (500 * 1024 / 8))])) :: rest.
Proof.
  refine (browser_emulate_sends_preset one_page "Slow 3G" false 400 (500 * 1024 / 8)
            (500 * 1024 / 8) None None _).
  unfold specified_presets. do 2 apply list_elem_of_further. apply list_elem_of_here.
Defined.

(** The same for the last preset of the list. *)
Example emulate_wifi :
  log (final_world (browser_emulate (throttle "WiFi") one_page))
  = [Invoked (sendCDPCommand "Network.emulateNetworkConditions"
                (Some [("offline", JBool false); ("latency", JNum 2);
                       ("downloadThroughput", JNum (30 * 1024 * 1024 / 8));
                       ("uploadThroughput", JNum (15 * 1024 * 1024 / 8))]))].
Proof. vm_compute. reflexivity. Qed.

(** The throughputs in bytes per second. *)
Example preset_throughputs :
  (500 * 1024 / 8 == 64000 /\ 30 * 1024 * 1024 / 8 == 3932160
   /\ 15 * 1024 * 1024 / 8 == 1966080)%Q
  /\ NETWORK_CONDITIONS !! "WiFi"
     = Some {| download := 30 * 1024 * 1024 / 8; upload := 15 * 1024 * 1024 / 8;
               latency := 2 |}.
Proof. repeat split. Qed.

Example emulate_offline :
  log (final_world (browser_emulate (throttle "Offline") one_page))
  = [Invoked (sendCDPCommand "Network.emulateNetworkConditions"
                (Some [("offline", JBool true); ("latency", JNum 0);
                       ("downloadThroughput", JNum 0); ("uploadThroughput", JNum 0)]))].
Proof. vm_compute. reflexivity. Qed.

(** ** Filling a form *)




Lemma polite_attempt (elem : FillArgs) : polite (attempt elem).
Proof. unfold attempt. apply polite_withTimeout, polite_fillFormElement. Qed.






Lemma responsive_rejects_nothing (d : Z) (T : Type) (evs : list Event) (c : Call T)
    (d' : Z) (e : Thrown) :
  responsive d T evs c <> Settles d' (inl e).
Proof. destruct c; discriminate. Qed.




Example one_field_of_three_fails :
  returned (browser_fill_form three_fields (form_world search_box_broken))
  = Some (textResult (partial_text ["1_6: Element is not focusable"]) false)
  /\ log (final_world (browser_fill_form three_fields (form_world search_box_broken)))
     = [Invoked (fillElement "1_6" "rocq"); Invoked (fillElement "1_7" "Ada");
        Invoked (selectOption "1_3" "Red")].
Proof. vm_compute. split; reflexivity. Qed.

Example every_field_fails :
  returned (browser_fill_form three_fields (form_world detached))
  = Some (textResult
            (partial_text
               ["1_6: Protocol error (DOM.resolveNode): Target closed";
                "1_7: Protocol error (DOM.resolveNode): Target closed";
                "1_3: Protocol error (DOM.resolveNode): Target closed"]) true).
Proof. vm_compute. split; reflexivity. Qed.

(** * Further properties *)

(** ** Sample browsers that reject only with values *)

Lemma one_page_with_values : rejects_with_values one_page.
Proof. intros T evs c d e H. exfalso. exact (responsive_rejects_nothing _ _ _ _ _ _ H). Qed.

Lemma frozen_page_with_values : rejects_with_values frozen_page.
Proof. intros T evs c d e H. discriminate H. Qed.

Lemma detached_with_values : rejects_with_values (form_world detached).
Proof. intros T evs c d e H. inversion H. reflexivity. Qed.

Lemma silent_with_values : answers_with_values silent.
Proof. intros T w op d e H. discriminate H. Qed.

Lemma failing_with_values (message : string) : answers_with_values (failing message).
Proof. intros T w op d e H. inversion H. reflexivity. Qed.

Lemma answering_with_values : answers_with_values answering.
Proof. intros T w op d e H. destruct op; discriminate H. Qed.

(** ** Time *)

Lemma withTimeout_deadline {A} (m : Async A) (ms : Z) (label : string) (w : World) :
  (exists a w', withTimeout m ms label w = Returns a w' /\ clock w' <= clock w + ms)
  \/ (exists e w', withTimeout m ms label w = Raises e w' /\ clock w' <= clock w + ms).
Proof.
  unfold withTimeout.
  destruct (m w) as [a w1|e w1|w1].
  - destruct (clock w1 <? clock w + ms) eqn:E.
    + left. apply Z.ltb_lt in E. exists a, w1. split; [reflexivity|lia].
    + right. eexists _, _. split; [reflexivity|]. simpl. lia.
  - right. destruct (clock w1 <? clock w + ms) eqn:E.
    + apply Z.ltb_lt in E. exists e, w1. split; [reflexivity|lia].
    + eexists _, _. split; [reflexivity|]. simpl. lia.
  - right. eexists _, _. split; [reflexivity|]. simpl. lia.
Qed.

(** Reading the message of a value that has one. *)
Lemma message_of_value (e : Thrown) (w : World) :
  has_message e = true -> exists message, message_of e w = Returns message w.
Proof. destruct e; [eauto|eauto|discriminate]. Qed.

(** A handler of the shape [try { r = await withTimeout(op); return ok(r) }
    catch (e) { return report(e.message) }] returns within the timeout. *)
Lemma raced_returns_within {A} (m : Async A) (label : string) (ok : A -> ToolResult)
    (report : string -> ToolResult) (w : World) :
  polite m -> rejects_with_values w ->
  returns_within TOOL_TIMEOUT
    (try_catch (withTimeout m TOOL_TIMEOUT label ≫= (fun a => mret (ok a)))
       (fun error => message ← message_of error; mret (report message))) w.
Proof.
  intros Hm Hw. unfold returns_within.
  destruct (polite_withTimeout m TOOL_TIMEOUT label Hm w) as [_ Hr].
  cbv [mbind async_bind try_catch].
  destruct (withTimeout_deadline m TOOL_TIMEOUT label w)
    as [(a & w' & Ha & Hc)|(e & w' & He & Hc)].
  - rewrite Ha. eauto.
  - rewrite He. destruct (message_of_value e w' (Hr Hw _ _ He)) as [message ->].
    eauto.
Qed.

Ltac without_page w :=
  unfold returns_within; rewrite ask_bind;
  destruct (hasActiveView w); cbn [negb];
  [|eexists _, w; split; [reflexivity|unfold TOOL_TIMEOUT; lia]].

(** X1: when the browser rejects only with values (never with [undefined]
    or [null]), [browser_click], [browser_hover], [browser_fill],
    [browser_drag] and [browser_press_key] return a result at most 60 s
    after the call, whatever else the browser does: fulfil, reject, answer
    late or never. *)
Theorem input_tools_return_in_time (B : Backend) (w : World) :
  rejects_with_values w -> answers_with_values B ->
  (forall args, returns_within TOOL_TIMEOUT (browser_click args) w) /\
  (forall args, returns_within TOOL_TIMEOUT (browser_hover args) w) /\
  (forall args, returns_within TOOL_TIMEOUT (browser_fill args) w) /\
  (forall args, returns_within TOOL_TIMEOUT (browser_drag B args) w) /\
  (forall args, returns_within TOOL_TIMEOUT (browser_press_key B args) w).
Proof.
  intros Hw HB. repeat split; intros args.
  - unfold browser_click. without_page w.
    apply raced_returns_within; [polite|exact Hw].
  - unfold browser_hover. without_page w.
    apply raced_returns_within; [polite|exact Hw].
  - unfold browser_fill. without_page w.
    apply raced_returns_within; [polite|exact Hw].
  - unfold browser_drag. without_page w.
    apply raced_returns_within; [polite|exact Hw].
  - unfold browser_press_key. without_page w.
    apply raced_returns_within; [polite|exact Hw].
Qed.

(** A click on a page that has stopped answering. *)
Lemma input_tools_return_in_time_witness :
  returns_within TOOL_TIMEOUT (browser_click {| click_uid := "1_5"; dblClick := None |})
    frozen_page.
Proof.
  exact (proj1 (input_tools_return_in_time silent frozen_page frozen_page_with_values
                  silent_with_values)
           {| click_uid := "1_5"; dblClick := None |}).
Defined.

Lemma fill_each_in_time (elems : list FillArgs) :
  forall errors w,
  rejects_with_values w ->
  exists errors' w',
    fill_each elems errors w = Returns errors' w' /\
    clock w' <= clock w + TOOL_TIMEOUT * Z.of_nat (length elems).
Proof.
  induction elems as [|elem rest IH]; intros errors w Hw.
  - exists errors, w. split; [reflexivity|]. simpl. lia.
  - cbn [fill_each]. fold (attempt elem).
    destruct (polite_attempt elem w) as [Hb Hr].
    cbv [mbind async_bind try_catch mret async_ret].
    destruct (withTimeout_deadline
                (fillFormElement (fill_uid elem) (fill_value elem))
                TOOL_TIMEOUT "browser_fill_form" w)
      as [(a & w1 & Ha & Hc)|(e & w1 & He & Hc)]; fold (attempt elem) in *.
    + rewrite Ha in *. simpl in Hb.
      destruct (IH errors w1 (rejects_with_values_same _ _ Hb Hw))
        as (errs & w' & -> & Hc'). exists errs, w'.
      split; [reflexivity|]. rewrite length_cons. unfold TOOL_TIMEOUT in *. lia.
    + rewrite He in *. simpl in Hb.
      destruct (message_of_value e w1 (Hr Hw _ _ eq_refl)) as [message ->].
      destruct (IH (errors ++ [fill_uid elem +:+ ": " +:+ message]) w1
                  (rejects_with_values_same _ _ Hb Hw))
        as (errs & w' & -> & Hc'). exists errs, w'.
      split; [reflexivity|]. rewrite length_cons. unfold TOOL_TIMEOUT in *. lia.
Qed.

(** X2: when the browser rejects only with values, [browser_fill_form]
    returns a result at most 60 s per element after the call: no
    element's fill can keep the form pending. *)
Theorem browser_fill_form_in_time (args : FillFormArgs) (w : World) :
  rejects_with_values w ->
  returns_within (TOOL_TIMEOUT * Z.of_nat (length (elements args)))
    (browser_fill_form args) w.
Proof.
  intros Hw. unfold returns_within, browser_fill_form. rewrite ask_bind.
  destruct (hasActiveView w); cbn [negb].
  - cbv [mbind async_bind].
    destruct (fill_each_in_time (elements args) [] w Hw) as (errs & w' & -> & Hc).
    destruct (0 <? length errs)%nat; eexists _, w'; split; try reflexivity; exact Hc.
  - eexists _, w. split; [reflexivity|]. unfold TOOL_TIMEOUT. lia.
Qed.

(** Three fields on a page that has stopped answering: three minutes. *)
Lemma browser_fill_form_in_time_witness :
  returns_within 180000 (browser_fill_form three_fields)
    (form_world unresponsive).
Proof.
  refine (browser_fill_form_in_time three_fields (form_world unresponsive) _).
  intros T evs c d e H. discriminate H.
Defined.

(** X3: with a page selected and no element to fill, [browser_fill_form]
    invokes nothing and reports the form filled; the result is not an
    error although the number of errors equals the number of elements. *)
Theorem browser_fill_form_nothing_to_fill (args : FillFormArgs) (w : World) :
  hasActiveView w = true -> elements args = [] ->
  browser_fill_form args w
  = Returns (textResult "Successfully filled out the form" false) w.
Proof.
  intros Hact Hnil. unfold browser_fill_form. cbv [mbind async_bind ask].
  rewrite Hact, Hnil. reflexivity.
Qed.

Lemma browser_fill_form_nothing_to_fill_witness :
  browser_fill_form {| elements := [] |} one_page
  = Returns (textResult "Successfully filled out the form" false) one_page.
Proof.
  exact (browser_fill_form_nothing_to_fill {| elements := [] |} one_page eq_refl eq_refl).
Defined.

(** ** What the handlers never do *)

Lemma browser_new_page_does_not_raise B args w :
  rejects_with_values w -> answers_with_values B ->
  does_not_raise (browser_new_page B args) w.
Proof. unfold browser_new_page. cbv zeta. framed. Qed.

Lemma browser_navigate_does_not_raise B args w :
  rejects_with_values w -> answers_with_values B ->
  does_not_raise (browser_navigate B args) w.
Proof. unfold browser_navigate. cbv zeta. framed. Qed.

Lemma browser_wait_for_never_raises B args : never_raises (browser_wait_for B args).
Proof. unfold browser_wait_for. guarded. Qed.

Lemma browser_drag_does_not_raise B args w :
  rejects_with_values w -> answers_with_values B ->
  does_not_raise (browser_drag B args) w.
Proof. unfold browser_drag. framed. Qed.

Lemma browser_press_key_does_not_raise B args w :
  rejects_with_values w -> answers_with_values B ->
  does_not_raise (browser_press_key B args) w.
Proof. unfold browser_press_key. framed. Qed.

Lemma browser_snapshot_does_not_raise B args w :
  rejects_with_values w -> answers_with_values B ->
  does_not_raise (browser_snapshot B args) w.
Proof. unfold browser_snapshot. framed. Qed.

Lemma resolve_elements_error (w : World) (uids : list string) :
  forall elementArgs e,
    resolve_elements w uids elementArgs = inl e -> has_message e = true.
Proof.
  induction uids as [|u rest IH]; intros acc e; simpl; [discriminate|].
  destruct (getElementByUid w u); [apply IH|].
  intros H. inversion H. reflexivity.
Qed.

Lemma browser_evaluate_does_not_raise B args w :
  rejects_with_values w -> answers_with_values B ->
  does_not_raise (browser_evaluate B args) w.
Proof.
  intros Hw HB e w'. unfold browser_evaluate. rewrite ask_bind.
  destruct (negb (hasActiveView w)); [apply mret_never_raises|].
  apply guarded_does_not_raise; [|exact Hw].
  apply polite_bind.
  - destruct (resolve_elements w (default [] (eval_args args)) []) as [e1|els] eqn:E.
    + apply polite_throw. exact (resolve_elements_error _ _ _ _ E).
    + apply polite_mret.
  - intros els. polite.
Qed.

Lemma browser_network_request_does_not_raise B args w :
  rejects_with_values w -> answers_with_values B ->
  does_not_raise (browser_network_request B args) w.
Proof. unfold browser_network_request. framed. Qed.

Lemma browser_console_message_does_not_raise B args w :
  rejects_with_values w -> answers_with_values B ->
  does_not_raise (browser_console_message B args) w.
Proof. unfold browser_console_message. framed. Qed.

(** X4: apart from [browser_select_page] and [browser_close_page], no
    handler lets an exception out as long as no operation it awaits is
    rejected with [undefined] or [null]: whatever else the operations do,
    the handler's promise is not rejected.  The synchronous getters of
    the collaborators ([getActiveViewId], [getAllStates],
    [getPendingDialog], [isPerformanceTracing] and the telemetry buffers)
    are reads of the state, as the specification describes them. *)
Theorem guarded_handlers_never_raise (B : Backend) (w : World) :
  rejects_with_values w -> answers_with_values B ->
  does_not_raise browser_list_pages w
  /\ (forall args, does_not_raise (browser_new_page B args) w)
  /\ (forall args, does_not_raise (browser_navigate B args) w)
  /\ (forall args, does_not_raise (browser_wait_for B args) w)
  /\ (forall args, does_not_raise (browser_resize args) w)
  /\ (forall args, does_not_raise (browser_handle_dialog args) w)
  /\ (forall args, does_not_raise (browser_click args) w)
  /\ (forall args, does_not_raise (browser_hover args) w)
  /\ (forall args, does_not_raise (browser_fill args) w)
  /\ (forall args, does_not_raise (browser_fill_form args) w)
  /\ (forall args, does_not_raise (browser_drag B args) w)
  /\ (forall args, does_not_raise (browser_press_key B args) w)
  /\ (forall args, does_not_raise (browser_snapshot B args) w)
  /\ (forall args, does_not_raise (browser_screenshot args) w)
  /\ (forall args, does_not_raise (browser_evaluate B args) w)
  /\ (forall args, does_not_raise (browser_network_requests args) w)
  /\ (forall args, does_not_raise (browser_network_request B args) w)
  /\ (forall args, does_not_raise (browser_console args) w)
  /\ (forall args, does_not_raise (browser_console_message B args) w)
  /\ (forall args, does_not_raise (browser_emulate args) w)
  /\ (forall args, does_not_raise (browser_perf_start args) w)
  /\ does_not_raise browser_perf_stop w.
Proof.
  intros Hw HB.
  repeat match goal with |- _ /\ _ => split end;
    try intros args; unfold does_not_raise;
    first [ apply browser_list_pages_never_raises
          | apply browser_wait_for_never_raises
          | apply browser_network_requests_never_raises
          | apply browser_console_never_raises
          | apply browser_new_page_does_not_raise; assumption
          | apply browser_navigate_does_not_raise; assumption
          | apply browser_resize_does_not_raise; assumption
          | apply browser_handle_dialog_does_not_raise; assumption
          | apply browser_click_does_not_raise; assumption
          | apply browser_hover_does_not_raise; assumption
          | apply browser_fill_does_not_raise; assumption
          | apply browser_fill_form_does_not_raise; assumption
          | apply browser_drag_does_not_raise; assumption
          | apply browser_press_key_does_not_raise; assumption
          | apply browser_snapshot_does_not_raise; assumption
          | apply browser_screenshot_does_not_raise; assumption
          | apply browser_evaluate_does_not_raise; assumption
          | apply browser_network_request_does_not_raise; assumption
          | apply browser_console_message_does_not_raise; assumption
          | apply browser_emulate_does_not_raise; assumption
          | apply browser_perf_start_does_not_raise; assumption
          | apply browser_perf_stop_does_not_raise; assumption ].
Qed.

(** A form filled on a page whose protocol session is gone. *)
Lemma guarded_handlers_never_raise_witness :
  does_not_raise (browser_fill_form three_fields) (form_world detached).
Proof.
  exact (proj1 (proj2 (proj2 (proj2 (proj2 (proj2 (proj2 (proj2 (proj2 (proj2
           (guarded_handlers_never_raise (failing "Target closed") (form_world detached)
              detached_with_values (failing_with_values "Target closed")))))))))))
           three_fields).
Defined.

(** Without the condition the claim fails: a rejection with [undefined]
    makes the [catch] block itself throw. *)
Example resize_rejected_with_undefined :
  raised (browser_resize {| width := 800; height := 600 |}
            (sample_world [home] (Some "ai-browser-1")
               (fun _ _ _ => Settles 1 (inl (Nullish false)))))
  = Some (ErrorObject "Cannot read properties of undefined (reading 'message')").
Proof. vm_compute. reflexivity. Qed.

(** X5: without a selected page every page-bound tool answers with an
    error result that begins 'No active browser page.' and leaves the
    world as it was: nothing is invoked and no time passes. *)
Theorem page_bound_tools_refuse_without_page (B : Backend) (w : World) :
  hasActiveView w = false ->
  (forall args, given (navType args) || given (nav_url args) = true ->
                refused (browser_navigate B args w) w)
  /\ (forall args, refused (browser_resize args w) w)
  /\ (forall args, refused (browser_click args w) w)
  /\ (forall args, refused (browser_hover args w) w)
  /\ (forall args, refused (browser_fill args w) w)
  /\ (forall args, refused (browser_fill_form args w) w)
  /\ (forall args, refused (browser_drag B args w) w)
  /\ (forall args, refused (browser_press_key B args w) w)
  /\ (forall args, refused (browser_snapshot B args w) w)
  /\ (forall args, refused (browser_screenshot args w) w)
  /\ (forall args, refused (browser_evaluate B args w) w)
  /\ (forall args, refused (browser_emulate args w) w)
  /\ (forall args, refused (browser_perf_start args w) w)
  /\ refused (browser_perf_stop w) w.
Proof.
  intros Hno. unfold refused.
  repeat split; intros;
    try (cbv [browser_resize browser_click browser_hover browser_fill browser_fill_form
              browser_drag browser_press_key browser_snapshot browser_screenshot
              browser_evaluate browser_emulate browser_perf_start browser_perf_stop
              mbind async_bind ask];
         rewrite Hno; eexists; split; reflexivity).
  unfold browser_navigate. cbv [mbind async_bind ask].
  destruct (given (navType args)); simpl in *.
  - rewrite Hno. eexists; split; reflexivity.
  - rewrite H, Hno. eexists; split; reflexivity.
Qed.

Lemma page_bound_tools_refuse_without_page_witness :
  hasActiveView no_page = false /\
  refused (browser_click {| click_uid := "1_5"; dblClick := None |} no_page) no_page.
Proof.
  split; [reflexivity|].
  exact (proj1 (proj2 (proj2 (page_bound_tools_refuse_without_page silent no_page
                                eq_refl)))
           {| click_uid := "1_5"; dblClick := None |}).
Defined.

(** ** Pages *)

(** X6: the index [browser_list_pages] prints in front of a page is the
    index that selects it: the listing has one line per page after its
    title line, and [browser_select_page] with the index of a line invokes
    [setActiveViewId] once, on the id of the page of that line, and
    reports that page. *)
Theorem listed_index_selects_page (w : World) (i : nat) (state : ViewState)
    (bringToFront : option bool) :
  views w !! i = Some state ->
  (exists lines,
      browser_list_pages w
      = Returns (textResult (Js.join_lines ("Open browser pages:" :: lines)) false) w /\
      length lines = length (views w) /\
      lines !! i = Some ("[" +:+ Js.showZ (Z.of_nat i) +:+ "] "
                         +:+ Js.or_else (view_title state) "Untitled" +:+ " - "
                         +:+ Js.or_else (view_url state) "about:blank")) /\
  (exists w',
      browser_select_page {| sp_pageIdx := inject_Z (Z.of_nat i);
                             sp_bringToFront := bringToFront |} w
      = Returns (textResult
                   ("Selected page [" +:+ Js.showZ (Z.of_nat i) +:+ "]: "
                    +:+ Js.or_else (view_title state) "Untitled" +:+ " - "
                    +:+ view_url state) false) w' /\
      log w' = log w ++ [Invoked (setActiveViewId (view_id state))] /\
      activeViewId w' = Some (view_id state) /\
      views w' = views w).
Proof.
  intros Hi. pose proof (lookup_lt_Some _ _ _ Hi) as Hlt. split.
  - exists (imap page_line (views w)).
    split; [|split].
    + unfold browser_list_pages, getAllStates. run.
      replace (length (views w) =? 0)%nat with false
        by (symmetry; apply Nat.eqb_neq; lia).
      reflexivity.
    + apply length_imap.
    + rewrite list_lookup_imap, Hi. reflexivity.
  - unfold browser_select_page, getAllStates. run. cbn [sp_pageIdx].
    rewrite (index_in_range _ _ Hlt), index_inject_Z, Hi, showIndex_inject_Z.
    unfold invoke. simpl.
    rewrite (is_live_elem state w) by (eapply list_elem_of_lookup_2; eauto).
    eexists. split; [reflexivity|]. simpl. repeat split; reflexivity.
Qed.

Lemma listed_index_selects_page_witness :
  exists w',
    browser_select_page {| sp_pageIdx := 1; sp_bringToFront := None |} two_pages
    = Returns (textResult "Selected page [1]: Untitled - https://example.com/docs" false) w'
    /\ activeViewId w' = Some "ai-browser-2".
Proof.
  destruct (proj2 (listed_index_selects_page two_pages 1 docs None eq_refl))
    as (w' & Hr & _ & Ha & _).
  exists w'. split; [exact Hr|exact Ha].
Defined.

Lemma out_of_range_iff (q : Q) (states : list ViewState) :
  index_out_of_range q states = true
  <-> (q < 0 \/ inject_Z (Z.of_nat (length states)) <= q)%Q.
Proof.
  unfold index_out_of_range, Js.Qltb. rewrite orb_true_iff, negb_true_iff.
  rewrite Qle_bool_iff. split; intros [H|H]; auto.
  - left. apply Qnot_le_lt. intros Hle. apply Qle_bool_iff in Hle. congruence.
  - left. destruct (Qle_bool 0 q) eqn:E; [|reflexivity].
    apply Qle_bool_iff in E. exfalso. exact (Qlt_not_le _ _ H E).
Qed.

Lemma Qred_integer (q : Q) (z : Z) : (q == inject_Z z)%Q -> Qred q = inject_Z z.
Proof. intros H. rewrite <- (Qred_inject_Z z). apply Qred_complete. exact H. Qed.

(** X7: a page index below zero, or not below the number of open pages,
    is refused by [browser_select_page] and by [browser_close_page] with
    an 'Invalid page index' error that shows the index; nothing is
    invoked and no page is selected or closed.  [browser_select_page]
    names the valid range.  The index is shown with all its digits when
    it is a safe integer, and as the engine prints the number otherwise. *)
Theorem page_index_out_of_range (w : World) (q : Q) :
  (q < 0 \/ inject_Z (Z.of_nat (length (views w))) <= q)%Q ->
  exists shown,
    (forall bringToFront,
        browser_select_page {| sp_pageIdx := q; sp_bringToFront := bringToFront |} w
        = Returns (textResult
                     ("Invalid page index: " +:+ shown
                      +:+ ". Valid range: 0-" +:+ Js.showZ (Z.of_nat (length (views w)) - 1))
                     true) w) /\
    browser_close_page {| cp_pageIdx := q |} w
    = Returns (textResult ("Invalid page index: " +:+ shown) true) w /\
    (forall z, (q == inject_Z z)%Q -> Z.abs z <= 9007199254740991 -> shown = Js.showZ z) /\
    (Js.is_safe_integer q = false -> shown = numberToString (host w) q).
Proof.
  intros Hout. apply out_of_range_iff in Hout.
  exists (showNumber (host w) q). split; [|split; [|split]].
  - intros b. unfold browser_select_page, getAllStates. run. cbn [sp_pageIdx].
    rewrite Hout. reflexivity.
  - unfold browser_close_page, getAllStates. run. cbn [cp_pageIdx].
    rewrite Hout. reflexivity.
  - intros z Hq Hz. unfold showNumber, Js.is_safe_integer, Js.is_integer.
    rewrite (Qred_integer q z Hq). cbn [Qnum Qden inject_Z]. cbn [Pos.eqb andb].
    replace (Z.abs z <=? Js.MAX_SAFE_INTEGER) with true
      by (symmetry; apply Z.leb_le; exact Hz).
    reflexivity.
  - intros Hnot. unfold showNumber. rewrite Hnot. reflexivity.
Qed.

Lemma page_index_out_of_range_witness :
  browser_close_page {| cp_pageIdx := 2 |} two_pages
  = Returns (textResult "Invalid page index: 2" true) two_pages.
Proof.
  destruct (page_index_out_of_range two_pages 2) as (shown & _ & Hclose & Hsafe & _).
  - right. unfold Qle. simpl. lia.
  - rewrite Hclose, (Hsafe 2); [reflexivity|reflexivity|lia].
Defined.

(** An index too large to be printed with its digits: the engine decides
    (JavaScript prints 1e+21). *)
Example page_index_beyond_the_digits :
  browser_close_page {| cp_pageIdx := 1000000000000000000000 |} two_pages
  = Returns (textResult
               ("Invalid page index: "
                +:+ numberToString sample_host 1000000000000000000000) true) two_pages.
Proof. vm_compute. reflexivity. Qed.

(** X8: [browser_close_page] invokes at most one operation: [destroy], on
    the id of the page at the given index, and only when more than one
    page is open. *)
Theorem browser_close_page_destroys_at_most_one (args : ClosePageArgs) (w : World) :
  exists evs,
    log (final_world (browser_close_page args w)) = log w ++ evs /\
    (evs = [] \/
     exists state,
       Js.index (views w) (cp_pageIdx args) = Some state /\
       evs = [Invoked (destroy (view_id state))] /\
       (1 < length (views w))%nat).
Proof.
  unfold browser_close_page, getAllStates. run.
  destruct (index_out_of_range (cp_pageIdx args) (views w)) eqn:Hr.
  { exists []. simpl. rewrite app_nil_r. auto. }
  destruct (length (views w) =? 1)%nat eqn:Hone.
  { exists []. simpl. rewrite app_nil_r. auto. }
  destruct (Js.index (views w) (cp_pageIdx args)) as [state|] eqn:Hidx.
  2: { exists []. simpl. rewrite app_nil_r. auto. }
  exists [Invoked (destroy (view_id state))]. split.
  - pose proof (invoke_log (destroy (view_id state)) w) as Hlog.
    destruct (invoke (destroy (view_id state)) w) as [[] w1|e w1|w1]; exact Hlog.
  - right. exists state. split; [reflexivity|]. split; [reflexivity|].
    apply Nat.eqb_neq in Hone.
    assert (length (views w) <> 0)%nat; [|lia].
    intros Hz. unfold Js.index in Hidx.
    destruct (Js.is_integer _ && _); [|discriminate].
    apply lookup_lt_Some in Hidx. lia.
Qed.

(** ** Dialogs *)

(** X9: [browser_handle_dialog] without a pending dialog answers with an
    error and invokes nothing; with one pending it invokes [handleDialog]
    exactly once, accepting when the action is 'accept' and dismissing
    for any other action, with the prompt text as given. *)
Theorem browser_handle_dialog_once (args : HandleDialogArgs) (w : World) :
  match getPendingDialog w with
  | None =>
      browser_handle_dialog args w = Returns (textResult "No open dialog found" true) w
  | Some _ =>
      log (final_world (browser_handle_dialog args w))
      = log w ++ [Invoked (handleDialog (bool_decide (action args = "accept"))
                             (promptText args))]
  end.
Proof.
  unfold browser_handle_dialog. run.
  destruct (getPendingDialog w) as [d|] eqn:Hd; [|reflexivity].
  replace (bool_decide (action args = "accept")) with (String.eqb (action args) "accept").
  2: { destruct (String.eqb_spec (action args) "accept") as [E|E].
       - symmetry. apply bool_decide_eq_true. exact E.
       - symmetry. apply bool_decide_eq_false. exact E. }
  pose proof (invoke_log (handleDialog (String.eqb (action args) "accept") (promptText args)) w)
    as Hlog.
  destruct (invoke (handleDialog _ _) w) as [[] w1|e w1|w1]; [|destruct e|]; exact Hlog.
Qed.

(** ** The capture *)

(** X10: the capture [browser_screenshot] asks for is a PNG unless another
    format is given, and a PNG capture never carries a quality: the
    [quality] argument reaches [captureScreenshot] only with another
    format. *)
Theorem browser_screenshot_png_ignores_quality (args : ScreenshotArgs) (w : World) :
  hasActiveView w = true ->
  given (ss_uid args) && or_false (ss_fullPage args) = false ->
  exists options rest,
    log (final_world (browser_screenshot args w))
    = log w ++ Invoked (captureScreenshot options) :: rest /\
    (given (ss_format args) = false -> so_format options = "png") /\
    (so_format options = "png" -> so_quality options = None) /\
    (so_format options <> "png" ->
     ss_format args = Some (so_format options) /\ so_quality options = ss_quality args).
Proof.
  intros Hact Hone.
  destruct (screenshot_first_call args w Hact Hone) as [rest Hlog].
  exists (screenshot_options args), rest. split; [exact Hlog|].
  unfold screenshot_options. cbn [so_format so_quality].
  destruct (ss_format args) as [f|]; cbn [given default].
  - destruct (Js.truthy f) eqn:Hf.
    + split; [discriminate|]. split.
      * intros ->. reflexivity.
      * intros Hne. apply String.eqb_neq in Hne. rewrite Hne. split; reflexivity.
    + split; [reflexivity|]. split; [reflexivity|]. intros H. contradiction.
  - split; [reflexivity|]. split; [reflexivity|]. intros H. contradiction.
Qed.

Lemma browser_screenshot_png_ignores_quality_witness :
  exists options rest,
    log (final_world
           (browser_screenshot {| ss_format := None; ss_quality := Some 80%Q;
                                  ss_uid := None; ss_fullPage := Some true;
                                  ss_filePath := None |} one_page))
    = log one_page ++ Invoked (captureScreenshot options) :: rest /\
    so_format options = "png" /\ so_quality options = None.
Proof.
  destruct (browser_screenshot_png_ignores_quality
              {| ss_format := None; ss_quality := Some 80%Q; ss_uid := None;
                 ss_fullPage := Some true; ss_filePath := None |} one_page eq_refl eq_refl)
    as (o & rest & Hlog & Hdef & Hpng & _).
  exists o, rest. split; [exact Hlog|]. split; [exact (Hdef eq_refl)|].
  exact (Hpng (Hdef eq_refl)).
Defined.

(** X11: when the capture is fulfilled in time, [browser_screenshot]
    without a file path returns the image inline after the message; with
    a file path it writes the data to that path and, unless the write
    fails, returns text only: the message and where the file was saved. *)
Theorem browser_screenshot_delivery (args : ScreenshotArgs) (w : World) (d : Z)
    (shot : Screenshot) :
  hasActiveView w = true ->
  given (ss_uid args) && or_false (ss_fullPage args) = false ->
  browser w Screenshot (log w) (captureScreenshot (screenshot_options args))
  = Settles d (inr shot) ->
  Z.max 0 d < TOOL_TIMEOUT ->
  let captured := tick d (record_call (captureScreenshot (screenshot_options args)) w) in
  if given (ss_filePath args) then
    log (final_world (browser_screenshot args w))
    = log w ++ [Invoked (captureScreenshot (screenshot_options args));
                Invoked (writeFileSync (default "" (ss_filePath args)) (shot_data shot))] /\
    (forall r w',
        browser_screenshot args w = Returns r w' -> isError r = false ->
        r = textResult
              (screenshot_message args +:+ Js.nl +:+ "Saved screenshot to "
               +:+ default "" (ss_filePath args) +:+ ".") false)
  else
    browser_screenshot args w
    = Returns (imageResult (screenshot_message args) (shot_data shot) (shot_mimeType shot))
        captured.
Proof.
  intros Hact Hone Hshot Hd captured.
  assert (Hinv : invoke (captureScreenshot (screenshot_options args)) w
                 = Returns shot captured).
  { unfold invoke. simpl. rewrite Hshot. reflexivity. }
  assert (Hclock : (clock captured <? clock w + TOOL_TIMEOUT) = true).
  { apply Z.ltb_lt. unfold captured. simpl. lia. }
  unfold browser_screenshot. run. rewrite Hact, Hone. simpl.
  unfold withTimeout. rewrite Hinv, Hclock.
  destruct (given (ss_filePath args)); [|reflexivity].
  pose proof (invoke_log (writeFileSync (default "" (ss_filePath args)) (shot_data shot))
                captured) as Hlog.
  destruct (invoke (writeFileSync _ _) captured) as [[] w1|e w1|w1]; simpl in *.
  - split.
    + rewrite Hlog. unfold captured. simpl. rewrite <- app_assoc. reflexivity.
    + intros r w' H _. inversion H. reflexivity.
  - destruct e as [m|m|n]; simpl;
      (split; [rewrite Hlog; unfold captured; simpl; rewrite <- app_assoc; reflexivity|]);
      intros r w' H; inversion H; subst; intros He; discriminate He.
  - split.
    + rewrite Hlog. unfold captured. simpl. rewrite <- app_assoc. reflexivity.
    + intros r w' H. discriminate.
Qed.

Lemma browser_screenshot_delivery_witness :
  browser_screenshot {| ss_format := None; ss_quality := None; ss_uid := None;
                        ss_fullPage := None; ss_filePath := None |} one_page
  = Returns (imageResult "Took a screenshot of the current page's viewport."
               "iVBORw0KGgo=" "image/png")
      (tick 10 (record_call
                  (captureScreenshot {| so_format := "png"; so_quality := None;
                                        so_uid := None; so_fullPage := false |})
                  one_page)).
Proof.
  exact (browser_screenshot_delivery
           {| ss_format := None; ss_quality := None; ss_uid := None; ss_fullPage := None;
              ss_filePath := None |} one_page 10 sample_shot eq_refl eq_refl eq_refl eq_refl).
Defined.

(** ** Listings *)

Lemma page_of_take_drop {A} (records : list A) (size idx : Z) :
  0 < size -> 0 <= idx ->
  page_of (Some size) idx records
  = take (Z.to_nat size) (drop (Z.to_nat (idx * size)) records).
Proof.
  intros Hsize Hidx. unfold page_of, Js.slice.
  set (n := Z.of_nat (length records)).
  set (s := idx * size).
  assert (Hs : 0 <= s) by (subst s; nia).
  assert (Hn : 0 <= n) by (subst n; lia).
  replace (s <? 0) with false by (symmetry; apply Z.ltb_ge; lia).
  replace (Z.min (s + size) n <? 0) with false by (symmetry; apply Z.ltb_ge; lia).
  destruct (decide (s <= n)) as [Hle|Hgt].
  - replace (Z.min s n) with s by lia.
    destruct (decide (s + size <= n)).
    + f_equal. lia.
    + rewrite !take_ge; [reflexivity| |]; rewrite length_drop; lia.
  - rewrite (drop_ge records (Z.to_nat s)) by lia.
    rewrite (drop_ge records (Z.to_nat (Z.min s n))) by lia.
    rewrite !take_nil. reflexivity.
Qed.

(** X12: a page never holds more records than [pageSize], and the pages
    0, 1, ..., k-1 put one after the other are the first [k * pageSize]
    records: paging neither skips nor repeats a record, and enough pages
    give back the whole list. *)
Theorem pages_tile_the_list {A} (records : list A) (size : Z) :
  0 < size ->
  (forall idx, 0 <= idx ->
               Z.of_nat (length (page_of (Some size) idx records)) <= size) /\
  (forall k : nat,
      concat ((fun i : nat => page_of (Some size) (Z.of_nat i) records) <$> seq 0 k)
      = take (k * Z.to_nat size) records) /\
  (forall k : nat,
      length records <= k * Z.to_nat size ->
      concat ((fun i : nat => page_of (Some size) (Z.of_nat i) records) <$> seq 0 k)
      = records)%nat.
Proof.
  intros Hsize.
  assert (Htile : forall k : nat,
             concat ((fun i : nat => page_of (Some size) (Z.of_nat i) records) <$> seq 0 k)
             = take (k * Z.to_nat size) records).
  { induction k as [|k IH].
    - simpl. rewrite take_0. reflexivity.
    - rewrite seq_S, fmap_app, concat_app, IH.
      cbn [fmap list_fmap concat Nat.add]. rewrite app_nil_r.
      rewrite page_of_take_drop by lia.
      replace (Z.to_nat (Z.of_nat k * size)) with (k * Z.to_nat size)%nat by nia.
      replace (S k * Z.to_nat size)%nat
        with (k * Z.to_nat size + Z.to_nat size)%nat by lia.
      rewrite take_take_drop. reflexivity. }
  split; [|split].
  - intros idx Hidx. rewrite page_of_take_drop by assumption.
    rewrite length_take. lia.
  - exact Htile.
  - intros k Hk. rewrite Htile. apply take_ge. exact Hk.
Qed.

Lemma pages_tile_the_list_witness :
  concat ((fun i : nat => page_of (Some 10) (Z.of_nat i) (seqZ 1 25)) <$> seq 0 3)
  = seqZ 1 25.
Proof.
  refine (proj2 (proj2 (pages_tile_the_list (seqZ 1 25) 10 _)) 3%nat _).
  - lia.
  - vm_compute. lia.
Defined.

(** X13: the hint to ask for the next page is given exactly when the next
    page has something in it. *)
Theorem hint_iff_next_page_not_empty {A} (what : string) (records : list A)
    (size idx : Z) :
  0 < size -> 0 <= idx ->
  (page_hint what (Some size) idx (length (page_of (Some size) idx records))
     (length records) <> []
   <-> page_of (Some size) (idx + 1) records <> []) /\
  (forall line,
      line ∈ page_hint what (Some size) idx (length (page_of (Some size) idx records))
               (length records) ->
      line = "Use pageIdx=" +:+ Js.showZ (idx + 1) +:+ " to see more " +:+ what +:+ ".").
Proof.
  intros Hsize Hidx.
  pose proof (page_of_length records size idx Hsize Hidx) as Hlen.
  pose proof (page_of_length records size (idx + 1) Hsize ltac:(lia)) as Hnext.
  assert (Hnonempty : forall l : list A, l <> [] <-> 0 < Z.of_nat (length l)).
  { intros l. destruct l; simpl; split; intros; try congruence; lia. }
  split.
  - rewrite (Hnonempty (page_of _ _ _)), Hnext. unfold page_hint. rewrite Hlen.
    assert (0 <= idx * size) by nia.
    destruct (_ <? _) eqn:E.
    + apply Z.ltb_lt in E. split; [intros _; nia|discriminate].
    + apply Z.ltb_ge in E. split; [intros H'; contradiction|intros H'; nia].
  - intros line. unfold page_hint. destruct (_ <? _).
    + intros Hin. apply list_elem_of_singleton in Hin. exact Hin.
    + intros Hin. apply elem_of_nil in Hin. contradiction.
Qed.

Lemma hint_iff_next_page_not_empty_witness :
  page_hint "messages" (Some 10) 1 (length (page_of (Some 10) 1 (seqZ 1 25))) 25 <> []
  <-> page_of (Some 10) (1 + 1) (seqZ 1 25) <> [].
Proof.
  refine (proj1 (hint_iff_next_page_not_empty "messages" (seqZ 1 25) 10 1 _ _)); lia.
Defined.

(** X14: without a [pageSize] both list handlers list every (filtered)
    record under a header giving the total, with no hint, whatever
    [pageIdx] is: the page index alone has no effect. *)
Theorem listing_without_page_size (w : World) :
  (forall args : ConsoleArgs,
      co_pageSize args = None ->
      let messages := filter_messages (co_types args)
                        (consoleMessages w (or_false (co_includePreservedMessages args))) in
      messages <> [] ->
      browser_console args w
      = Returns (textResult
                   (Js.join_lines
                      (["Console Messages (" +:+ Js.showZ (Z.of_nat (length messages))
                        +:+ " total):"; ""]
                       ++ concat (message_lines (host w) <$> messages)))
                   false) w) /\
  (forall args : NetworkRequestsArgs,
      nr_pageSize args = None ->
      let requests := filter_requests (host w) (nr_resourceTypes args)
                        (networkRequests w (or_false (nr_includePreservedRequests args))) in
      requests <> [] ->
      browser_network_requests args w
      = Returns (textResult
                   (Js.join_lines
                      (["Network Requests (" +:+ Js.showZ (Z.of_nat (length requests))
                        +:+ " total):"; ""]
                       ++ concat (request_lines (host w) <$> requests)))
                   false) w).
Proof.
  assert (Hlen : forall {A} (l : list A), l <> [] -> (length l =? 0)%nat = false).
  { intros A l Hl. destruct l; [contradiction|reflexivity]. }
  split; intros args Hsz records Hne.
  - unfold browser_console. run. rewrite Hsz. cbn [page_of]. fold records.
    rewrite (Hlen _ records Hne). unfold console_lines. rewrite Hsz.
    cbn [page_of page_header page_hint]. rewrite app_nil_r. reflexivity.
  - unfold browser_network_requests. run. rewrite Hsz. cbn [page_of]. fold records.
    rewrite (Hlen _ records Hne). unfold network_lines. rewrite Hsz.
    cbn [page_of page_header page_hint]. rewrite app_nil_r. reflexivity.
Qed.

Lemma listing_without_page_size_witness :
  exists text,
    browser_console {| co_pageSize := None; co_pageIdx := Some 7; co_types := None;
                       co_includePreservedMessages := None |} twenty_five_messages
    = Returns (textResult text false) twenty_five_messages
    /\ String.prefix "Console Messages (25 total):" text = true.
Proof.
  eexists. split.
  - refine (proj1 (listing_without_page_size twenty_five_messages)
              {| co_pageSize := None; co_pageIdx := Some 7; co_types := None;
                 co_includePreservedMessages := None |} eq_refl _).
    vm_compute. discriminate.
  - vm_compute. reflexivity.
Defined.

(** ** Clipped texts *)









(** A cut inside a character of two code units keeps the first of them:
    [substring(0, 2)] of a letter and a grinning face is the letter and
    the high surrogate D83D. *)
Example clip_inside_a_surrogate_pair :
  Js.clip 2 ("a" +:+ grinning_face +:+ "b")
  = "a" +:+ String "237" (String "160" (String "189" EmptyString)) +:+ "..."
  /\ Js.length ("a" +:+ grinning_face +:+ "b") = 4%nat.
Proof. vm_compute. split; reflexivity. Qed.



(** ** Emulation *)

Lemma sends_mret {A} (a : A) : sends [] (mret a : Async A).
Proof.
  intros w. exists []. run. simpl. rewrite app_nil_r.
  split; [reflexivity|]. split; [reflexivity|]. intros; reflexivity.
Qed.

Lemma sends_invoke {T} (c : Call T) : sends [Invoked c] (invoke c).
Proof.
  intros w. exists [Invoked c]. split; [apply invoke_log|].
  split; [reflexivity|]. intros; reflexivity.
Qed.

Lemma sends_bind {A B} (m : Async A) (k : A -> Async B) (c1 c2 : list Event) :
  sends c1 m -> (forall a, sends c2 (k a)) -> sends (c1 ++ c2) (m ≫= k).
Proof.
  intros Hm Hk w. cbv [mbind async_bind].
  destruct (Hm w) as (evs1 & Hlog1 & Hpre1 & Hall1).
  destruct (m w) as [a w1|e w1|w1]; simpl in *.
  - specialize (Hall1 a w1 eq_refl). subst evs1.
    destruct (Hk a w1) as (evs2 & Hlog2 & Hpre2 & Hall2).
    exists (c1 ++ evs2). split; [rewrite Hlog2, Hlog1, app_assoc; reflexivity|].
    split; [apply prefix_app; exact Hpre2|].
    intros b w' Hb. rewrite (Hall2 b w' Hb). reflexivity.
  - exists evs1. split; [exact Hlog1|].
    split; [apply prefix_app_r; exact Hpre1|]. intros; discriminate.
  - exists evs1. split; [exact Hlog1|].
    split; [apply prefix_app_r; exact Hpre1|]. intros; discriminate.
Qed.

Lemma sends_step {T A} (c : Call T) (a : A) : sends [Invoked c] (invoke c;; mret a).
Proof.
  change [Invoked c] with ([Invoked c] ++ []).
  apply sends_bind; [apply sends_invoke|intros; apply sends_mret].
Qed.

Lemma emulate_network_sends nc results :
  sends (from_option network_command [] nc) (emulate_network nc results).
Proof.
  unfold emulate_network, network_command. destruct nc as [nc|]; cbn [from_option].
  - destruct (String.eqb nc "No emulation"); [apply sends_step|].
    destruct (String.eqb nc "Offline"); [apply sends_step|].
    destruct (NETWORK_CONDITIONS !! nc); [apply sends_step|apply sends_mret].
  - apply sends_mret.
Qed.

Lemma emulate_cpu_sends h rate results :
  sends (from_option cpu_command [] rate) (emulate_cpu h rate results).
Proof.
  unfold emulate_cpu. destruct rate; cbn [from_option];
    [apply sends_step|apply sends_mret].
Qed.

Lemma emulate_geolocation_sends h geo results :
  sends (from_option geolocation_command [] geo) (emulate_geolocation h geo results).
Proof.
  unfold emulate_geolocation. destruct geo as [[g|]|]; cbn [from_option];
    [apply sends_step|apply sends_step|apply sends_mret].
Qed.

(** X18: with a page selected [browser_emulate] sends its commands in the
    order network condition, CPU throttling, geolocation, one for each
    setting given, and stops at the first command that fails or stays
    pending: the operations it invokes are a prefix of the commands asked
    for, and all of them whenever the result is not an error. *)
Theorem browser_emulate_sends_in_order (args : EmulateArgs) (w : World) :
  hasActiveView w = true ->
  exists evs,
    log (final_world (browser_emulate args w)) = log w ++ evs /\
    evs `prefix_of` emulate_commands args /\
    (forall r w',
        browser_emulate args w = Returns r w' -> isError r = false ->
        evs = emulate_commands args).
Proof.
  intros Hact. remember (browser_emulate args w) as o eqn:Ho.
  unfold browser_emulate in Ho. cbv [ask] in Ho.
  unfold mbind at 1, async_bind at 1 in Ho. rewrite Hact in Ho. cbn [negb] in Ho.
  set (body := emulate_network (networkConditions args) [] ≫= _) in Ho.
  assert (Hbody : sends (emulate_commands args) body).
  { unfold body, emulate_commands. apply sends_bind; [apply emulate_network_sends|].
    intros r1. rewrite <- (app_nil_r (_ ++ _)), <- app_assoc.
    apply sends_bind; [apply emulate_cpu_sends|].
    intros r2. apply sends_bind; [apply emulate_geolocation_sends|].
    intros r3. destruct (length r3 =? 0)%nat; apply sends_mret. }
  destruct (Hbody w) as (evs & Hlog & Hpre & Hall).
  exists evs. unfold try_catch in Ho.
  destruct (body w) as [r w1|e w1|w1]; cbv [mret async_ret] in Ho; subst o; simpl in *.
  - split; [exact Hlog|]. split; [exact Hpre|]. intros r' w' _ _.
    exact (Hall r w1 eq_refl).
  - destruct e as [m|m|n]; simpl;
      (split; [exact Hlog|]); (split; [exact Hpre|]); intros r' w' H;
      inversion H; subst; intros He; discriminate He.
  - split; [exact Hlog|]. split; [exact Hpre|]. intros r' w' H. discriminate.
Qed.

Lemma browser_emulate_sends_in_order_witness :
  exists evs,
    log (final_world (browser_emulate everything one_page)) = log one_page ++ evs /\
    evs `prefix_of` emulate_commands everything.
Proof.
  destruct (browser_emulate_sends_in_order everything one_page eq_refl)
    as (evs & Hlog & Hpre & _).
  exists evs. split; assumption.
Defined.

Example emulate_everything :
  log (final_world (browser_emulate everything one_page)) = emulate_commands everything
  /\ returned (browser_emulate everything one_page)
     = Some (textResult
               (Js.join_lines ["Network: Fast 3G"; "CPU throttling: 4x";
                               "Geolocation: 977/20, 47/20"]) false).
Proof. vm_compute. split; reflexivity. Qed.

Example emulate_on_detached_target :
  log (final_world (browser_emulate everything (form_world detached)))
  = [Invoked (emulateNetworkConditions false 150 (1.6 * 1024 * 1024 / 8) (750 * 1024 / 8))]
  /\ returned (browser_emulate everything (form_world detached))
     = Some (textResult
               "Emulation failed: Protocol error (DOM.resolveNode): Target closed" true).
Proof. vm_compute. split; reflexivity. Qed.

(** ** The two emulation tools *)

Lemma emulation_tables_agree : EmulationTs.NETWORK_CONDITIONS = NETWORK_CONDITIONS.
Proof. reflexivity. Qed.

Ltac step_invoke :=
  match goal with
  | |- context [invoke ?c ?w] =>
      destruct (invoke c w) as [[] ?|[] ?|?]; cbv beta iota; try reflexivity
  end.

(** X19: the emulation tool of tools/emulation.ts and [browser_emulate]
    of the server do the same thing: from the same world and arguments
    they invoke the same commands with the same values, leave the same
    world, and give the same text and error flag; the server only wraps
    the text in its content envelope. *)
Theorem emulation_tools_agree (args : EmulateArgs) (w : World) :
  browser_emulate args w = map_outcome envelope (EmulationTs.handler args w).
Proof.
  unfold browser_emulate, EmulationTs.handler, EmulationTs.command,
    emulate_network, emulate_cpu, emulate_geolocation, emulateNetworkConditions.
  rewrite emulation_tables_agree.
  cbv [mbind async_bind ask try_catch mret async_ret map_outcome].
  destruct (hasActiveView w); cbn [negb]; [|reflexivity].
  destruct (networkConditions args) as [nc|].
  - destruct (String.eqb nc "No emulation").
    { step_invoke.
      destruct (cpuThrottlingRate args); [step_invoke|];
        destruct (geolocation args) as [[g|]|]; try step_invoke;
        try (destruct (length _ =? 0)%nat; reflexivity); reflexivity. }
    destruct (String.eqb nc "Offline").
    { step_invoke.
      destruct (cpuThrottlingRate args); [step_invoke|];
        destruct (geolocation args) as [[g|]|]; try step_invoke;
        try (destruct (length _ =? 0)%nat; reflexivity); reflexivity. }
    destruct (NETWORK_CONDITIONS !! nc).
    { step_invoke.
      destruct (cpuThrottlingRate args); [step_invoke|];
        destruct (geolocation args) as [[g|]|]; try step_invoke;
        try (destruct (length _ =? 0)%nat; reflexivity); reflexivity. }
    destruct (cpuThrottlingRate args); [step_invoke|];
      destruct (geolocation args) as [[g|]|]; try step_invoke;
      try (destruct (length _ =? 0)%nat; reflexivity); reflexivity.
  - destruct (cpuThrottlingRate args); [step_invoke|];
      destruct (geolocation args) as [[g|]|]; try step_invoke;
      try (destruct (length _ =? 0)%nat; reflexivity); reflexivity.
Qed.

(** ** Sizes *)

(** X20: [formatBytes] prints a size below 1024 as a number of bytes, and
    any other size as a value with one decimal and the unit KB, MB or GB:
    the value printed with KB or MB is at least 1 and less than 1024, the
    value printed with GB at least 1. *)
Theorem formatBytes_scales (h : Host) (bytes : Q) :
  ((bytes < 1024)%Q -> formatBytes h bytes = showNumber h bytes +:+ " B") /\
  ((1024 <= bytes)%Q ->
   exists value unit_,
     formatBytes h bytes = toFixed h value 1 +:+ unit_ /\
     (1 <= value)%Q /\
     ((unit_ = " KB" /\ bytes == value * 1024 /\ value < 1024)
      \/ (unit_ = " MB" /\ bytes == value * (1024 * 1024) /\ value < 1024)
      \/ (unit_ = " GB" /\ bytes == value * (1024 * 1024 * 1024)))%Q).
Proof.
  assert (Hlt : forall a b : Q, Js.Qltb a b = true <-> (a < b)%Q).
  { intros a b. unfold Js.Qltb. rewrite negb_true_iff. split.
    - intros H. apply Qnot_le_lt. intros Hle. apply Qle_bool_iff in Hle. congruence.
    - intros H. destruct (Qle_bool b a) eqn:E; [|reflexivity].
      apply Qle_bool_iff in E. exfalso. exact (Qlt_not_le _ _ H E). }
  assert (Hge : forall a b : Q, Js.Qltb a b = false <-> (b <= a)%Q).
  { intros a b. unfold Js.Qltb. rewrite negb_false_iff. apply Qle_bool_iff. }
  unfold formatBytes. split.
  - intros H. apply Hlt in H. rewrite H. reflexivity.
  - intros H. pose proof H as H0. apply Hge in H0. rewrite H0.
    destruct (Js.Qltb bytes (1024 * 1024)) eqn:E1.
    { apply Hlt in E1. exists (bytes / 1024)%Q, " KB". split; [reflexivity|].
      split; [apply Qle_shift_div_l; [reflexivity|]; rewrite Qmult_1_l; exact H|].
      left. split; [reflexivity|]. split.
      - field.
      - apply Qlt_shift_div_r; [reflexivity|exact E1]. }
    apply Hge in E1.
    destruct (Js.Qltb bytes (1024 * 1024 * 1024)) eqn:E2.
    { apply Hlt in E2. exists (bytes / (1024 * 1024))%Q, " MB". split; [reflexivity|].
      split; [apply Qle_shift_div_l; [reflexivity|]; rewrite Qmult_1_l; exact E1|].
      right. left. split; [reflexivity|]. split.
      - field.
      - apply Qlt_shift_div_r; [reflexivity|exact E2]. }
    apply Hge in E2.
    exists (bytes / (1024 * 1024 * 1024))%Q, " GB". split; [reflexivity|].
    split; [apply Qle_shift_div_l; [reflexivity|]; rewrite Qmult_1_l; exact E2|].
    right. right. split; [reflexivity|]. field.
Qed.

Lemma formatBytes_scales_witness :
  formatBytes sample_host 512 = showNumber sample_host 512 +:+ " B".
Proof.
  refine (proj1 (formatBytes_scales sample_host 512) _). reflexivity.
Defined.

(** ** Starting a trace *)

Lemma sends_sleep ms : sends [] (sleep ms).
Proof.
  intros w. exists []. unfold sleep. simpl. rewrite app_nil_r.
  split; [reflexivity|]. split; [reflexivity|]. intros; reflexivity.
Qed.

Lemma clock_effect {T} (c : Call T) (w : World) : clock (effect c w) = clock w.
Proof. destruct c; reflexivity. Qed.

Lemma invoke_takes_time {T} (c : Call T) : takes_at_least 0 (invoke c).
Proof.
  intros w a w'. unfold invoke.
  destruct (settled_by_rule c w) as [[e|v]|].
  - discriminate.
  - intros H. injection H as _ <-. rewrite clock_effect. simpl. lia.
  - destruct (browser w T (log w) c) as [d [e|v]|]; try discriminate.
    intros H. injection H as _ <-. rewrite clock_effect. simpl. lia.
Qed.

Lemma sleep_takes_time ms : 0 <= ms -> takes_at_least ms (sleep ms).
Proof.
  intros Hms w a w'. unfold sleep. intros H. injection H as _ <-. simpl. lia.
Qed.

Lemma mret_takes_time {A} (a : A) : takes_at_least 0 (mret a : Async A).
Proof. intros w b w'. run. intros H. injection H as _ <-. lia. Qed.

Lemma bind_takes_time {A B} (m : Async A) (k : A -> Async B) (t1 t2 : Z) :
  takes_at_least t1 m -> (forall a, takes_at_least t2 (k a)) ->
  takes_at_least (t1 + t2) (m ≫= k).
Proof.
  intros Hm Hk w b w'. cbv [mbind async_bind].
  destruct (m w) as [a w1|e w1|w1] eqn:E; try discriminate.
  intros H. pose proof (Hm _ _ _ E). pose proof (Hk a _ _ _ H). lia.
Qed.

(** X21: with a page selected and no trace running, [browser_perf_start]
    invokes its operations in a fixed order and stops at the first that
    fails: with [reload], blank the page, start the trace, load the url
    the page had, wait for the load (30 s at most); without, start the
    trace; then, with [autoStop], stop the trace.  A result that is not an
    error means all of them were invoked, and took at least the pauses of
    the handler: 500 ms when reloading, 5 s before an automatic stop. *)
Theorem browser_perf_start_sequence (args : PerfStartArgs) (w : World) :
  hasActiveView w = true -> isPerformanceTracing w = false ->
  let commands := perf_commands (default "" (activeViewId w)) (pageUrl w) args in
  exists evs,
    log (final_world (browser_perf_start args w)) = log w ++ evs /\
    evs `prefix_of` commands /\
    (forall r w',
        browser_perf_start args w = Returns r w' -> isError r = false ->
        evs = commands /\ clock w + perf_pauses args <= clock w').
Proof.
  intros Hact Htr commands.
  remember (browser_perf_start args w) as o eqn:Ho.
  unfold browser_perf_start in Ho. cbv [ask] in Ho.
  unfold mbind at 1, async_bind at 1 in Ho. rewrite Hact, Htr in Ho. cbn [negb] in Ho.
  set (body := (if reload args then _ else _) ≫= _) in Ho.
  assert (Hsends : sends commands body).
  { unfold body, commands, perf_commands. apply sends_bind.
    - destruct (reload args).
      + change [Invoked (navigate (default "" (activeViewId w)) "about:blank");
                Invoked startPerformanceTrace;
                Invoked (navigate (default "" (activeViewId w)) (pageUrl w));
                Invoked (waitForNavigation NAV_TIMEOUT)]
          with ([Invoked (navigate (default "" (activeViewId w)) "about:blank")]
                ++ [] ++ [Invoked startPerformanceTrace]
                ++ [Invoked (navigate (default "" (activeViewId w)) (pageUrl w))]
                ++ [Invoked (waitForNavigation NAV_TIMEOUT)]).
        apply sends_bind; [apply sends_invoke|intros _].
        apply sends_bind; [apply sends_sleep|intros _].
        apply sends_bind; [apply sends_invoke|intros _].
        apply sends_bind; [apply sends_invoke|intros _].
        apply sends_invoke.
      + apply sends_invoke.
    - intros _. destruct (autoStop args).
      + change [Invoked stopPerformanceTrace] with ([] ++ [Invoked stopPerformanceTrace] ++ []).
        apply sends_bind; [apply sends_sleep|intros _].
        apply sends_bind; [apply sends_invoke|intros; apply sends_mret].
      + apply sends_mret. }
  assert (Htime : takes_at_least (perf_pauses args) body).
  { unfold body, perf_pauses. apply bind_takes_time.
    - destruct (reload args).
      + change 500 with (0 + (500 + (0 + (0 + 0)))).
        apply bind_takes_time; [apply invoke_takes_time|intros _].
        apply bind_takes_time; [apply sleep_takes_time; lia|intros _].
        apply bind_takes_time; [apply invoke_takes_time|intros _].
        apply bind_takes_time; [apply invoke_takes_time|intros _].
        apply invoke_takes_time.
      + apply invoke_takes_time.
    - intros _. destruct (autoStop args).
      + change 5000 with (5000 + (0 + 0)).
        apply bind_takes_time; [apply sleep_takes_time; lia|intros _].
        apply bind_takes_time; [apply invoke_takes_time|intros; apply mret_takes_time].
      + apply mret_takes_time. }
  destruct (Hsends w) as (evs & Hlog & Hpre & Hall).
  exists evs. unfold try_catch in Ho.
  destruct (body w) as [r w1|e w1|w1] eqn:Hb; cbv [mret async_ret] in Ho; subst o;
    simpl in *.
  - split; [exact Hlog|]. split; [exact Hpre|]. intros r' w' H _.
    injection H as _ <-. split; [exact (Hall r w1 eq_refl)|].
    exact (Htime _ _ _ Hb).
  - destruct e as [m|m|n]; simpl;
      (split; [exact Hlog|]); (split; [exact Hpre|]); intros r' w' H;
      inversion H; subst; intros He; discriminate He.
  - split; [exact Hlog|]. split; [exact Hpre|]. intros r' w' H. discriminate.
Qed.

Lemma browser_perf_start_sequence_witness :
  exists evs,
    log (final_world (browser_perf_start (perf true true) one_page)) = log one_page ++ evs /\
    evs `prefix_of` perf_commands "ai-browser-1" "https://example.com/" (perf true true).
Proof.
  destruct (browser_perf_start_sequence (perf true true) one_page eq_refl eq_refl)
    as (evs & Hlog & Hpre & _).
  exists evs. split; assumption.
Defined.

Example reload_and_stop :
  log (final_world (browser_perf_start (perf true true) one_page))
  = perf_commands "ai-browser-1" "https://example.com/" (perf true true)
  /\ clock (final_world (browser_perf_start (perf true true) one_page)) = 5550.
Proof. vm_compute. split; reflexivity. Qed.

(** ** The trace summary *)

Lemma metric_line_shown (metrics : gmap string Q) (key : string) (line : Q -> string) :
  metric_line metrics key line
  = match metric_shown metrics key with Some v => [line v] | None => [] end.
Proof.
  unfold metric_line, metric_shown. destruct (metrics !! key) as [v|]; [|reflexivity].
  destruct (Js.nonzero v); reflexivity.
Qed.

(** X22: the trace summary depends on nine metrics only, and a metric
    that is zero is left out exactly as one that is absent: two sets of
    metrics that agree on the nine, zero counting as absent, give the
    same summary. *)
Theorem formatTraceResults_zero_is_absent (h : Host) (duration : Z)
    (m1 m2 : gmap string Q) :
  (forall key, key ∈ summary_metrics -> metric_shown m1 key = metric_shown m2 key) ->
  formatTraceResults h duration m1 = formatTraceResults h duration m2.
Proof.
  intros Hsame. unfold formatTraceResults. rewrite !metric_line_shown.
  rewrite !Hsame; [reflexivity|..]; unfold summary_metrics;
    repeat (first [apply list_elem_of_here|apply list_elem_of_further]).
Qed.

Lemma formatTraceResults_zero_is_absent_witness :
  formatTraceResults sample_host 5000 {[ "Nodes" := 0%Q; "Frames" := 3%Q ]}
  = formatTraceResults sample_host 5000 ∅.
Proof.
  apply formatTraceResults_zero_is_absent.
  intros key Hkey. unfold summary_metrics in Hkey.
  repeat (apply elem_of_cons in Hkey as [->|Hkey]; [reflexivity|]).
  apply elem_of_nil in Hkey. contradiction.
Defined.

(** ** Navigation *)

(** X23: the wait of a navigation tool is always positive: a positive
    [timeout] argument is used as given, and zero, a negative value or no
    value give the default of 30 s. *)
Theorem effective_timeout_positive (timeout : option Z) :
  0 < effective_timeout timeout /\
  (forall t, timeout = Some t -> 0 < t -> effective_timeout timeout = t) /\
  ((forall t, timeout = Some t -> t <= 0) -> effective_timeout timeout = 30000).
Proof.
  unfold effective_timeout, NAV_TIMEOUT. destruct timeout as [t|].
  - destruct (negb (t =? 0) && (0 <? t)) eqn:E.
    + apply andb_true_iff in E. destruct E as [_ E]. apply Z.ltb_lt in E.
      split; [exact E|]. split; [intros t' [= <-] _; reflexivity|].
      intros H. specialize (H t eq_refl). lia.
    + split; [lia|]. split; [|intros _; reflexivity].
      intros t' [= <-] Ht.
      apply andb_false_iff in E. destruct E as [E|E].
      * apply negb_false_iff, Z.eqb_eq in E. lia.
      * apply Z.ltb_ge in E. lia.
  - split; [lia|]. split; [intros t [=]|intros _; reflexivity].
Qed.

Lemma effective_timeout_positive_witness :
  effective_timeout (Some 0) = 30000.
Proof.
  refine (proj2 (proj2 (effective_timeout_positive (Some 0))) _).
  intros t [= <-]. lia.
Defined.

(** X24: [browser_navigate] validates its arguments before it touches the
    page: with neither a type nor a url it answers 'Either URL or a type
    is required.'; with a page selected, a type that is not back, forward
    or reload and no url it answers 'A URL is required for navigation of
    type=url.'.  Both are error results and leave the world as it was. *)
Theorem browser_navigate_validates (B : Backend) (args : NavigateArgs) (w : World) :
  (given (nav_type args) = false -> given (nav_url args) = false ->
   browser_navigate B args w
   = Returns (textResult "Either URL or a type is required." true) w) /\
  (hasActiveView w = true ->
   given (nav_type args) = true ->
   is_history (default "" (nav_type args)) = false ->
   given (nav_url args) = false ->
   browser_navigate B args w
   = Returns (textResult "A URL is required for navigation of type=url." true) w).
Proof.
  split.
  - intros Ht Hu. unfold browser_navigate, navType. run. rewrite Ht, Hu. reflexivity.
  - intros Hact Ht Hh Hu. unfold browser_navigate, navType. run.
    rewrite Ht, Hu, Hact. rewrite Ht. cbn [negb andb].
    unfold is_history in Hh. apply orb_false_iff in Hh. destruct Hh as [Hh Hr].
    apply orb_false_iff in Hh. destruct Hh as [Hb Hf].
    rewrite Hb, Hf, Hr. reflexivity.
Qed.

Lemma browser_navigate_validates_witness :
  browser_navigate answering (go "url") one_page
  = Returns (textResult "A URL is required for navigation of type=url." true) one_page.
Proof.
  exact (proj2 (browser_navigate_validates answering (go "url") one_page)
           eq_refl eq_refl eq_refl eq_refl).
Defined.

Lemma log_registers {T} (op : Operation T) (w : World) : log (registers op w) = log w.
Proof. destruct op; reflexivity. Qed.

Lemma sends_perform (B : Backend) {T} (op : Operation T) : sends [] (perform B op).
Proof.
  intros w. exists []. unfold perform.
  destruct (B T w op) as [d [e|v]|]; simpl; rewrite ?log_registers; simpl;
    rewrite app_nil_r; (split; [reflexivity|]); (split; [reflexivity|]);
    intros; reflexivity.
Qed.

(** X25: with a page selected, going back, forward or reloading never
    loads the [url] argument: the only logged operation such a call can
    invoke is one wait for the navigation, with the effective timeout.  A
    navigation by url invokes [navigate] on the selected page with that
    url and then the same wait. *)
Theorem browser_navigate_operations (B : Backend) (args : NavigateArgs) (w : World) :
  hasActiveView w = true ->
  given (navType args) = true ->
  let wait := Invoked (waitForNavigation (effective_timeout (nav_timeout args))) in
  let commands :=
    if is_history (default "" (navType args)) then [wait]
    else if given (nav_url args)
         then [Invoked (navigate (default "" (activeViewId w)) (default "" (nav_url args)));
               wait]
         else [] in
  exists evs,
    log (final_world (browser_navigate B args w)) = log w ++ evs /\
    evs `prefix_of` commands /\
    (forall r w',
        browser_navigate B args w = Returns r w' -> isError r = false ->
        evs = commands).
Proof.
  intros Hact Hkind wait commands.
  remember (browser_navigate B args w) as o eqn:Ho.
  unfold browser_navigate in Ho. cbv [ask] in Ho.
  unfold mbind at 1, async_bind at 1 in Ho. rewrite Hkind, Hact in Ho.
  cbn [negb andb] in Ho.
  set (body := if String.eqb (default "" (navType args)) "back" then _ else _) in Ho.
  assert (Hsends : sends commands body
                   \/ (commands = [] /\ exists t, body = mret (textResult t true))).
  { unfold body, commands, is_history.
    destruct (String.eqb (default "" (navType args)) "back").
    { left. cbn [orb]. change [wait] with ([] ++ [wait] ++ []).
      apply sends_bind; [apply sends_perform|intros _].
      apply sends_bind; [apply sends_invoke|intros; apply sends_mret]. }
    destruct (String.eqb (default "" (navType args)) "forward").
    { left. cbn [orb]. change [wait] with ([] ++ [wait] ++ []).
      apply sends_bind; [apply sends_perform|intros _].
      apply sends_bind; [apply sends_invoke|intros; apply sends_mret]. }
    destruct (String.eqb (default "" (navType args)) "reload").
    { left. cbn [orb]. change [wait] with ([] ++ [wait] ++ []).
      apply sends_bind; [apply sends_perform|intros _].
      apply sends_bind; [apply sends_invoke|intros; apply sends_mret]. }
    cbn [orb]. destruct (given (nav_url args)); cbn [negb].
    - left.
      change [Invoked (navigate (default "" (activeViewId w)) (default "" (nav_url args)));
              wait]
        with ([Invoked (navigate (default "" (activeViewId w)) (default "" (nav_url args)))]
              ++ [wait] ++ [] ++ []).
      apply sends_bind; [apply sends_invoke|intros _].
      apply sends_bind; [apply sends_invoke|intros _].
      apply sends_bind; [apply sends_perform|intros; apply sends_mret].
    - right. split; [reflexivity|]. eexists. reflexivity. }
  unfold try_catch in Ho.
  destruct Hsends as [Hsends|[Hnil [t Hbody]]].
  - destruct (Hsends w) as (evs & Hlog & Hpre & Hall).
    exists evs.
    destruct (body w) as [r w1|e w1|w1] eqn:Hb; cbv [mret async_ret] in Ho; subst o;
      simpl in *.
    + split; [exact Hlog|]. split; [exact Hpre|]. intros r' w' _ _.
      exact (Hall r w1 eq_refl).
    + destruct e as [m|m|n]; simpl;
        (split; [exact Hlog|]); (split; [exact Hpre|]); intros r' w' H;
        inversion H; subst; intros He; discriminate He.
    + split; [exact Hlog|]. split; [exact Hpre|]. intros r' w' H. discriminate.
  - rewrite Hbody in Ho. cbv [mret async_ret] in Ho. subst o. rewrite Hnil.
    exists []. simpl. rewrite app_nil_r. split; [reflexivity|]. split; [reflexivity|].
    intros; reflexivity.
Qed.

Lemma browser_navigate_operations_witness :
  exists evs,
    log (final_world (browser_navigate answering (go "back") one_page))
    = log one_page ++ evs /\
    evs `prefix_of` [Invoked (waitForNavigation 30000)].
Proof.
  destruct (browser_navigate_operations answering (go "back") one_page eq_refl eq_refl)
    as (evs & Hlog & Hpre & _).
  exists evs. split; assumption.
Defined.

(** ** Waiting for a text *)

(** X26: [browser_wait_for] has no timer and no page check of its own,
    and reports every failure of [waitForText] as a timeout: whatever the
    wait is rejected with, the result is the error 'Timeout waiting for
    text' with the text; a wait that never settles leaves the tool
    pending. *)
Theorem browser_wait_for_reports_timeout (B : Backend) (args : WaitForArgs) (w : World) :
  browser_wait_for B args w =
  match B unit w (waitForText (wf_text args) (effective_timeout (wf_timeout args))) with
  | Settles d (inl _) =>
      Returns (textResult
                 ("Timeout waiting for text: " +:+ Js.dquote +:+ wf_text args +:+ Js.dquote)
                 true) (tick d w)
  | Settles d (inr _) =>
      Returns (textResult
                 ("Element with text " +:+ Js.dquote +:+ wf_text args +:+ Js.dquote
                  +:+ " found.") false) (tick d w)
  | NeverSettles => Hangs w
  end.
Proof.
  unfold browser_wait_for, perform. run.
  destruct (B unit w _) as [d [e|[]]|]; reflexivity.
Qed.

Example wait_for_on_a_closed_target :
  returned (browser_wait_for (failing "Target closed")
              {| wf_text := "Welcome"; wf_timeout := None |} no_page)
  = Some (textResult ("Timeout waiting for text: " +:+ Js.dquote +:+ "Welcome" +:+ Js.dquote)
            true).
Proof. vm_compute. reflexivity. Qed.

(** ** Scripts *)

Lemma resolve_elements_stops (w : World) (u : string) (after : list string) :
  getElementByUid w u = None ->
  forall before acc,
    Forall (fun v => is_Some (getElementByUid w v)) before ->
    resolve_elements w (before ++ u :: after) acc
    = inl (ErrorObject ("Element not found: " +:+ u)).
Proof.
  intros Hu. induction before as [|v before IH]; intros acc Hall; simpl.
  - rewrite Hu. reflexivity.
  - inversion Hall as [|? ? [el Hel] Hrest]; subst. rewrite Hel. apply IH. exact Hrest.
Qed.

Lemma resolve_elements_all (w : World) :
  forall uids acc els,
    Forall2 (fun v el => getElementByUid w v = Some el) uids els ->
    resolve_elements w uids acc = inr (acc ++ els).
Proof.
  induction uids as [|v uids IH]; intros acc els Hall; inversion Hall; subst; simpl.
  - rewrite app_nil_r. reflexivity.
  - rewrite H1. rewrite (IH _ _ H3), <- app_assoc. reflexivity.
Qed.

(** X27: [browser_evaluate] resolves the uids of its arguments in order
    before it runs anything: the first uid the snapshot does not have is
    answered with 'Script error: Element not found' and that uid, with
    the world untouched, whatever the backend would do.  When all uids
    resolve, the one operation asked of the backend is [evaluateScript]
    with the function as given and the elements in the order of the
    uids, and its answer decides the result: the value returned in time
    is reported, a rejection in time is reported with its message, and a
    script that never ends is reported as a timeout after 60 s. *)
Theorem browser_evaluate_resolves_first (B : Backend) (fn : string) (w : World) :
  hasActiveView w = true ->
  (forall before u after,
      Forall (fun v => is_Some (getElementByUid w v)) before ->
      getElementByUid w u = None ->
      browser_evaluate B {| function := fn; eval_args := Some (before ++ u :: after) |} w
      = Returns (textResult ("Script error: Element not found: " +:+ u) true) w) /\
  (forall uids els,
      Forall2 (fun v el => getElementByUid w v = Some el) uids els ->
      match B ScriptValue w (evaluateScript fn els) with
      | Settles d (inr value) =>
          Z.max 0 d < TOOL_TIMEOUT ->
          browser_evaluate B {| function := fn; eval_args := Some uids |} w
          = Returns (textResult (script_result value) false) (tick d w)
      | Settles d (inl (ErrorObject message)) =>
          Z.max 0 d < TOOL_TIMEOUT ->
          browser_evaluate B {| function := fn; eval_args := Some uids |} w
          = Returns (textResult ("Script error: " +:+ message) true) (tick d w)
      | Settles _ (inl _) => True
      | NeverSettles =>
          browser_evaluate B {| function := fn; eval_args := Some uids |} w
          = Returns (textResult "Script error: browser_evaluate timed out after 60000ms" true)
              (set_clock (clock w + TOOL_TIMEOUT) w)
      end).
Proof.
  intros Hact. split.
  - intros before u after Hall Hu. unfold browser_evaluate. run.
    rewrite Hact. cbn [negb eval_args function].
    change (default [] (Some (before ++ u :: after))) with (before ++ u :: after).
    rewrite (resolve_elements_stops w u after Hu before [] Hall). reflexivity.
  - intros uids els Hall.
    assert (Hrun : browser_evaluate B {| function := fn; eval_args := Some uids |} w
                   = try_catch
                       (result ← withTimeout (perform B (evaluateScript fn els))
                                   TOOL_TIMEOUT "browser_evaluate";
                        mret (textResult (script_result result) false))
                       (fun error =>
                          message ← message_of error;
                          mret (textResult ("Script error: " +:+ message) true)) w).
    { unfold browser_evaluate. rewrite ask_bind, Hact. cbn [negb eval_args function].
      change (default [] (Some uids)) with uids.
      rewrite (resolve_elements_all w uids [] els Hall). reflexivity. }
    rewrite Hrun. cbv [try_catch mbind async_bind withTimeout perform].
    destruct (B ScriptValue w (evaluateScript fn els)) as [d [[message|message|n]|value]|];
      try exact I.
    + intros Hd. cbn [registers tick clock set_clock].
      replace (clock w + Z.max 0 d <? clock w + TOOL_TIMEOUT) with true
        by (symmetry; apply Z.ltb_lt; lia).
      reflexivity.
    + intros Hd. cbn [registers tick clock set_clock].
      replace (clock w + Z.max 0 d <? clock w + TOOL_TIMEOUT) with true
        by (symmetry; apply Z.ltb_lt; lia).
      reflexivity.
    + reflexivity.
Qed.

Lemma browser_evaluate_resolves_first_witness :
  browser_evaluate silent {| function := "(el) => el.innerText";
                             eval_args := Some (["1_7"] ++ "9_9" :: ["1_3"]) |}
    (form_world (responsive 10))
  = Returns (textResult "Script error: Element not found: 9_9" true)
      (form_world (responsive 10)).
Proof.
  refine (proj1 (browser_evaluate_resolves_first silent "(el) => el.innerText"
                   (form_world (responsive 10)) eq_refl) ["1_7"] "9_9" ["1_3"] _ eq_refl).
  constructor; [|constructor]. eexists. reflexivity.
Defined.

(** A script that returns the uids of the elements it is given. *)
Example evaluate_passes_elements_in_order :
  returned (browser_evaluate echoing
              {| function := "(a, b) => [a, b]"; eval_args := Some ["1_7"; "1_3"] |}
              (form_world (responsive 10)))
  = Some (textResult (script_result (OtherValue "1_7,1_3")) false).
Proof. vm_compute. reflexivity. Qed.

(** ** New pages *)

Lemma is_live_registered (viewId url : string) (w : World) :
  is_live viewId (registers (create viewId url) w) = true.
Proof.
  unfold is_live. simpl. rewrite existsb_app. simpl.
  rewrite String.eqb_refl. apply orb_true_iff. right. reflexivity.
Qed.

(** X28: [browser_new_page] names the page 'ai-browser-' and the
    milliseconds [Date.now()] gives (all digits for a safe integer) and
    asks the view manager to create it with the url.  When the creation
    is fulfilled the page is selected and only then the load awaited: the
    operations of the context are [setActiveViewId] on the new id, then
    one [waitForNavigation] with the effective timeout, and the new page
    is the active page of the world the handler ends in, whatever the
    wait does.  When the creation is rejected nothing is selected or
    awaited, and a rejection with an Error is reported with its message;
    a creation that never ends leaves the tool pending. *)
Theorem browser_new_page_selects_before_waiting (B : Backend) (args : NewPageArgs)
    (w : World) (d0 now : Z) :
  B Z w dateNow = Settles d0 (inr now) ->
  let viewId := "ai-browser-" +:+ showNumber (host w) (inject_Z now) in
  let wait := Invoked (waitForNavigation (effective_timeout (np_timeout args))) in
  let outcome := browser_new_page B args w in
  (Z.abs now <= 9007199254740991 -> viewId = "ai-browser-" +:+ Js.showZ now) /\
  match B unit (tick d0 w) (create viewId (np_url args)) with
  | Settles d1 (inr _) =>
      log (final_world outcome) = log w ++ [Invoked (setActiveViewId viewId); wait] /\
      activeViewId (final_world outcome) = Some viewId /\
      is_live viewId (final_world outcome) = true
  | Settles d1 (inl e) =>
      log (final_world outcome) = log w /\
      activeViewId (final_world outcome) = activeViewId w /\
      (forall message,
          e = ErrorObject message ->
          outcome = Returns (textResult ("Failed to create new page: " +:+ message) true)
                      (tick d1 (tick d0 w)))
  | NeverSettles => outcome = Hangs (tick d0 w)
  end.
Proof.
  intros Hnow viewId wait outcome. split.
  { intros Hsafe. unfold viewId. rewrite showNumber_inject_Z by exact Hsafe. reflexivity. }
  assert (Hfinal : final_world outcome
                   = final_world
                       ((perform B (create viewId (np_url args));;
                         invoke (setActiveViewId viewId);;
                         invoke (waitForNavigation (effective_timeout (np_timeout args)));;
                         finalState ← perform B (getState viewId);
                         mret (textResult
                                 ("Created new page: "
                                  +:+ Js.or_else (from_option view_title "" finalState)
                                        "Untitled" +:+ " - "
                                  +:+ Js.or_else (from_option view_url "" finalState)
                                        (np_url args))
                                 false)) (tick d0 w))).
  { unfold outcome, browser_new_page. cbv zeta. rewrite ask_bind, final_world_guarded.
    unfold mbind at 1, async_bind at 1, perform at 1. rewrite Hnow. reflexivity. }
  destruct (B unit (tick d0 w) (create viewId (np_url args))) as [d1 [e|[]]|] eqn:Hcreate.
  - unfold mbind at 1, async_bind at 1, perform at 1 in Hfinal.
    rewrite Hcreate in Hfinal. cbn [final_world] in Hfinal. rewrite Hfinal.
    split; [reflexivity|]. split; [reflexivity|].
    intros message ->. unfold outcome, browser_new_page. cbv zeta. rewrite ask_bind.
    unfold try_catch, mbind at 1, async_bind at 1, perform at 1. rewrite Hnow.
    unfold mbind at 1, async_bind at 1, perform at 1. subst viewId.
    cbn [registers]. rewrite Hcreate.
    reflexivity.
  - unfold mbind at 1, async_bind at 1, perform at 1 in Hfinal. rewrite Hcreate in Hfinal.
    set (w1 := registers (create viewId (np_url args)) (tick d1 (tick d0 w))) in Hfinal.
    assert (Hlog1 : log w1 = log w) by reflexivity.
    unfold mbind at 1, async_bind at 1, invoke at 1 in Hfinal.
    cbn [settled_by_rule] in Hfinal.
    replace (is_live viewId w1) with true in Hfinal
      by (symmetry; apply is_live_registered).
    cbn [effect] in Hfinal.
    set (w2 := set_active (Some viewId) (record_call (setActiveViewId viewId) w1))
      in Hfinal.
    assert (Hlog2 : log w2 = log w ++ [Invoked (setActiveViewId viewId)]) by reflexivity.
    assert (Hlive2 : is_live viewId w2 = true)
      by exact (is_live_registered viewId (np_url args) (tick d1 (tick d0 w))).
    unfold mbind at 1, async_bind at 1, invoke at 1 in Hfinal.
    cbn [settled_by_rule] in Hfinal.
    set (w3 := record_call (waitForNavigation (effective_timeout (np_timeout args))) w2)
      in Hfinal.
    assert (Hlog3 : log w3 = log w ++ [Invoked (setActiveViewId viewId); wait]).
    { change (log w3) with (log w2 ++ [wait]). rewrite Hlog2, <- app_assoc. reflexivity. }
    destruct (browser w2 unit (log w2) (waitForNavigation _)) as [d3 [e3|[]]|];
      cbn [final_world effect] in Hfinal.
    + rewrite Hfinal. split; [exact Hlog3|]. split; [reflexivity|exact Hlive2].
    + cbv [mbind async_bind perform mret async_ret] in Hfinal.
      destruct (B (option ViewState) (tick d3 w3) (getState viewId)) as [d4 [e4|st]|];
        cbn [final_world registers] in Hfinal; rewrite Hfinal;
        (split; [exact Hlog3|]); (split; [reflexivity|exact Hlive2]).
    + rewrite Hfinal. split; [exact Hlog3|]. split; [reflexivity|exact Hlive2].
  - unfold outcome, browser_new_page. cbv zeta. rewrite ask_bind.
    unfold try_catch, mbind at 1, async_bind at 1, perform at 1. rewrite Hnow.
    unfold mbind at 1, async_bind at 1, perform at 1. subst viewId.
    cbn [registers]. rewrite Hcreate.
    reflexivity.
Qed.

Lemma browser_new_page_selects_before_waiting_witness :
  log (final_world
         (browser_new_page answering
            {| np_url := "https://example.com/docs"; np_timeout := None |} one_page))
  = [Invoked (setActiveViewId "ai-browser-1700000000000");
     Invoked (waitForNavigation 30000)]
  /\ activeViewId
       (final_world
          (browser_new_page answering
             {| np_url := "https://example.com/docs"; np_timeout := None |} one_page))
     = Some "ai-browser-1700000000000".
Proof.
  destruct (proj2 (browser_new_page_selects_before_waiting answering
                     {| np_url := "https://example.com/docs"; np_timeout := None |}
                     one_page 0 1700000000000 eq_refl))
    as (Hlog & Hactive & _).
  split; [exact Hlog|exact Hactive].
Defined.

Example new_page_is_selected :
  activeViewId (final_world
                  (browser_new_page answering
                     {| np_url := "https://example.com/docs"; np_timeout := None |} one_page))
  = Some "ai-browser-1700000000000"
  /\ returned (browser_new_page answering
                 {| np_url := "https://example.com/docs"; np_timeout := None |} one_page)
     = Some (textResult "Created new page: Untitled - https://example.com/docs" false).
Proof. vm_compute. split; reflexivity. Qed.
